(** * JobTrends LinkedIn dashboard: the fetch / retry / paginate pipeline

    A shallow embedding of the scraper's request client, listing fetcher,
    detail enrichment and time-series aggregator, and of the dashboard's
    latest-value view, with the properties the specification states about
    them.

    Python objects are records, [None] is [option]'s [None], Python's [int]
    is [Z], a [dict] with string keys is a [gmap string _], a pandas frame
    is the list of its rows.  Code that talks to the network, sleeps or
    touches the disk runs in the monad [M] over an explicit [World]. *)

From Stdlib Require Import ZArith String Ascii List Bool Lia Permutation DecimalString.
From Stdlib Require OrderedTypeEx Sorted.
From stdpp Require Import base gmap strings list.

Open Scope string_scope.
Open Scope Z_scope.

(** ** Python run time *)

(** The exceptions that the modelled code raises or lets through.
    [OutOfFuel] is not a Python exception: it marks a recursion that was
    not given enough unfoldings, and [make_request_fuel_stable] shows
    that [RequestHandler.make_request] never produces it. *)
Inductive exn : Type :=
| RequestException (msg : string)
| ValueError (msg : string)
| FileNotFoundError (path : string)
| IndexError (msg : string)
| KeyError (key : string)
| ParserError (path : string)
| OutOfFuel.

Definition is_RequestException (e : exn) : bool :=
  match e with RequestException _ => true | _ => false end.

(** [except Exception]: every Python exception. *)
Definition is_Exception (e : exn) : bool :=
  match e with OutOfFuel => false | _ => true end.

Inductive Res (A : Type) : Type :=
| Ok (a : A)
| Raise (e : exn).
Arguments Ok {A} a.
Arguments Raise {A} e.

#[global] Instance Res_ret : MRet Res := fun A a => Ok a.

#[global] Instance Res_bind : MBind Res := fun A B k r =>
  match r with
  | Ok a => k a
  | Raise e => Raise e
  end.

(** ** HTTP *)

Inductive verb : Type := GET | POST.

Record HttpCall : Type := {
  call_verb : verb;
  call_url : string;
  call_headers : gmap string string;
  call_data : option (gmap string string)
}.

(** The two attributes of [requests.Response] that the program reads. *)
Record Response : Type := {
  status_code : Z;
  text : string
}.

(** What one call of [session.get] / [session.post] meets: an answer of
    the server, or a [requests.RequestException] (connection error,
    timeout). *)
Inductive outcome : Type :=
| Answer (r : Response)
| Fault (msg : string).

Inductive event : Type :=
| EvHttp (c : HttpCall)
| EvSleep (seconds : Z).

Definition is_http (e : event) : bool :=
  match e with EvHttp _ => true | EvSleep _ => false end.

(** Number of HTTP calls issued in a trace. *)
Definition http_count (tr : list event) : nat :=
  length (List.filter is_http tr).

(** The [time.sleep] arguments of a trace, in order. *)
Definition sleeps (tr : list event) : list Z :=
  flat_map (fun e => match e with EvSleep d => [d] | EvHttp _ => [] end) tr.

(** The URLs requested in a trace, in order. *)
Definition urls (tr : list event) : list string :=
  flat_map (fun e => match e with EvHttp c => [call_url c] | EvSleep _ => [] end) tr.

(** ** Records and tables *)

Module JobPosting.

(** [JobPosting.__init__]: eighteen attributes, in the order they are
    assigned; this is also the column order of the frames built from
    [to_dict]. *)
Record t : Type := {
  title : option string;
  company : option string;
  location : option string;
  date_posted : option string;
  job_link : option string;
  description : option string;
  seniority_level : option string;
  employment_type : option string;
  job_function : option string;
  industries : option string;
  applicants : option string;
  company_url : option string;
  time_posted : option string;
  company_size : option string;
  founded : option string;
  company_type : option string;
  industry : option string;
  headquarters : option string
}.

Definition is_None {A} (field : option A) : bool :=
  match field with None => true | Some _ => false end.

(** [all(field is None for field in essential_fields)] *)
Definition is_empty (self : t) : bool :=
  let essential_fields :=
    [title self; company self; location self;
     date_posted self; job_link self; description self] in
  forallb is_None essential_fields.

(** [to_df]: a frame with this posting as its only row. *)
Definition to_df (self : t) : list t := [self].

(** [JobPosting(title=None, company=None, location=None,
    date_posted=None, job_link=None)]: the row that stands for "nothing
    to parse". *)
Definition sentinel : t :=
  {| title := None; company := None; location := None; date_posted := None;
     job_link := None; description := None; seniority_level := None;
     employment_type := None; job_function := None; industries := None;
     applicants := None; company_url := None; time_posted := None;
     company_size := None; founded := None; company_type := None;
     industry := None; headquarters := None |}.

End JobPosting.

Module TotalJobs.

(** One row of [TotalJobs.csv]; the column [24h_Jobs] is [Jobs_24h], and
    [None] in a count is an empty cell (NaN once loaded). *)
Record row : Type := {
  City : string;
  Jobs_24h : option Z;
  Week_Jobs : option Z;
  Month_Jobs : option Z;
  Total_Jobs : option Z;
  Date : string
}.

End TotalJobs.

(** A CSV file holds one of the two tables the program writes; any other
    content is [Unreadable] and makes [pd.read_csv] raise. *)
Inductive file : Type :=
| JobsCsv (rows : list JobPosting.t)
| TotalsCsv (rows : list TotalJobs.row)
| Unreadable.

(** ** The world and the monad *)

Record World : Type := {
  net : nat -> HttpCall -> outcome;  (* what the n-th HTTP call of the run meets *)
  trace : list event;                (* HTTP calls and sleeps so far, oldest first *)
  files : gmap string file;
  dirs : gset string;
  today : string                     (* datetime.now().strftime('%Y-%m-%d') *)
}.

Definition M (A : Type) : Type := World -> Res A * World.

#[global] Instance M_ret : MRet M := fun A a w => (Ok a, w).

#[global] Instance M_bind : MBind M := fun A B k m w =>
  match m w with
  | (Ok a, w') => k a w'
  | (Raise e, w') => (Raise e, w')
  end.

Definition raise {A} (e : exn) : M A := fun w => (Raise e, w).

(** A computation that does not touch the world. *)
Definition returned {A} (r : Res A) : M A := fun w => (r, w).

(** [try: body  except <caught> as e: handler e] *)
Definition try_except {A} (body : M A) (caught : exn -> bool) (handler : exn -> M A) : M A :=
  fun w =>
    match body w with
    | (Raise e, w') => if caught e then handler e w' else (Raise e, w')
    | (Ok a, w') => (Ok a, w')
    end.

Definition log_event (e : event) (w : World) : World :=
  {| net := net w; trace := trace w ++ [e]; files := files w;
     dirs := dirs w; today := today w |}.

(** [time.sleep(d)]; a negative argument raises [ValueError]. *)
Definition time_sleep (d : Z) : M unit :=
  fun w =>
    if d <? 0 then (Raise (ValueError "sleep length must be non-negative"), w)
    else (Ok tt, log_event (EvSleep d) w).

(** [session.get] / [session.post]: the call is recorded, and the network
    decides what it meets. *)
Definition session_request (c : HttpCall) : M Response :=
  fun w =>
    let w' := log_event (EvHttp c) w in
    match net w (http_count (trace w)) c with
    | Answer r => (Ok r, w')
    | Fault msg => (Raise (RequestException msg), w')
    end.

(** [str.upper] on ASCII letters. *)
Definition upper_ascii (c : ascii) : ascii :=
  let n := nat_of_ascii c in
  if ((97 <=? n) && (n <=? 122))%nat then ascii_of_nat (n - 32) else c.

Fixpoint upper (s : string) : string :=
  match s with
  | EmptyString => EmptyString
  | String c s' => String (upper_ascii c) (upper s')
  end.

(** ** utils/request_handler.py *)

Module RequestHandler.

Record t : Type := {
  max_retries : Z;
  base_delay : Z;
  rate_limit_delay : Z;
  headers : gmap string string
}.

(** [RequestHandler()] with the default arguments. *)
Definition defaults : t :=
  {| max_retries := 5; base_delay := 5; rate_limit_delay := 15; headers := ∅ |}.

(** [handle_response]: [Some true] is Python's [True] (success),
    [Some false] is [False] (retry needed), [None] is [None] (max
    retries reached). *)
Definition handle_response (self : t) (response : Response) (current_trial : Z)
  : M (option bool) :=
  let status := status_code response in
  if status =? 200 then
    mret (Some true)
  else if current_trial <? max_retries self then
    (if status =? 429 then
       let delay := rate_limit_delay self * current_trial in
       time_sleep delay
     else
       let delay := base_delay self * current_trial in
       time_sleep delay);;
    mret (Some false)
  else
    mret None.

(** The request of [make_request]: the dispatch on [method.upper()] and
    the call of the session, with the merged headers. *)
Definition send (self : t) (url method : string)
    (hdrs : option (gmap string string)) (data : option (gmap string string))
  : M Response :=
  let request_headers :=
    match hdrs with
    | Some extra => extra ∪ headers self   (* {**self.headers}, then update(headers) *)
    | None => headers self
    end in
  if String.eqb (upper method) "GET" then
    session_request {| call_verb := GET; call_url := url;
                       call_headers := request_headers; call_data := None |}
  else if String.eqb (upper method) "POST" then
    session_request {| call_verb := POST; call_url := url;
                       call_headers := request_headers; call_data := data |}
  else
    raise (ValueError ("Unsupported HTTP method: " ++ method)).

(** [make_request]; [fuel] bounds the depth of the self-calls. *)
Fixpoint make_request_fuel (fuel : nat) (self : t) (url method : string)
    (hdrs : option (gmap string string)) (data : option (gmap string string))
    (current_trial : Z) : M (option Response) :=
  match fuel with
  | O => raise OutOfFuel
  | S fuel' =>
    try_except
      (response ← send self url method hdrs data;
       result ← handle_response self response current_trial;
       match result with
       | Some true => mret (Some response)
       | Some false =>
           make_request_fuel fuel' self url method hdrs data (current_trial + 1)
       | None => mret None
       end)
      is_RequestException
      (fun e =>
         if current_trial <? max_retries self then
           let delay := base_delay self * current_trial in
           time_sleep delay;;
           make_request_fuel fuel' self url method hdrs data (current_trial + 1)
         else
           mret None)
  end.

(** Unfoldings that [make_request] can need from [current_trial] on:
    one per remaining trial, and one for the call itself. *)
Definition enough_fuel (self : t) (current_trial : Z) : nat :=
  S (Z.to_nat (max_retries self - current_trial)).

Definition make_request (self : t) (url method : string)
    (hdrs : option (gmap string string)) (data : option (gmap string string))
    (current_trial : Z) : M (option Response) :=
  make_request_fuel (enough_fuel self current_trial) self url method hdrs data current_trial.

Definition get (self : t) (url : string) (hdrs : option (gmap string string))
  : M (option Response) :=
  make_request self url "GET" hdrs None 0.

Definition post (self : t) (url : string) (data : option (gmap string string))
    (hdrs : option (gmap string string)) : M (option Response) :=
  make_request self url "POST" hdrs data 0.

End RequestHandler.

(** ** HTML extraction

    The scrapers read pages through BeautifulSoup selectors.  The
    selectors belong to the page layout, not to the pipeline: they are
    taken as an interface, one query per [soup.find] / [soup.find_all] of
    the source, each returning the stripped text (or attribute) the code
    reads from the element, [None] when the element is missing. *)

(** The four texts read from one [div.base-search-card__info]. *)
Record CardInfo : Type := {
  card_title : option string;     (* h3.base-search-card__title *)
  card_company : option string;   (* a.hidden-nested-link *)
  card_location : option string;  (* span.job-search-card__location *)
  card_date : option string       (* time.job-search-card__listdate, or ...--new *)
}.

Class Soup : Type := {
  (* search page *)
  search_card_infos : string -> list CardInfo;
  search_card_links : string -> list (option string);  (* href of each card's full link *)
  label_text : string -> string -> option string;      (* soup.find('label', {'for': id}) *)
  (* job page *)
  job_criteria : string -> list string;
  applicants_span : string -> option string;
  applicants_figcaption : string -> option string;
  meta_description : string -> option string;          (* non-empty content attribute *)
  posted_time : string -> option string;               (* re.match(r'Posted\s([\d:AMP\s]+)\.\s', s).group(1) *)
  description_markup : string -> option string;        (* get_text(separator='\n') *)
  sub_nav_location : string -> option string;
  org_name_link : string -> option string
}.

(** ** Small pieces of the Python library *)

(** [str.isascii]: a [string] holds the UTF-8 encoding of a Python [str],
    and an ASCII [str] is one whose bytes are all below 128. *)
Definition isascii (s : string) : bool :=
  forallb (fun c => (nat_of_ascii c <? 128)%nat) (list_ascii_of_string s).

(** [str(n)] for an integer. *)
Definition str_of_int (n : Z) : string := NilZero.string_of_int (Z.to_int n).

(** *** Code points

    The characters of a [str], decoded from its UTF-8 encoding.  Bytes
    that are no UTF-8 encode no [str]; they are read as U+FFFD. *)
Definition replacement : N := 65533.

(** What a first byte announces: the bits it carries, and the number of
    continuation bytes that follow it. *)
Definition lead (b : N) : N * nat :=
  (if b <? 128 then (b, 0%nat)
   else if b <? 192 then (replacement, 0%nat)
   else if b <? 224 then (b - 192, 1%nat)
   else if b <? 240 then (b - 224, 2%nat)
   else if b <? 248 then (b - 240, 3%nat)
   else (replacement, 0%nat))%N.

Fixpoint decode (need : nat) (acc : N) (s : string) : list N :=
  match s with
  | EmptyString => match need with O => [] | S _ => [replacement] end
  | String c s' =>
      let b := N_of_ascii c in
      match need with
      | O =>
          let '(v, k) := lead b in
          match k with O => v :: decode O 0 s' | S _ => decode k v s' end
      | S n =>
          if ((128 <=? b) && (b <? 192))%N then
            let acc' := (acc * 64 + (b - 128))%N in
            match n with O => acc' :: decode O 0 s' | S _ => decode n acc' s' end
          else
            replacement ::
            (let '(v, k) := lead b in
             match k with O => v :: decode O 0 s' | S _ => decode k v s' end)
      end
  end.

Definition code_points (s : string) : list N := decode O 0 s.

(** The code points whose decimal value is 0, in the Unicode tables of
    the interpreter (Unicode 14): each one starts a run of ten decimal
    digits, of values 0 to 9. *)
Definition decimal_zeros : list N :=
  [48; 1632; 1776; 1984; 2406; 2534; 2662; 2790; 2918; 3046; 3174; 3302; 3430; 3558;
   3664; 3792; 3872; 4160; 4240; 6112; 6160; 6470; 6608; 6784; 6800; 6992; 7088; 7232;
   7248; 42528; 43216; 43264; 43472; 43504; 43600; 44016; 65296; 66720; 68912; 69734;
   69872; 69942; 70096; 70384; 70736; 70864; 71248; 71360; 71472; 71904; 72016; 72784;
   73040; 73120; 92768; 92864; 93008; 120782; 120792; 120802; 120812; 120822; 123200;
   123632; 125264; 130032]%N.

(** [unicodedata.decimal]: the value of a decimal digit. *)
Definition decimal (cp : N) : option Z :=
  (fun zero => Z.of_N (cp - zero))
    <$> List.find (fun zero => ((zero <=? cp) && (cp <? zero + 10))%N) decimal_zeros.

(** What [\d] matches in a pattern for [str]: a decimal digit of any
    script. *)
Definition is_digit (cp : N) : bool :=
  match decimal cp with Some _ => true | None => false end.

Definition flush (cur : list N) : list (list N) :=
  match cur with [] => [] | _ => [cur] end.

(** [re.findall(r'\d+', s)]: the maximal runs of decimal digits. *)
Fixpoint findall_digits (cur s : list N) : list (list N) :=
  match s with
  | [] => flush cur
  | c :: s' =>
      if is_digit c then findall_digits (cur ++ [c]) s'
      else flush cur ++ findall_digits [] s'
  end.

(** The value of a string of decimal digits. *)
Fixpoint int_of_digits (acc : Z) (s : list N) : Z :=
  match s with
  | [] => acc
  | c :: s' => int_of_digits (10 * acc + default 0 (decimal c)) s'
  end.

(** [sys.int_info.default_max_str_digits] *)
Definition int_max_str_digits : Z := 4300.

(** [int(s)] for a string of decimal digits: a string of more than
    [int_max_str_digits] digits is not converted. *)
Definition int_of_str (s : list N) : Res Z :=
  let digits := Z.of_nat (length s) in
  if int_max_str_digits <? digits then
    Raise (ValueError ("Exceeds the limit (4300 digits) for integer string conversion: "
                       ++ "value has " ++ str_of_int digits
                       ++ " digits; use sys.set_int_max_str_digits() to increase the limit"))
  else Ok (int_of_digits 0 s).

Definition hex_digit (n : nat) : ascii :=
  ascii_of_nat (if (n <? 10)%nat then 48 + n else 55 + n).

Definition is_unreserved (c : ascii) : bool :=
  let n := nat_of_ascii c in
  ((48 <=? n) && (n <=? 57) || (65 <=? n) && (n <=? 90) || (97 <=? n) && (n <=? 122)
   || (n =? 95) || (n =? 46) || (n =? 45) || (n =? 126) || (n =? 47))%nat.

(** [urllib.parse.quote(s)] with the default [safe='/']. *)
Fixpoint quote (s : string) : string :=
  match s with
  | EmptyString => EmptyString
  | String c s' =>
      if is_unreserved c then String c (quote s')
      else
        let n := nat_of_ascii c in
        String "%" (String (hex_digit (n / 16)) (String (hex_digit (n mod 16)) (quote s')))
  end.

(** [s.replace("\n", "")] *)
Fixpoint remove_newlines (s : string) : string :=
  match s with
  | EmptyString => EmptyString
  | String c s' =>
      if (nat_of_ascii c =? 10)%nat then remove_newlines s' else String c (remove_newlines s')
  end.

(** [range(start, stop, step)] for a positive [step]. *)
Definition range (start stop step : Z) : list Z :=
  map (fun k => start + Z.of_nat k * step)
      (seq 0 (Z.to_nat ((stop - start + step - 1) / step))).

(** [path / name] of [pathlib], for a relative [name]. *)
Definition path_join (path name : string) : string := path ++ "/" ++ name.

(** [path.mkdir(parents=True, exist_ok=True)] *)
Definition mkdir (path : string) : M unit :=
  fun w =>
    (Ok tt, {| net := net w; trace := trace w; files := files w;
               dirs := {[path]} ∪ dirs w; today := today w |}).

(** [df.to_csv(path, index=False)] *)
Definition to_csv (path : string) (content : file) : M unit :=
  fun w =>
    (Ok tt, {| net := net w; trace := trace w; files := <[path := content]> (files w);
               dirs := dirs w; today := today w |}).

(** [path.exists()] *)
Definition exists_file (path : string) : M bool :=
  fun w => (Ok (bool_decide (is_Some (files w !! path))), w).

(** [pd.read_csv(path)] where the job table is expected.  A file of the
    other kind is treated like an unreadable one. *)
Definition read_jobs_csv (path : string) : M (list JobPosting.t) :=
  fun w =>
    match files w !! path with
    | None => (Raise (FileNotFoundError path), w)
    | Some (JobsCsv rows) => (Ok rows, w)
    | Some _ => (Raise (ParserError path), w)
    end.

(** [pd.read_csv(path)] where the time series is expected. *)
Definition read_totals_csv (path : string) : M (list TotalJobs.row) :=
  fun w =>
    match files w !! path with
    | None => (Raise (FileNotFoundError path), w)
    | Some (TotalsCsv rows) => (Ok rows, w)
    | Some _ => (Raise (ParserError path), w)
    end.

(** [datetime.datetime.now().strftime('%Y-%m-%d')] *)
Definition strftime_now : M string := fun w => (Ok (today w), w).

(** [l[i]] *)
Definition py_index {A} (l : list A) (i : nat) : M A :=
  match l !! i with
  | Some x => mret x
  | None => raise (IndexError "list index out of range")
  end.

(** ** scrapers/job_list_scraper.py *)

Module JobListScraper.

Record t : Type := {
  request_handler : RequestHandler.t;
  headers : gmap string string
}.

Definition _build_search_url (job_title location : string) (position : Z) : string :=
  let encoded_job_title := quote job_title in
  if position =? 0 then
    "https://www.linkedin.com/jobs/search?keywords=" ++ encoded_job_title
      ++ "&location=" ++ location
      ++ "&trk=public_jobs_jobs-search-bar_search-submit&position=0&pageNum=0"
  else
    "https://www.linkedin.com/jobs-guest/jobs/api/seeMoreJobPostings/search?keywords="
      ++ encoded_job_title ++ "&location=" ++ location
      ++ "&trk=public_jobs_jobs-search-bar_search-submit&position=1&pageNum=0&start="
      ++ str_of_int position.

(** [_parse_jobs].  The extractors are total, so the [except] branch
    that skips a posting has no counterpart here. *)
Definition _parse_jobs `{Soup} (response_text : string) : list JobPosting.t :=
  let job_postings := search_card_infos response_text in
  let job_posting_urls := search_card_links response_text in
  match job_postings with
  | [] => JobPosting.to_df JobPosting.sentinel
  | _ =>
      imap (fun i job_posting =>
              {| JobPosting.title := card_title job_posting;
                 JobPosting.company := card_company job_posting;
                 JobPosting.location := card_location job_posting;
                 JobPosting.date_posted := card_date job_posting;
                 JobPosting.job_link :=
                   match job_posting_urls !! i with   (* i < len(job_posting_urls) *)
                   | Some href => href
                   | None => None
                   end;
                 JobPosting.description := None; JobPosting.seniority_level := None;
                 JobPosting.employment_type := None; JobPosting.job_function := None;
                 JobPosting.industries := None; JobPosting.applicants := None;
                 JobPosting.company_url := None; JobPosting.time_posted := None;
                 JobPosting.company_size := None; JobPosting.founded := None;
                 JobPosting.company_type := None; JobPosting.industry := None;
                 JobPosting.headquarters := None |})
           job_postings
  end.

(** The inner [extract_count]; [elem] is the element's stripped text. *)
Definition extract_count (elem : option string) : Res Z :=
  match elem with
  | Some text =>
      let numbers := findall_digits [] (code_points text) in
      match last numbers with      (* int(numbers[-1]) if numbers else 0 *)
      | Some n => int_of_str n
      | None => Ok 0
      end
  | None => Ok 0
  end.

Definition _parse_total_jobs `{Soup} (response_text : string) : Res (list Z) :=
  let total_elem := label_text response_text "f_TPR-0" in
  let past_month_elem := label_text response_text "f_TPR-1" in
  let past_week_elem := label_text response_text "f_TPR-2" in
  let past_24h_elem := label_text response_text "f_TPR-3" in
  total_jobs ← extract_count total_elem;
  past_month_jobs ← extract_count past_month_elem;
  past_week_jobs ← extract_count past_week_elem;
  past_24h_jobs ← extract_count past_24h_elem;
  mret [total_jobs; past_month_jobs; past_week_jobs; past_24h_jobs].

(** The value returned when the request failed. *)
Definition all_None : list (option Z) := [None; None; None; None].

Definition get_total_jobs `{Soup} (self : t) (job_title location : string)
  : M (list (option Z)) :=
  let url := _build_search_url job_title location 0 in
  response ← RequestHandler.get (request_handler self) url (Some (headers self));
  match response with
  | None => mret all_None
  | Some response =>
      counts ← returned (_parse_total_jobs (text response));
      mret (Some <$> counts)
  end.

Definition get_job_list `{Soup} (self : t) (job_title location : string) (position : Z)
  : M (list JobPosting.t) :=
  let url := _build_search_url job_title location position in
  response ← RequestHandler.get (request_handler self) url (Some (headers self));
  match response with
  | None => mret (JobPosting.to_df JobPosting.sentinel)
  | Some response => mret (_parse_jobs (text response))
  end.

End JobListScraper.

(** [Path(p).parent]: the path without its last component. *)
Fixpoint strip_last (p : string) : option string :=
  match p with
  | EmptyString => None
  | String c p' =>
      match strip_last p' with
      | Some d => Some (String c d)
      | None => if Ascii.eqb c "/" then Some "" else None
      end
  end.

Definition parent (p : string) : string :=
  match strip_last p with
  | Some "" => "/"
  | Some d => d
  | None => "."
  end.

(** Insertion into a list ordered by [le], before the first element that
    is not smaller. *)
Fixpoint insert_by {A} (le : A -> A -> bool) (x : A) (l : list A) : list A :=
  match l with
  | [] => [x]
  | y :: l' => if le x y then x :: l else y :: insert_by le x l'
  end.

(** [df.sort_values(by=...)] for the order [le] on rows.  pandas does not
    promise an order among rows with equal keys; here they keep the order
    they had. *)
Definition sort_values {A} (le : A -> A -> bool) (df : list A) : list A :=
  fold_right (insert_by le) [] df.

(** ** scrapers/job_details_scraper.py *)

Module JobDetailsScraper.

Record t : Type := {
  request_handler : RequestHandler.t;
  headers : gmap string string
}.

(** A row of the details frame, in [column_order]. *)
Record row : Type := {
  location : option string;
  seniority_level : option string;
  employment_type : option string;
  job_function : option string;
  industries : option string;
  applicants : option string;
  description : option string;
  time_posted : option string;
  company_url : option string
}.

(** [_parse_response]: whatever the page holds, the frame has one row. *)
Definition _parse_response `{Soup} (response_text : string) : list row :=
  let criteria := job_criteria response_text in
  let seniority_level := criteria !! 0%nat in
  let employment_type := criteria !! 1%nat in
  let job_function := criteria !! 2%nat in
  let industries := criteria !! 3%nat in
  let applicants_elem :=
    match applicants_span response_text with
    | Some elem => Some elem
    | None => applicants_figcaption response_text
    end in
  let applicants := applicants_elem in
  let time_posted :=
    match meta_description response_text with
    | Some date_description => posted_time date_description
    | None => None
    end in
  let description := remove_newlines <$> description_markup response_text in
  let location := sub_nav_location response_text in
  let company_url := org_name_link response_text in
  [ {| location := location; seniority_level := seniority_level;
       employment_type := employment_type; job_function := job_function;
       industries := industries; applicants := applicants;
       description := description; time_posted := time_posted;
       company_url := company_url |} ].

Definition get_job_details `{Soup} (self : t) (job_url : string) : M (list row) :=
  response ← RequestHandler.get (request_handler self) job_url (Some (headers self));
  match response with
  | None => mret []        (* pd.DataFrame(columns=[...]): no row *)
  | Some response => mret (_parse_response (text response))
  end.

End JobDetailsScraper.

(** ** scrapers/linkedin_scraper.py *)

Module LinkedInScraper.

(** The company scraper takes no part in the functions below and is left
    out of the record. *)
Record t : Type := {
  data_dir : string;
  job_list_scraper : JobListScraper.t;
  job_details_scraper : JobDetailsScraper.t
}.

(** [new_jobs.empty or new_jobs['title'].isnull().all()] *)
Definition no_more_jobs (new_jobs : list JobPosting.t) : bool :=
  bool_decide (new_jobs = []) || forallb (fun r => JobPosting.is_None (JobPosting.title r)) new_jobs.

(** The [for position in range(60, actual_limit, 10)] loop of
    [scrape_all_jobs], with its [break]. *)
Fixpoint paginate `{Soup} (self : t) (job_title location : string)
    (positions : list Z) (jobs_df : list JobPosting.t) : M (list JobPosting.t) :=
  match positions with
  | [] => mret jobs_df
  | position :: rest =>
      new_jobs ← JobListScraper.get_job_list (job_list_scraper self) job_title location position;
      if no_more_jobs new_jobs then mret jobs_df
      else paginate self job_title location rest (jobs_df ++ new_jobs)
  end.

Definition jobs_file (self : t) (job_title location : string) : string :=
  path_join (data_dir self) (job_title ++ "/" ++ job_title ++ " in " ++ location ++ ".csv").

(** [min(total_jobs[0], limit)] *)
Definition actual_limit (total limit : Z) : Z := Z.min total limit.

(** The end of [scrape_all_jobs]: the frame is written to its file and
    returned with the path. *)
Definition save_jobs (self : t) (job_title location : string) (jobs_df : list JobPosting.t)
  : M (option (list JobPosting.t) * option string) :=
  let file_path := jobs_file self job_title location in
  mkdir (parent file_path);;
  to_csv file_path (JobsCsv jobs_df);;
  mret (Some jobs_df, Some file_path).

Definition scrape_all_jobs `{Soup} (self : t) (job_title location : string) (limit : Z)
  : M (option (list JobPosting.t) * option string) :=
  total_jobs ← JobListScraper.get_total_jobs (job_list_scraper self) job_title location;
  total ← py_index total_jobs 0;
  match total with
  | None => mret (None, None)
  | Some total =>
      let actual_limit := actual_limit total limit in
      jobs_df ← JobListScraper.get_job_list (job_list_scraper self) job_title location 0;
      if bool_decide (jobs_df = []) then mret (None, None)
      else
        jobs_df ← paginate self job_title location (range 60 actual_limit 10) jobs_df;
        save_jobs self job_title location jobs_df
  end.

(** The [for i, row in df.iterrows()] loop of [scrape_all_job_details];
    both [continue]s drop the row. *)
Fixpoint details_loop `{Soup} (self : t) (rows : list JobPosting.t)
    (jobs_with_details : list JobPosting.t) : M (list JobPosting.t) :=
  match rows with
  | [] => mret jobs_with_details
  | row :: rest =>
      match JobPosting.job_link row with
      | None => details_loop self rest jobs_with_details
      | Some job_url =>
          job_details ← JobDetailsScraper.get_job_details (job_details_scraper self) job_url;
          match job_details with
          | [] => details_loop self rest jobs_with_details
          | first :: _ =>
              let job :=
                {| JobPosting.title := JobPosting.title row;
                   JobPosting.company := JobPosting.company row;
                   JobPosting.location := JobPosting.location row;
                   JobPosting.date_posted := JobPosting.date_posted row;
                   JobPosting.job_link := JobPosting.job_link row;
                   JobPosting.description := JobDetailsScraper.description first;
                   JobPosting.seniority_level := JobDetailsScraper.seniority_level first;
                   JobPosting.employment_type := JobDetailsScraper.employment_type first;
                   JobPosting.job_function := JobDetailsScraper.job_function first;
                   JobPosting.industries := JobDetailsScraper.industries first;
                   JobPosting.applicants := JobDetailsScraper.applicants first;
                   JobPosting.company_url := JobDetailsScraper.company_url first;
                   JobPosting.time_posted := JobDetailsScraper.time_posted first;
                   JobPosting.company_size := None; JobPosting.founded := None;
                   JobPosting.company_type := None; JobPosting.industry := None;
                   JobPosting.headquarters := None |} in
              details_loop self rest (jobs_with_details ++ [job])
          end
      end
  end.

Definition scrape_all_job_details `{Soup} (self : t) (file_path : string)
  : M (list JobPosting.t * string) :=
  df ← read_jobs_csv file_path;
  jobs_with_details ← details_loop self df [];
  let result_df := jobs_with_details in
  to_csv file_path (JobsCsv result_df);;
  mret (result_df, file_path).

End LinkedInScraper.

(** ** config/settings.py *)

Definition DEFAULT_CITIES : list string :=
  ["Ottawa"; "Toronto"; "Montreal"; "Vancouver"; "Calgary"; "Edmonton"].

(** ** core/orchestrator.py *)

Module ScrapingOrchestrator.

Record t : Type := {
  data_dir : string;
  linkedin_scraper : LinkedInScraper.t;
  job_list_scraper : JobListScraper.t
}.

(** The [for city in cities] loop of [create_city_comparison]; [None] is
    its [return None]. *)
Fixpoint count_loop `{Soup} (self : t) (job_title : string) (cities : list string)
    (total_jobs : list (list (option Z))) : M (option (list (list (option Z)))) :=
  match cities with
  | [] => mret (Some total_jobs)
  | city :: rest =>
      result ← JobListScraper.get_total_jobs (job_list_scraper self) job_title city;
      if bool_decide (result = [None; None; None; None]) then mret None
      else count_loop self job_title rest (total_jobs ++ [result])
  end.

(** The six column assignments, read row by row. *)
Fixpoint populate (cities : list string) (total_jobs : list (list (option Z)))
    (date : string) : M (list TotalJobs.row) :=
  match cities, total_jobs with
  | city :: cities', x :: total_jobs' =>
      x3 ← py_index x 3;
      x2 ← py_index x 2;
      x1 ← py_index x 1;
      x0 ← py_index x 0;
      rest ← populate cities' total_jobs' date;
      mret ({| TotalJobs.City := city; TotalJobs.Jobs_24h := x3;
               TotalJobs.Week_Jobs := x2; TotalJobs.Month_Jobs := x1;
               TotalJobs.Total_Jobs := x0; TotalJobs.Date := date |} :: rest)
  | _, _ => mret []
  end.

Definition totals_file (self : t) (job_title : string) : string :=
  path_join (path_join (data_dir self) (job_title ++ "/TotalJobs")) "TotalJobs.csv".

Definition by_Date (a b : TotalJobs.row) : bool :=
  String.leb (TotalJobs.Date a) (TotalJobs.Date b).

Definition create_city_comparison `{Soup} (self : t) (job_title : string)
    (cities : option (list string)) : M (option (list TotalJobs.row)) :=
  let cities := default DEFAULT_CITIES cities in
  let job_data_dir := path_join (data_dir self) (job_title ++ "/TotalJobs") in
  mkdir job_data_dir;;
  counts ← count_loop self job_title cities [];
  match counts with
  | None => mret None
  | Some total_jobs =>
      date ← strftime_now;
      df ← populate cities total_jobs date;
      let total_jobs_file := path_join job_data_dir "TotalJobs.csv" in
      df ← try_except
             (present ← exists_file total_jobs_file;
              if present : bool then
                existing_df ← read_totals_csv total_jobs_file;
                mret (existing_df ++ df)%list
              else mret df : M (list TotalJobs.row))
             is_Exception
             (fun _ => mret df);
      let df := sort_values by_Date df in
      to_csv total_jobs_file (TotalsCsv df);;
      mret (Some df)
  end.

End ScrapingOrchestrator.

(** ** dashboard/dashboard_functions.py *)

Module Dashboard.

Definition JOB_DATE_OPTIONS : gmap string string :=
  list_to_map [("Last 24h", "24h_Jobs"); ("Last Week", "Week_Jobs");
               ("Last Month", "Month_Jobs"); ("Total", "Total_Jobs")].

(** [df[column_name]] on a row of the time series. *)
Definition column (column_name : string) (r : TotalJobs.row) : M (option Z) :=
  if String.eqb column_name "24h_Jobs" then mret (TotalJobs.Jobs_24h r)
  else if String.eqb column_name "Week_Jobs" then mret (TotalJobs.Week_Jobs r)
  else if String.eqb column_name "Month_Jobs" then mret (TotalJobs.Month_Jobs r)
  else if String.eqb column_name "Total_Jobs" then mret (TotalJobs.Total_Jobs r)
  else raise (KeyError column_name).

(** A row of [df[['Date', 'City', column_name]]], the count renamed to
    [Total_Jobs]; [None] is NaN. *)
Record row : Type := {
  Date : string;
  City : string;
  Total_Jobs : option Z
}.

(** A row of the returned frame. *)
Record view : Type := {
  view_Date : string;
  view_City : string;
  view_Total_Jobs : Z;
  view_delta : Z
}.

(** [df[['Date', 'City', column_name]]] and the [rename]. *)
Fixpoint select (column_name : string) (df : list TotalJobs.row) : M (list row) :=
  match df with
  | [] => mret []
  | r :: df' =>
      v ← column column_name r;
      rest ← select column_name df';
      mret ({| Date := TotalJobs.Date r; City := TotalJobs.City r; Total_Jobs := v |} :: rest)
  end.

Definition Date_asc (a b : row) : bool := String.leb (Date a) (Date b).
Definition Date_desc (a b : row) : bool := String.leb (Date b) (Date a).

(** The group keys of [df.groupby('City')]: the cities that occur, each
    once, in increasing order. *)
Definition group_keys (df : list row) : list string :=
  fold_right
    (fun r keys => if bool_decide (City r ∈ keys) then keys else insert_by String.leb (City r) keys)
    [] df.

Definition group (df : list row) (key : string) : list row :=
  List.filter (fun r => String.eqb (City r) key) df.

(** [df.groupby('City').apply(lambda x: x.sort_values(by='Date'))
       .reset_index(drop=True)] *)
Definition groupby_City_sorted (df : list row) : list row :=
  flat_map (fun key => sort_values Date_asc (group df key)) (group_keys df).

(** [x - y] on floats that may be NaN. *)
Definition sub_nan (x y : option Z) : option Z :=
  match x, y with
  | Some a, Some b => Some (a - b)
  | _, _ => None
  end.

(** [df.groupby('City')['Total_Jobs'].diff()]: each row against the
    previous row of its city, NaN for a city's first row; [seen] holds
    the last value met for each city. *)
Fixpoint diff_by_City (seen : gmap string (option Z)) (df : list row) : list (option Z) :=
  match df with
  | [] => []
  | r :: df' =>
      let d :=
        match seen !! City r with
        | Some previous => sub_nan (Total_Jobs r) previous
        | None => None
        end in
      d :: diff_by_City (<[City r := Total_Jobs r]> seen) df'
  end.

(** [fillna(0).astype(int)] on both columns. *)
Definition fill (r : row) (delta : option Z) : view :=
  {| view_Date := Date r; view_City := City r;
     view_Total_Jobs := default 0 (Total_Jobs r); view_delta := default 0 delta |}.

(** [max] of two strings (the first one when they are equal). *)
Definition str_max (a b : string) : string := if String.ltb a b then b else a.

(** [df['Date'].max()]; [None] for an empty column. *)
Definition Date_max (df : list view) : option string :=
  match df with
  | [] => None
  | r :: df' => Some (fold_left (fun m r' => str_max m (view_Date r')) df' (view_Date r))
  end.

(** The frame operations of [find_latest_jobs_cities], after the column
    has been chosen. *)
Definition with_deltas (df : list row) : list view :=
  let df := sort_values Date_desc df in
  let df := groupby_City_sorted df in
  let delta := diff_by_City ∅ df in
  zip_with fill df delta.

Definition latest (df : list view) : list view :=
  match Date_max df with
  | Some m => List.filter (fun r => String.eqb (view_Date r) m) df
  | None => []
  end.

Definition find_latest_jobs_cities (job_search job_date : string) (data_dir : option string)
  : M (list view) :=
  let data_dir := default "data/raw/JobData" data_dir in
  let csv_path := path_join data_dir (job_search ++ "/TotalJobs/TotalJobs.csv") in
  present ← exists_file csv_path;
  if negb present then raise (FileNotFoundError csv_path)
  else
    df ← read_totals_csv csv_path;
    match JOB_DATE_OPTIONS !! job_date with
    | None =>
        raise (ValueError ("Invalid job_date: " ++ job_date ++ ". Must be one of "
                           ++ "['Last 24h', 'Last Week', 'Last Month', 'Total']"))
    | Some column_name =>
        df ← select column_name df;
        mret (latest (with_deltas df))
    end.

End Dashboard.

(** ** models/job_posting.py, the conversions *)

Module JobPostingConv.

(** [to_dict]: the attributes by name. *)
Definition to_dict (self : JobPosting.t) : gmap string (option string) :=
  list_to_map
    [("title", JobPosting.title self); ("company", JobPosting.company self);
     ("location", JobPosting.location self); ("date_posted", JobPosting.date_posted self);
     ("job_link", JobPosting.job_link self); ("description", JobPosting.description self);
     ("seniority_level", JobPosting.seniority_level self);
     ("employment_type", JobPosting.employment_type self);
     ("job_function", JobPosting.job_function self);
     ("industries", JobPosting.industries self); ("applicants", JobPosting.applicants self);
     ("company_url", JobPosting.company_url self);
     ("time_posted", JobPosting.time_posted self);
     ("company_size", JobPosting.company_size self); ("founded", JobPosting.founded self);
     ("company_type", JobPosting.company_type self); ("industry", JobPosting.industry self);
     ("headquarters", JobPosting.headquarters self)].

(** The parameters of [__init__]; the first two have no default. *)
Definition parameters : list string :=
  ["title"; "job_link"; "company"; "location"; "date_posted"; "time_posted"; "description";
   "seniority_level"; "employment_type"; "job_function"; "industries"; "applicants";
   "company_url"; "company_size"; "founded"; "company_type"; "industry"; "headquarters"].

(** A keyword argument that may be left out: its default is [None]. *)
Definition keyword (data : gmap string (option string)) (name : string) : option string :=
  match data !! name with
  | Some value => value
  | None => None
  end.

(** [from_dict]: the constructor called with the entries of [data] as
    keyword arguments.  The call raises [TypeError], here [None], when
    [data] has a key that is no parameter or lacks [title] or
    [job_link]. *)
Definition from_dict (data : gmap string (option string)) : option JobPosting.t :=
  if forallb (fun key => bool_decide (key ∈ parameters)) (map fst (map_to_list data)) then
    match data !! "title", data !! "job_link" with
    | Some title, Some job_link =>
        Some {| JobPosting.title := title; JobPosting.company := keyword data "company";
                JobPosting.location := keyword data "location";
                JobPosting.date_posted := keyword data "date_posted";
                JobPosting.job_link := job_link;
                JobPosting.description := keyword data "description";
                JobPosting.seniority_level := keyword data "seniority_level";
                JobPosting.employment_type := keyword data "employment_type";
                JobPosting.job_function := keyword data "job_function";
                JobPosting.industries := keyword data "industries";
                JobPosting.applicants := keyword data "applicants";
                JobPosting.company_url := keyword data "company_url";
                JobPosting.time_posted := keyword data "time_posted";
                JobPosting.company_size := keyword data "company_size";
                JobPosting.founded := keyword data "founded";
                JobPosting.company_type := keyword data "company_type";
                JobPosting.industry := keyword data "industry";
                JobPosting.headquarters := keyword data "headquarters" |}
    | _, _ => None
    end
  else None.

(** [from_df], on a frame whose columns are the eighteen attributes.
    [df.iloc[index]] counts a negative index from the end. *)
Definition from_df (df : list JobPosting.t) (index : Z) : Res JobPosting.t :=
  if bool_decide (df = []) || (Z.of_nat (length df) <=? index) then
    Raise (ValueError "Invalid DataFrame or index")
  else
    let position := if index <? 0 then Z.of_nat (length df) + index else index in
    if position <? 0 then Raise (IndexError "single positional indexer is out-of-bounds")
    else
      match df !! Z.to_nat position with
      | Some row => Ok row
      | None => Raise (IndexError "single positional indexer is out-of-bounds")
      end.

End JobPostingConv.

(** ** scrapers/company_details_scraper.py *)

(** The one query of the company page: for each [div] of the facts list,
    the texts of its [dt] and of its [dd], [None] for a missing
    element. *)
Class CompanySoup : Type := {
  company_facts : string -> list (option string * option string)
}.

(** [str.lower] on ASCII letters. *)
Definition lower_ascii (c : ascii) : ascii :=
  let n := nat_of_ascii c in
  if ((65 <=? n) && (n <=? 90))%nat then ascii_of_nat (n + 32) else c.

Fixpoint lower (s : string) : string :=
  match s with
  | EmptyString => EmptyString
  | String c s' => String (lower_ascii c) (lower s')
  end.

(** [s.replace(' ', '_')] *)
Fixpoint replace_spaces (s : string) : string :=
  match s with
  | EmptyString => EmptyString
  | String c s' =>
      String (if (nat_of_ascii c =? 32)%nat then "_"%char else c) (replace_spaces s')
  end.

Module CompanyDetailsScraper.

Record t : Type := {
  request_handler : RequestHandler.t;
  headers : gmap string string
}.

(** [key.replace(' ', '_').lower()] *)
Definition normalized_key (key : string) : string := lower (replace_spaces key).

(** The body of the loop over the elements: [data[normalized_key] = value]
    when both the key and the value are there. *)
Definition record_fact (data : gmap string string) (element : option string * option string)
  : gmap string string :=
  match element with
  | (Some key, Some value) => <[normalized_key key := value]> data
  | _ => data
  end.

(** [_parse_response]: [pd.DataFrame([data])], a frame of one row whose
    columns are the keys of [data]. *)
Definition _parse_response `{CompanySoup} (response_text : string) : list (gmap string string) :=
  let elements := company_facts response_text in
  let data := fold_left record_fact elements ∅ in
  [data].

(** [df.empty] for a frame given by the dicts of its rows: no row, or no
    column. *)
Definition empty (df : list (gmap string string)) : bool :=
  forallb (fun row => bool_decide (row = ∅)) df.

Definition get_company_details `{CompanySoup} (self : t) (company_url : string)
  : M (list (gmap string string)) :=
  response ← RequestHandler.get (request_handler self) company_url (Some (headers self));
  match response with
  | None => mret []        (* pd.DataFrame() *)
  | Some response => mret (_parse_response (text response))
  end.

(** [df.get(name, [None]).iloc[0] if name in df.columns else None] *)
Definition first_value (df : list (gmap string string)) (name : string) : option string :=
  match df with
  | first :: _ => first !! name
  | [] => None
  end.

End CompanyDetailsScraper.

(** ** scrapers/linkedin_scraper.py, the company pass

    [scrape_all_company_details] reads one attribute of [self], the
    company scraper, which is its first argument here. *)

Module CompanyPass.

(** The [for i, row in df.iterrows()] loop. *)
Fixpoint company_loop `{CompanySoup} (scraper : CompanyDetailsScraper.t)
    (rows : list JobPosting.t) (jobs_with_company_details : list JobPosting.t)
  : M (list JobPosting.t) :=
  match rows with
  | [] => mret jobs_with_company_details
  | row :: rest =>
      match JobPosting.company_url row with
      | None => company_loop scraper rest jobs_with_company_details
      | Some company_url =>
          company_details ← CompanyDetailsScraper.get_company_details scraper company_url;
          if CompanyDetailsScraper.empty company_details then
            company_loop scraper rest jobs_with_company_details
          else
            let job :=
              {| JobPosting.title := JobPosting.title row;
                 JobPosting.company := JobPosting.company row;
                 JobPosting.location := JobPosting.location row;
                 JobPosting.date_posted := JobPosting.date_posted row;
                 JobPosting.job_link := JobPosting.job_link row;
                 JobPosting.description := JobPosting.description row;
                 JobPosting.seniority_level := JobPosting.seniority_level row;
                 JobPosting.employment_type := JobPosting.employment_type row;
                 JobPosting.job_function := JobPosting.job_function row;
                 JobPosting.industries := JobPosting.industries row;
                 JobPosting.applicants := JobPosting.applicants row;
                 JobPosting.company_url := JobPosting.company_url row;
                 JobPosting.time_posted := JobPosting.time_posted row;
                 JobPosting.company_size :=
                   CompanyDetailsScraper.first_value company_details "company_size";
                 JobPosting.founded :=
                   CompanyDetailsScraper.first_value company_details "founded";
                 JobPosting.company_type :=
                   CompanyDetailsScraper.first_value company_details "type";
                 JobPosting.industry :=
                   CompanyDetailsScraper.first_value company_details "industry";
                 JobPosting.headquarters :=
                   CompanyDetailsScraper.first_value company_details "headquarters" |} in
            company_loop scraper rest (jobs_with_company_details ++ [job])
      end
  end.

Definition scrape_all_company_details `{CompanySoup} (scraper : CompanyDetailsScraper.t)
    (file_path : string) : M (list JobPosting.t * string) :=
  df ← read_jobs_csv file_path;
  jobs_with_company_details ← company_loop scraper df [];
  let result_df := jobs_with_company_details in
  to_csv file_path (JobsCsv result_df);;
  mret (result_df, file_path).

End CompanyPass.

(** ** core/orchestrator.py, the workflow

    The company scraper of [self.linkedin_scraper] is the argument
    [company]. *)

Definition DEFAULT_JOB_POSITIONS : list string := ["Software Engineer"; "Internship"].

Module Workflow.

(** One turn of the loop of [scrape_city_data]: the body of its [try]. *)
Definition scrape_city `{Soup} `{CompanySoup} (self : ScrapingOrchestrator.t)
    (company : CompanyDetailsScraper.t) (job_title city : string) : M unit :=
  scraped ← LinkedInScraper.scrape_all_jobs
              (ScrapingOrchestrator.linkedin_scraper self) job_title city 100;
  match scraped with
  | (None, _) => mret tt                                   (* continue *)
  | (Some jobs_df, jobs_path) =>
      jobs_path ← match jobs_path with
                  | Some path => mret path
                  | None => raise (ValueError "Invalid file path or buffer object type")
                  end;
      detailed ← LinkedInScraper.scrape_all_job_details
                   (ScrapingOrchestrator.linkedin_scraper self) jobs_path;
      let details_path := snd detailed in
      CompanyPass.scrape_all_company_details company details_path;;
      mret tt
  end.

Fixpoint city_loop `{Soup} `{CompanySoup} (self : ScrapingOrchestrator.t)
    (company : CompanyDetailsScraper.t) (job_title : string) (cities : list string)
  : M unit :=
  match cities with
  | [] => mret tt
  | city :: rest =>
      try_except (scrape_city self company job_title city) is_Exception (fun _ => mret tt);;
      city_loop self company job_title rest
  end.

Definition scrape_city_data `{Soup} `{CompanySoup} (self : ScrapingOrchestrator.t)
    (company : CompanyDetailsScraper.t) (job_title : string) (cities : option (list string))
  : M unit :=
  let cities := default DEFAULT_CITIES cities in
  city_loop self company job_title cities.

(** One turn of the loop of [run_complete_workflow]: the body of its
    [try]. *)
Definition process_title `{Soup} `{CompanySoup} (self : ScrapingOrchestrator.t)
    (company : CompanyDetailsScraper.t) (cities : option (list string)) (job_title : string)
  : M unit :=
  comparison_df ← ScrapingOrchestrator.create_city_comparison self job_title cities;
  match comparison_df with
  | Some _ => scrape_city_data self company job_title cities
  | None => mret tt                                        (* continue *)
  end.

Fixpoint title_loop `{Soup} `{CompanySoup} (self : ScrapingOrchestrator.t)
    (company : CompanyDetailsScraper.t) (cities : option (list string))
    (job_titles : list string) : M unit :=
  match job_titles with
  | [] => mret tt
  | job_title :: rest =>
      try_except (process_title self company cities job_title) is_Exception
        (fun _ => mret tt);;
      title_loop self company cities rest
  end.

Definition run_complete_workflow `{Soup} `{CompanySoup} (self : ScrapingOrchestrator.t)
    (company : CompanyDetailsScraper.t) (job_titles cities : option (list string)) : M unit :=
  let job_titles := default DEFAULT_JOB_POSITIONS job_titles in
  title_loop self company cities job_titles.

End Workflow.

(** ** dashboard/dashboard_functions.py, the series of one city *)

Module Series.


End Series.

(** ** Example worlds

    A scripted network, an empty disk, and a [Soup] for pages of plain
    text, on which the functions above can be run. *)

Definition page (status : Z) (body : string) : outcome :=
  Answer {| status_code := status; text := body |}.

(** The n-th HTTP call meets the n-th entry of [script]; once the script
    is used up the connection fails. *)
Definition scripted (script : list outcome) : nat -> HttpCall -> outcome :=
  fun n _ => nth n script (Fault "connection refused").

Definition fresh (script : list outcome) : World :=
  {| net := scripted script; trace := []; files := ∅; dirs := ∅; today := "2024-01-20" |}.

(** A page of plain text: a non-empty body is one job card whose title is
    the body (and the text of the first count label, and the description
    of a job page); an empty body holds nothing. *)
Definition plain_soup : Soup :=
  {| search_card_infos body :=
       if String.eqb body "" then []
       else [{| card_title := Some body; card_company := None;
                card_location := None; card_date := None |}];
     search_card_links body := [Some ("https://jobs.example/" ++ body)];
     label_text body id := if String.eqb id "f_TPR-0" then Some body else None;
     job_criteria body := [];
     applicants_span body := None;
     applicants_figcaption body := None;
     meta_description body := None;
     posted_time s := None;
     description_markup body := if String.eqb body "" then None else Some body;
     sub_nav_location body := None;
     org_name_link body := None |}.

Definition a_list_scraper : JobListScraper.t :=
  {| JobListScraper.request_handler := RequestHandler.defaults;
     JobListScraper.headers := ∅ |}.

Definition a_details_scraper : JobDetailsScraper.t :=
  {| JobDetailsScraper.request_handler := RequestHandler.defaults;
     JobDetailsScraper.headers := ∅ |}.

Definition a_scraper : LinkedInScraper.t :=
  {| LinkedInScraper.data_dir := "data/raw";
     LinkedInScraper.job_list_scraper := a_list_scraper;
     LinkedInScraper.job_details_scraper := a_details_scraper |}.

Definition an_orchestrator : ScrapingOrchestrator.t :=
  {| ScrapingOrchestrator.data_dir := "data/raw/JobData";
     ScrapingOrchestrator.linkedin_scraper := a_scraper;
     ScrapingOrchestrator.job_list_scraper := a_list_scraper |}.

(** A run for three cities in which the second count-fetch meets a dead
    network, over a disk that already holds a time series. *)
Definition earlier_rows : list TotalJobs.row :=
  [{| TotalJobs.City := "Ottawa"; TotalJobs.Jobs_24h := Some 4; TotalJobs.Week_Jobs := Some 20;
      TotalJobs.Month_Jobs := Some 61; TotalJobs.Total_Jobs := Some 100;
      TotalJobs.Date := "2024-01-05" |}].

Definition second_city_down : World :=
  {| net := scripted [page 200 "Any time (120)"];
     trace := [];
     files := {[ "data/raw/JobData/Software Engineer/TotalJobs/TotalJobs.csv"
                 := TotalsCsv earlier_rows ]};
     dirs := ∅;
     today := "2024-01-20" |}.

(** A search with 75 results whose pages all carry one job, and a search
    with 200 results whose page at offset 70 is empty. *)
Definition three_pages : World :=
  fresh [page 200 "Any time (75)"; page 200 "first"; page 200 "second"; page 200 "third"].

Definition empty_at_70 : World :=
  fresh [page 200 "Any time (200)"; page 200 "first"; page 200 "second"; page 200 "";
         page 200 "never fetched"].

(** A search with 75 results whose page at offset 60 is empty. *)
Definition empty_at_60 : World :=
  fresh [page 200 "Any time (75)"; page 200 "first"; page 200 ""; page 200 "never fetched"].



(** A listing file with one record, and a network that answers the
    request for its job page with status 200 and an empty body. *)
Definition a_listing : JobPosting.t :=
  {| JobPosting.title := Some "Software Engineer"; JobPosting.company := Some "Acme";
     JobPosting.location := Some "Ottawa"; JobPosting.date_posted := Some "2 days ago";
     JobPosting.job_link := Some "https://jobs.example/1";
     JobPosting.description := None; JobPosting.seniority_level := None;
     JobPosting.employment_type := None; JobPosting.job_function := None;
     JobPosting.industries := None; JobPosting.applicants := None;
     JobPosting.company_url := None; JobPosting.time_posted := None;
     JobPosting.company_size := None; JobPosting.founded := None;
     JobPosting.company_type := None; JobPosting.industry := None;
     JobPosting.headquarters := None |}.

Definition listing_on_disk (script : list outcome) : World :=
  {| net := scripted script;
     trace := [];
     files := {[ "data/raw/Software Engineer/Software Engineer in Ottawa.csv"
                 := JobsCsv [a_listing] ]};
     dirs := ∅;
     today := "2024-01-20" |}.

Definition blank_job_page : World := listing_on_disk [page 200 ""].

Definition job_page_unreachable : World := listing_on_disk [].

(** Two snapshots of one city, fifteen days apart, as a time series on
    disk. *)
Definition two_snapshots : list TotalJobs.row :=
  [{| TotalJobs.City := "Ottawa"; TotalJobs.Jobs_24h := Some 4; TotalJobs.Week_Jobs := Some 20;
      TotalJobs.Month_Jobs := Some 61; TotalJobs.Total_Jobs := Some 100;
      TotalJobs.Date := "2024-01-05" |};
   {| TotalJobs.City := "Ottawa"; TotalJobs.Jobs_24h := Some 6; TotalJobs.Week_Jobs := Some 25;
      TotalJobs.Month_Jobs := Some 70; TotalJobs.Total_Jobs := Some 130;
      TotalJobs.Date := "2024-01-20" |}].

Definition snapshots_on_disk : World :=
  {| net := scripted [];
     trace := [];
     files := {[ "data/raw/JobData/Software Engineer/TotalJobs/TotalJobs.csv"
                 := TotalsCsv two_snapshots ]};
     dirs := ∅;
     today := "2024-01-21" |}.

(** A company page of plain text: a non-empty body is one fact, the
    company size; an empty body holds no fact. *)
Definition plain_company_soup : CompanySoup :=
  {| company_facts body :=
       if String.eqb body "" then [] else [(Some "Company size", Some body)] |}.

Definition a_company_scraper : CompanyDetailsScraper.t :=
  {| CompanyDetailsScraper.request_handler := RequestHandler.defaults;
     CompanyDetailsScraper.headers := ∅ |}.

(** A details file with one record that names the page of its company,
    and a listing file whose one record has no link. *)
Definition a_detailed_listing : JobPosting.t :=
  {| JobPosting.title := Some "Software Engineer"; JobPosting.company := Some "Acme";
     JobPosting.location := Some "Ottawa"; JobPosting.date_posted := Some "2 days ago";
     JobPosting.job_link := Some "https://jobs.example/1";
     JobPosting.description := Some "Builds things"; JobPosting.seniority_level := None;
     JobPosting.employment_type := None; JobPosting.job_function := None;
     JobPosting.industries := None; JobPosting.applicants := None;
     JobPosting.company_url := Some "https://company.example/acme";
     JobPosting.time_posted := None;
     JobPosting.company_size := None; JobPosting.founded := None;
     JobPosting.company_type := None; JobPosting.industry := None;
     JobPosting.headquarters := None |}.

Definition details_on_disk (script : list outcome) : World :=
  {| net := scripted script;
     trace := [];
     files := {[ "data/raw/Software Engineer/Software Engineer in Ottawa.csv"
                 := JobsCsv [a_detailed_listing] ]};
     dirs := ∅;
     today := "2024-01-20" |}.

Definition unlinked_on_disk : World :=
  {| net := scripted [];
     trace := [];
     files := {[ "data/raw/Software Engineer/Software Engineer in Ottawa.csv"
                 := JobsCsv [JobPosting.sentinel] ]};
     dirs := ∅;
     today := "2024-01-20" |}.

(** A run for two cities whose count-fetches are both answered, over a
    disk that already holds a time series. *)
Definition two_cities_up : World :=
  {| net := scripted [page 200 "Any time (120)"; page 200 "Any time (80)"];
     trace := [];
     files := {[ "data/raw/JobData/Software Engineer/TotalJobs/TotalJobs.csv"
                 := TotalsCsv earlier_rows ]};
     dirs := ∅;
     today := "2024-01-20" |}.

(** A search with 40 results, and a search with 75 results whose pages
    all meet a dead network. *)
Definition forty_results : World := fresh [page 200 "Any time (40)"; page 200 "first"].

Definition count_then_down : World := fresh [page 200 "Any time (75)"].

(** The totals of two cities on two days. *)
Definition four_rows : list Dashboard.row :=
  [{| Dashboard.Date := "2024-01-20"; Dashboard.City := "Ottawa";
      Dashboard.Total_Jobs := Some 130 |};
   {| Dashboard.Date := "2024-01-05"; Dashboard.City := "Toronto";
      Dashboard.Total_Jobs := Some 300 |};
   {| Dashboard.Date := "2024-01-05"; Dashboard.City := "Ottawa";
      Dashboard.Total_Jobs := Some 100 |};
   {| Dashboard.Date := "2024-01-20"; Dashboard.City := "Toronto";
      Dashboard.Total_Jobs := None |}].

(** ** Vocabulary of the proofs *)

(** What one activation of [make_request] does before it either returns
    or calls itself with the next trial. *)
Inductive verdict : Type :=
| Done (r : Res (option Response)) (w : World)
| Retry (w : World).

Definition attempt (self : RequestHandler.t) (url method : string)
    (hdrs data : option (gmap string string)) (current_trial : Z) (w : World) : verdict :=
  match RequestHandler.send self url method hdrs data w with
  | (Ok response, w1) =>
      match RequestHandler.handle_response self response current_trial w1 with
      | (Ok (Some true), w2) => Done (Ok (Some response)) w2
      | (Ok (Some false), w2) => Retry w2
      | (Ok None, w2) => Done (Ok None) w2
      | (Raise e, w2) => Done (Raise e) w2
      end
  | (Raise (RequestException _), w1) =>
      if current_trial <? RequestHandler.max_retries self then
        match time_sleep (RequestHandler.base_delay self * current_trial) w1 with
        | (Ok _, w2) => Retry w2
        | (Raise e, w2) => Done (Raise e) w2
        end
      else Done (Ok None) w1
  | (Raise e, w1) => Done (Raise e) w1
  end.

(** A result that is neither a [RequestException] nor [OutOfFuel]. *)
Definition harmless (r : Res (option Response)) : Prop :=
  match r with
  | Raise (RequestException _) | Raise OutOfFuel => False
  | _ => True
  end.

(** No [RequestException] gets out. *)
Definition quiet (r : Res (option Response)) : Prop :=
  forall m, r <> Raise (RequestException m).

(** [gathers self job_title location positions jobs_df w jobs_df' w']:
    the pages at [positions], fetched in this order from [w], all carry
    jobs; appended to [jobs_df] they give [jobs_df'], and the world is
    then [w']. *)
Inductive gathers `{Soup} (self : LinkedInScraper.t) (job_title location : string)
  : list Z -> list JobPosting.t -> World -> list JobPosting.t -> World -> Prop :=
| gathers_nil jobs_df w :
    gathers self job_title location [] jobs_df w jobs_df w
| gathers_cons position rest jobs_df w new_jobs w1 jobs_df' w' :
    JobListScraper.get_job_list (LinkedInScraper.job_list_scraper self)
      job_title location position w = (Ok new_jobs, w1) ->
    LinkedInScraper.no_more_jobs new_jobs = false ->
    gathers self job_title location rest (jobs_df ++ new_jobs) w1 jobs_df' w' ->
    gathers self job_title location (position :: rest) jobs_df w jobs_df' w'.

(** [count_fetch_fails scraper job_title cities w w']: the count-fetches
    of [cities], made in this order from [w], reach a city whose fetch
    returns [[None, None, None, None]], and the world is then [w']. *)
Inductive count_fetch_fails `{Soup} (scraper : JobListScraper.t) (job_title : string)
  : list string -> World -> World -> Prop :=
| fails_here city rest w w' :
    JobListScraper.get_total_jobs scraper job_title city w
      = (Ok JobListScraper.all_None, w') ->
    count_fetch_fails scraper job_title (city :: rest) w w'
| fails_later city rest w result w1 w' :
    JobListScraper.get_total_jobs scraper job_title city w = (Ok result, w1) ->
    result <> JobListScraper.all_None ->
    count_fetch_fails scraper job_title rest w1 w' ->
    count_fetch_fails scraper job_title (city :: rest) w w'.



(** A count label whose last number has more digits than [int]
    converts. *)
Definition too_long (elem : option string) : Prop :=
  match elem with
  | None => False
  | Some text =>
      match last (findall_digits [] (code_points text)) with
      | Some n => int_max_str_digits < Z.of_nat (length n)
      | None => False
      end
  end.

(** Nothing changed on disk between two worlds. *)
Definition same_disk (w w' : World) : Prop :=
  files w' = files w /\ dirs w' = dirs w.

(** What identifies a row of the chosen column, before and after the
    view is computed: its date, its city and its count (0 for NaN). *)
Definition row_key (r : Dashboard.row) : string * string * Z :=
  (Dashboard.Date r, Dashboard.City r, default 0 (Dashboard.Total_Jobs r)).

Definition view_key (v : Dashboard.view) : string * string * Z :=
  (Dashboard.view_Date v, Dashboard.view_City v, Dashboard.view_Total_Jobs v).

(** [m] is the greatest of [dates] in the lexicographic order of
    strings. *)
Definition lexicographic_max (m : string) (dates : list string) : Prop :=
  In m dates /\ forall d, In d dates -> String.leb d m = true.

(** The headers of one request: those of the handler, overridden by the
    ones given with the call. *)
Definition merged_headers (self : RequestHandler.t) (hdrs : option (gmap string string))
  : gmap string string :=
  match hdrs with
  | Some extra => extra ∪ RequestHandler.headers self
  | None => RequestHandler.headers self
  end.

(** The call that [make_request] puts on the wire, for the two methods it
    supports. *)
Definition request_of (self : RequestHandler.t) (url method : string)
    (hdrs data : option (gmap string string)) : option HttpCall :=
  if String.eqb (upper method) "GET" then
    Some {| call_verb := GET; call_url := url;
            call_headers := merged_headers self hdrs; call_data := None |}
  else if String.eqb (upper method) "POST" then
    Some {| call_verb := POST; call_url := url;
            call_headers := merged_headers self hdrs; call_data := data |}
  else None.

(** A network on which no request is ever answered with status 200, and
    a network on which every request fails. *)
Definition never_200 (w : World) : Prop :=
  forall n c, match net w n c with
              | Answer r => status_code r <> 200
              | Fault _ => True
              end.

Definition down (w : World) : Prop :=
  forall n c, exists m, net w n c = Fault m.

(** The events of a run whose attempts all fail on the network, from
    trial [t], with [n] retries left: a call, a sleep of [base * t]
    seconds, and so on up to the last call, which no sleep follows. *)
Fixpoint failing_run (c : HttpCall) (base t : Z) (n : nat) : list event :=
  match n with
  | O => [EvHttp c]
  | S n' => EvHttp c :: EvSleep (base * t) :: failing_run c base (t + 1) n'
  end.

(** [w] after the events [evs]. *)
Definition extend (evs : list event) (w : World) : World :=
  {| net := net w; trace := trace w ++ evs; files := files w;
     dirs := dirs w; today := today w |}.

(** Settings that stay far from the limits of the interpreter, which the
    definitions above leave out.  Each retry nests one more call of
    [make_request], and the call stack holds 1000 frames unless it is
    enlarged; [time.sleep] refuses a delay that does not fit in 2^63
    nanoseconds, about 9.2e9 seconds.  With at most 100 retries and
    delays of at most 1,000,000 seconds a request nests at most 101
    calls and sleeps at most 1e8 seconds at a time. *)
Definition within_limits (self : RequestHandler.t) : Prop :=
  RequestHandler.max_retries self <= 100
  /\ Z.abs (RequestHandler.base_delay self) <= 1000000
  /\ Z.abs (RequestHandler.rate_limit_delay self) <= 1000000.

(** A result that is a value or a [ValueError]. *)
Definition only_ValueError {A} (r : Res A) : Prop :=
  match r with
  | Ok _ | Raise (ValueError _) => True
  | Raise _ => False
  end.

(** Strings of digits, and strings without a digit. *)
Definition all_digits (s : list N) : Prop :=
  forall c, In c s -> is_digit c = true.

Definition no_digit (s : list N) : Prop :=
  forall c, In c s -> is_digit c = false.

(** The five fields that the listing pass fills. *)
Definition discovery (r : JobPosting.t)
  : option string * option string * option string * option string * option string :=
  (JobPosting.title r, JobPosting.company r, JobPosting.location r,
   JobPosting.date_posted r, JobPosting.job_link r).

(** The five fields that only the company pass fills are empty. *)
Definition no_company_facts (r : JobPosting.t) : Prop :=
  JobPosting.company_size r = None /\ JobPosting.founded r = None /\
  JobPosting.company_type r = None /\ JobPosting.industry r = None /\
  JobPosting.headquarters r = None.

(** A key without a space and without an upper-case ASCII letter. *)
Definition normalized (key : string) : Prop :=
  forall c, In c (list_ascii_of_string key) ->
    let n := nat_of_ascii c in n <> 32%nat /\ ~ (65 <= n <= 90)%nat.

(** The labels of the facts are ASCII text: on these [lower] is
    [str.lower]. *)
Definition ascii_labels (elements : list (option string * option string)) : Prop :=
  Forall (fun element => match fst element with
                         | Some key => isascii key = true
                         | None => True
                         end) elements.

(** A fact of the company page that lacks its [dt] or its [dd]. *)
Definition incomplete (element : option string * option string) : bool :=
  match element with
  | (Some _, Some _) => false
  | _ => true
  end.

(** A record as the details pass leaves it: what the company pass does
    not touch. *)
Definition through_details (r : JobPosting.t) : JobPosting.t :=
  {| JobPosting.title := JobPosting.title r; JobPosting.company := JobPosting.company r;
     JobPosting.location := JobPosting.location r;
     JobPosting.date_posted := JobPosting.date_posted r;
     JobPosting.job_link := JobPosting.job_link r;
     JobPosting.description := JobPosting.description r;
     JobPosting.seniority_level := JobPosting.seniority_level r;
     JobPosting.employment_type := JobPosting.employment_type r;
     JobPosting.job_function := JobPosting.job_function r;
     JobPosting.industries := JobPosting.industries r;
     JobPosting.applicants := JobPosting.applicants r;
     JobPosting.company_url := JobPosting.company_url r;
     JobPosting.time_posted := JobPosting.time_posted r;
     JobPosting.company_size := None; JobPosting.founded := None;
     JobPosting.company_type := None; JobPosting.industry := None;
     JobPosting.headquarters := None |}.

(** A computation that never runs out of fuel. *)
Definition safe {A} (m : M A) : Prop := forall w, fst (m w) <> Raise OutOfFuel.

(** [counted scraper job_title cities w counts w']: the count-fetches of
    [cities], made in this order from [w], all return four counts;
    [counts] lists them (total, past month, past week, past 24 hours),
    and the world is then [w']. *)
Inductive counted `{Soup} (scraper : JobListScraper.t) (job_title : string)
  : list string -> World -> list (Z * Z * Z * Z) -> World -> Prop :=
| counted_nil w :
    counted scraper job_title [] w [] w
| counted_cons city rest w total month week day w1 counts w' :
    JobListScraper.get_total_jobs scraper job_title city w
      = (Ok [Some total; Some month; Some week; Some day], w1) ->
    counted scraper job_title rest w1 counts w' ->
    counted scraper job_title (city :: rest) w ((total, month, week, day) :: counts) w'.

(** The rows that one run adds to the time series. *)
Definition new_rows (date : string) (cities : list string) (counts : list (Z * Z * Z * Z))
  : list TotalJobs.row :=
  zip_with
    (fun city '(total, month, week, day) =>
       {| TotalJobs.City := city; TotalJobs.Jobs_24h := Some day;
          TotalJobs.Week_Jobs := Some week; TotalJobs.Month_Jobs := Some month;
          TotalJobs.Total_Jobs := Some total; TotalJobs.Date := date |})
    cities counts.

(** The rows that can be read back from what is at the path of the time
    series: none when there is no file or the file cannot be read. *)
Definition history (content : option file) : list TotalJobs.row :=
  match content with
  | Some (TotalsCsv rows) => rows
  | _ => []
  end.

(** The order of the [Date] column. *)
Definition Date_le (a b : TotalJobs.row) : Prop :=
  String.leb (TotalJobs.Date a) (TotalJobs.Date b) = true.

(** The count of the last row of [city] among [earlier], if there is
    one. *)
Definition previous_count (city : string) (earlier : list Dashboard.row)
  : option (option Z) :=
  Dashboard.Total_Jobs
    <$> last (List.filter (fun r => String.eqb (Dashboard.City r) city) earlier).

(** The frame of [find_latest_jobs_cities] once grouped by city. *)
Definition grouped (df : list Dashboard.row) : list Dashboard.row :=
  Dashboard.groupby_City_sorted (sort_values Dashboard.Date_desc df).

Definition row_Date_le (a b : Dashboard.row) : Prop :=
  String.leb (Dashboard.Date a) (Dashboard.Date b) = true.

(** * Properties *)

(** ** The trace *)

Lemma http_count_app (tr1 tr2 : list event) :
  http_count (tr1 ++ tr2) = (http_count tr1 + http_count tr2)%nat.
Proof.
  unfold http_count. now rewrite List.filter_app, length_app.
Qed.

Lemma http_count_log_http (c : HttpCall) (w : World) :
  http_count (trace (log_event (EvHttp c) w)) = S (http_count (trace w)).
Proof.
  simpl. rewrite http_count_app. cbn. lia.
Qed.

Lemma http_count_log_sleep (d : Z) (w : World) :
  http_count (trace (log_event (EvSleep d) w)) = http_count (trace w).
Proof.
  simpl. rewrite http_count_app. cbn. lia.
Qed.

(** ** The request client *)

Section Client.

Variable self : RequestHandler.t.
Variables url method : string.
Variables hdrs data : option (gmap string string).

Abbreviation max := (RequestHandler.max_retries self).
Abbreviation request fuel := (RequestHandler.make_request_fuel fuel self url method hdrs data).
Abbreviation try_once := (attempt self url method hdrs data).

Lemma send_count (w : World) (r : Res Response) (w1 : World) :
  RequestHandler.send self url method hdrs data w = (r, w1) ->
  match r with
  | Ok _ | Raise (RequestException _) =>
      http_count (trace w1) = S (http_count (trace w))
  | Raise (ValueError _) => w1 = w
  | Raise _ => False
  end.
Proof.
  unfold RequestHandler.send, session_request, raise.
  repeat match goal with |- context [if ?b then _ else _] => destruct b end;
    try match goal with |- context [net ?a ?b ?c] => destruct (net a b c) end;
    intros [= <- <-]; auto using http_count_log_http.
Qed.

Lemma time_sleep_cases (d : Z) (w : World) :
  (0 <= d /\ time_sleep d w = (Ok tt, log_event (EvSleep d) w)) \/
  (d < 0 /\ exists msg, time_sleep d w = (Raise (ValueError msg), w)).
Proof.
  unfold time_sleep. destruct (Z.ltb_spec d 0); [right | left]; eauto.
Qed.

Lemma handle_response_cases (response : Response) (t : Z) (w : World) :
  let status := status_code response in
  let delay := if status =? 429 then RequestHandler.rate_limit_delay self * t
               else RequestHandler.base_delay self * t in
  RequestHandler.handle_response self response t w =
    if status =? 200 then (Ok (Some true), w)
    else if t <? max then
      if delay <? 0 then (Raise (ValueError "sleep length must be non-negative"), w)
      else (Ok (Some false), log_event (EvSleep delay) w)
    else (Ok None, w).
Proof.
  unfold RequestHandler.handle_response. cbv zeta.
  destruct (status_code response =? 200); [reflexivity |].
  destruct (t <? max); [| reflexivity].
  destruct (status_code response =? 429);
    unfold mbind, M_bind, time_sleep;
    match goal with |- context [?d <? 0] => destruct (d <? 0) end; reflexivity.
Qed.

(** A retry is only scheduled below the budget, and after exactly one
    HTTP call. *)
Lemma attempt_Retry (t : Z) (w w' : World) :
  try_once t w = Retry w' ->
  t < max /\ http_count (trace w') = S (http_count (trace w)).
Proof.
  unfold attempt.
  destruct (RequestHandler.send _ _ _ _ _ w) as [[response | e] w1] eqn:Hsend;
    apply send_count in Hsend.
  - rewrite handle_response_cases. cbv zeta.
    destruct (status_code response =? 200); [discriminate |].
    destruct (Z.ltb_spec t max); [| discriminate].
    match goal with |- context [?d <? 0] => destruct (d <? 0) end; [discriminate |].
    intros [= <-]. now rewrite http_count_log_sleep.
  - destruct e; try discriminate.
    destruct (Z.ltb_spec t max); [| discriminate].
    destruct (time_sleep_cases (RequestHandler.base_delay self * t) w1)
      as [[_ ->] | [_ [m' ->]]]; [| discriminate].
    intros [= <-]. now rewrite http_count_log_sleep.
Qed.

Lemma attempt_Done (t : Z) (w : World) (r : Res (option Response)) (w' : World) :
  try_once t w = Done r w' ->
  harmless r /\
  (http_count (trace w) <= http_count (trace w') <= S (http_count (trace w)))%nat.
Proof.
  unfold attempt.
  destruct (RequestHandler.send _ _ _ _ _ w) as [[response | e] w1] eqn:Hsend;
    apply send_count in Hsend.
  - rewrite handle_response_cases. cbv zeta.
    destruct (status_code response =? 200); [intros [= <- <-]; simpl; split; [easy | lia] |].
    destruct (t <? max); [| intros [= <- <-]; simpl; split; [easy | lia]].
    match goal with |- context [?d <? 0] => destruct (d <? 0) end; [| discriminate].
    intros [= <- <-]; simpl; split; [easy | lia].
  - destruct e as [m | m | | | | |]; try contradiction.
    + destruct (t <? max); [| intros [= <- <-]; simpl; split; [easy | lia]].
      destruct (time_sleep_cases (RequestHandler.base_delay self * t) w1)
        as [[_ ->] | [_ [m' ->]]]; [discriminate |].
      intros [= <- <-]; simpl; split; [easy | lia].
    + intros [= <- <-]; subst; simpl; split; [easy | lia].
Qed.

Lemma request_S_quiet (fuel : nat) (t : Z) (w : World) :
  (forall w', quiet (fst (request fuel (t + 1) w'))) ->
  request (S fuel) t w =
    match try_once t w with
    | Done r w' => (r, w')
    | Retry w' => request fuel (t + 1) w'
    end.
Proof.
  intros IH.
  cbn [RequestHandler.make_request_fuel].
  unfold try_except, attempt, mbind, M_bind.
  destruct (RequestHandler.send _ _ _ _ _ w) as [[response | e] w1] eqn:Hsend.
  - rewrite handle_response_cases. cbv zeta.
    destruct (status_code response =? 200); [reflexivity |].
    destruct (t <? max); [| reflexivity].
    match goal with |- context [?d <? 0] => destruct (d <? 0) end; [reflexivity |].
    specialize (IH (log_event (EvSleep (if status_code response =? 429
                                         then RequestHandler.rate_limit_delay self * t
                                         else RequestHandler.base_delay self * t)) w1)).
    destruct (request fuel (t + 1) _) as [[a | e] w2]; [reflexivity |].
    destruct e; try reflexivity. now destruct (IH msg).
  - destruct e; try reflexivity. cbn [is_RequestException].
    destruct (t <? max); [| reflexivity].
    destruct (time_sleep_cases (RequestHandler.base_delay self * t) w1)
      as [[_ ->] | [_ [m' ->]]]; reflexivity.
Qed.

Lemma request_quiet (fuel : nat) : forall (t : Z) (w : World), quiet (fst (request fuel t w)).
Proof.
  induction fuel as [| fuel IH]; intros t w.
  - intros m; discriminate.
  - rewrite request_S_quiet by auto.
    destruct (try_once t w) as [r w' | w'] eqn:Hat; [| apply IH].
    apply attempt_Done in Hat as [Hr _]. simpl. intros m ->. exact Hr.
Qed.

Lemma request_S (fuel : nat) (t : Z) (w : World) :
  request (S fuel) t w =
    match try_once t w with
    | Done r w' => (r, w')
    | Retry w' => request fuel (t + 1) w'
    end.
Proof. apply request_S_quiet. intros w'. apply request_quiet. Qed.

(** With [n] trials left, any fuel above [n] gives the same run; it ends
    without [OutOfFuel] after at most [n + 1] HTTP calls. *)
Lemma request_run (n : nat) : forall (t : Z) (w : World),
  Z.to_nat (max - t) = n ->
  exists r w',
    (forall fuel, (n < fuel)%nat -> request fuel t w = (r, w')) /\
    harmless r /\
    (http_count (trace w) <= http_count (trace w') <= http_count (trace w) + S n)%nat.
Proof.
  induction n as [| n IH]; intros t w Hn.
  - destruct (try_once t w) as [r w' | w'] eqn:Hat.
    + exists r, w'. apply attempt_Done in Hat as Hd. destruct Hd as [Hr Hc].
      split; [| split; [exact Hr | ]].
      * intros [| fuel] Hf; [lia |]. now rewrite request_S, Hat.
      * lia.
    + apply attempt_Retry in Hat as [Hlt _]. lia.
  - destruct (try_once t w) as [r w' | w'] eqn:Hat.
    + exists r, w'. apply attempt_Done in Hat as Hd. destruct Hd as [Hr Hc].
      split; [| split; [exact Hr | lia]].
      intros [| fuel] Hf; [lia |]. now rewrite request_S, Hat.
    + apply attempt_Retry in Hat as Hr. destruct Hr as [Hlt Hc].
      destruct (IH (t + 1) w') as (r & w'' & Hrun & Hr & Hcount); [lia |].
      exists r, w''. split; [| split; [exact Hr | lia]].
      intros [| fuel] Hf; [lia |]. rewrite request_S, Hat. apply Hrun. lia.
Qed.

End Client.

(** Fuel beyond [enough_fuel] changes nothing, and [make_request] does
    not run out of it. *)
Lemma make_request_fuel_stable (self : RequestHandler.t) (url method : string)
    (hdrs data : option (gmap string string)) (t : Z) (w : World) (fuel : nat) :
  (RequestHandler.enough_fuel self t <= fuel)%nat ->
  RequestHandler.make_request_fuel fuel self url method hdrs data t w
  = RequestHandler.make_request self url method hdrs data t w
  /\ harmless (fst (RequestHandler.make_request self url method hdrs data t w)).
Proof.
  intros Hfuel.
  destruct (request_run self url method hdrs data _ t w eq_refl) as (r & w' & Hrun & Hr & _).
  unfold RequestHandler.make_request, RequestHandler.enough_fuel in *.
  rewrite !Hrun by lia. auto.
Qed.

(** C1.  When the response of the request made at a trial that has
    reached [max_retries] has a status other than 200, [make_request]
    returns [None]: not the response, no exception, and the world is the
    one left by that single HTTP call (no sleep, no further call). *)
Theorem make_request_exhausted (self : RequestHandler.t) (url method : string)
    (hdrs data : option (gmap string string)) (t : Z) (w : World)
    (response : Response) (w1 : World) :
  RequestHandler.send self url method hdrs data w = (Ok response, w1) ->
  status_code response <> 200 ->
  RequestHandler.max_retries self <= t ->
  RequestHandler.make_request self url method hdrs data t w = (Ok None, w1).
Proof.
  intros Hsend Hstatus Ht.
  unfold RequestHandler.make_request, RequestHandler.enough_fuel.
  rewrite request_S. unfold attempt. rewrite Hsend, handle_response_cases. cbv zeta.
  destruct (Z.eqb_spec (status_code response) 200); [contradiction |].
  destruct (Z.ltb_spec t (RequestHandler.max_retries self)); [lia | reflexivity].
Qed.

Lemma make_request_exhausted_witness :
  RequestHandler.make_request RequestHandler.defaults "https://www.linkedin.com/jobs/search"
    "GET" None None 5 (fresh [page 404 "Not Found"])
  = (Ok None,
     log_event (EvHttp {| call_verb := GET; call_url := "https://www.linkedin.com/jobs/search";
                          call_headers := ∅; call_data := None |})
       (fresh [page 404 "Not Found"])).
Proof.
  apply (make_request_exhausted RequestHandler.defaults _ "GET" None None 5 _
           {| status_code := 404; text := "Not Found" |}).
  - reflexivity.
  - discriminate.
  - reflexivity.
Defined.

(** C2.  At a trial [t] with [0 < t < max_retries], a response whose
    status is not 200 makes [handle_response] sleep exactly once, for
    [rate_limit_delay * t] seconds when the status is 429 and for
    [base_delay * t] seconds otherwise, and answer "retry"; [make_request]
    then goes on as trial [t + 1] from the world left by that sleep. *)
Theorem backoff_before_retry (self : RequestHandler.t) (url method : string)
    (hdrs data : option (gmap string string)) (t : Z) (w : World)
    (response : Response) (w1 : World) :
  0 < t < RequestHandler.max_retries self ->
  0 <= RequestHandler.base_delay self ->
  0 <= RequestHandler.rate_limit_delay self ->
  RequestHandler.send self url method hdrs data w = (Ok response, w1) ->
  status_code response <> 200 ->
  let delay := if status_code response =? 429
               then RequestHandler.rate_limit_delay self * t
               else RequestHandler.base_delay self * t in
  RequestHandler.handle_response self response t w1
    = (Ok (Some false), log_event (EvSleep delay) w1)
  /\ RequestHandler.make_request self url method hdrs data t w
     = RequestHandler.make_request self url method hdrs data (t + 1)
         (log_event (EvSleep delay) w1).
Proof.
  intros Ht Hbase Hrate Hsend Hstatus delay.
  assert (Hdelay : 0 <= delay) by (unfold delay; destruct (_ =? 429); nia).
  assert (Hhandle : RequestHandler.handle_response self response t w1
                    = (Ok (Some false), log_event (EvSleep delay) w1)).
  { rewrite handle_response_cases. cbv zeta. fold delay.
    destruct (Z.eqb_spec (status_code response) 200); [contradiction |].
    destruct (Z.ltb_spec t (RequestHandler.max_retries self)); [| lia].
    destruct (Z.ltb_spec delay 0); [lia | reflexivity]. }
  split; [exact Hhandle |].
  unfold RequestHandler.make_request, RequestHandler.enough_fuel.
  rewrite request_S. unfold attempt. rewrite Hsend, Hhandle.
  f_equal. lia.
Qed.

Lemma backoff_before_retry_witness :
  let w1 := log_event (EvHttp {| call_verb := GET; call_url := "u";
                                 call_headers := ∅; call_data := None |})
              (fresh [page 429 "slow down"]) in
  RequestHandler.handle_response RequestHandler.defaults
      {| status_code := 429; text := "slow down" |} 2 w1
    = (Ok (Some false), log_event (EvSleep 30) w1)
  /\ RequestHandler.make_request RequestHandler.defaults "u" "GET" None None 2
       (fresh [page 429 "slow down"])
     = RequestHandler.make_request RequestHandler.defaults "u" "GET" None None 3
         (log_event (EvSleep 30) w1).
Proof.
  intros w1.
  apply (backoff_before_retry RequestHandler.defaults "u" "GET" None None 2
           (fresh [page 429 "slow down"]) {| status_code := 429; text := "slow down" |} w1).
  - split; reflexivity.
  - discriminate.
  - discriminate.
  - reflexivity.
  - discriminate.
Defined.

(** C9.  Whatever the network answers, [make_request] terminates: the
    run has a result that no amount of extra fuel changes and that is not
    [OutOfFuel], and between its start and its end at most
    [max_retries + 1] HTTP calls are issued. *)
Theorem make_request_terminates (self : RequestHandler.t) (url method : string)
    (hdrs data : option (gmap string string)) (t : Z) (w : World) :
  0 <= RequestHandler.max_retries self ->
  0 <= t ->
  exists (r : Res (option Response)) (w' : World),
    RequestHandler.make_request self url method hdrs data t w = (r, w')
    /\ (forall fuel, (RequestHandler.enough_fuel self t <= fuel)%nat ->
          RequestHandler.make_request_fuel fuel self url method hdrs data t w = (r, w'))
    /\ r <> Raise OutOfFuel
    /\ (http_count (trace w) <= http_count (trace w'))%nat
    /\ Z.of_nat (http_count (trace w')) - Z.of_nat (http_count (trace w))
       <= RequestHandler.max_retries self + 1.
Proof.
  intros Hmax Ht.
  destruct (request_run self url method hdrs data _ t w eq_refl) as (r & w' & Hrun & Hr & Hc).
  exists r, w'. unfold RequestHandler.make_request, RequestHandler.enough_fuel.
  repeat split.
  - apply Hrun. lia.
  - intros fuel Hfuel. apply Hrun. unfold RequestHandler.enough_fuel in Hfuel. lia.
  - intros ->. exact Hr.
  - lia.
  - lia.
Qed.

Lemma make_request_terminates_witness :
  exists (r : Res (option Response)) (w' : World),
    RequestHandler.make_request RequestHandler.defaults "u" "GET" None None 0 (fresh [])
    = (r, w')
    /\ (forall fuel, (6 <= fuel)%nat ->
          RequestHandler.make_request_fuel fuel RequestHandler.defaults "u" "GET" None None 0
            (fresh []) = (r, w'))
    /\ r <> Raise OutOfFuel
    /\ (0 <= http_count (trace w'))%nat
    /\ Z.of_nat (http_count (trace w')) - 0 <= 6.
Proof.
  apply (make_request_terminates RequestHandler.defaults "u" "GET" None None 0 (fresh [])).
  - discriminate.
  - discriminate.
Defined.

(** ** The record *)

(** C7.  [is_empty] holds exactly when title, company, location,
    date_posted, job_link and description are all [None], and fails
    exactly when one of the six is present; the other twelve fields do
    not occur in either condition. *)
Theorem is_empty_iff (record : JobPosting.t) :
  (JobPosting.is_empty record = true <->
     JobPosting.title record = None /\ JobPosting.company record = None /\
     JobPosting.location record = None /\ JobPosting.date_posted record = None /\
     JobPosting.job_link record = None /\ JobPosting.description record = None)
  /\
  (JobPosting.is_empty record = false <->
     JobPosting.title record <> None \/ JobPosting.company record <> None \/
     JobPosting.location record <> None \/ JobPosting.date_posted record <> None \/
     JobPosting.job_link record <> None \/ JobPosting.description record <> None).
Proof.
  unfold JobPosting.is_empty.
  destruct record as [title company location date_posted job_link description
                        ? ? ? ? ? ? ? ? ? ? ? ?].
  cbn [JobPosting.title JobPosting.company JobPosting.location JobPosting.date_posted
       JobPosting.job_link JobPosting.description].
  destruct title, company, location, date_posted, job_link, description; cbn;
    (split; split; intros; try discriminate; try tauto;
     repeat match goal with
            | H : _ /\ _ |- _ => destruct H
            | H : _ \/ _ |- _ => destruct H
            end; try discriminate; try congruence; auto 10).
Qed.

(** ** The count view *)




(** [extract_count] raises exactly on a label that is too long, and what
    it raises is the [ValueError] of [int]. *)
Lemma extract_count_cases (elem : option string) :
  (too_long elem /\ exists msg, JobListScraper.extract_count elem = Raise (ValueError msg))
  \/ (~ too_long elem /\ exists count, JobListScraper.extract_count elem = Ok count).
Proof.
  destruct elem as [text |]; [| right; split; [intros [] | now exists 0]].
  unfold too_long, JobListScraper.extract_count. cbv zeta.
  destruct (last (findall_digits [] (code_points text))) as [n |];
    [| right; split; [intros [] | now exists 0]].
  unfold int_of_str. cbv zeta.
  destruct (Z.ltb_spec int_max_str_digits (Z.of_nat (length n))) as [Hlong | Hshort].
  - left. split; [exact Hlong | eauto].
  - right. split; [lia | eauto].
Qed.




(** Digits of other scripts count as digits, as they do for [\d] and
    [int]. *)
Example extract_count_of_any_script :
  JobListScraper.extract_count (Some "Any time (١٢٣)") = Ok 123
  /\ JobListScraper.extract_count (Some "１２ offres, dont ٣ nouvelles") = Ok 3
  /\ JobListScraper.extract_count (Some "Past week (𝟒𝟐)") = Ok 42
  /\ JobListScraper.extract_count (Some "Past month (x²)") = Ok 0.
Proof. repeat split; vm_compute; reflexivity. Qed.

(** ** The network leaves the disk alone *)

Lemma same_disk_refl (w : World) : same_disk w w.
Proof. split; reflexivity. Qed.

Lemma same_disk_trans (w1 w2 w3 : World) :
  same_disk w1 w2 -> same_disk w2 w3 -> same_disk w1 w3.
Proof. intros [Hf1 Hd1] [Hf2 Hd2]. split; congruence. Qed.

Lemma same_disk_log (e : event) (w : World) : same_disk w (log_event e w).
Proof. split; reflexivity. Qed.

Create HintDb disk.
#[local] Hint Resolve same_disk_refl same_disk_log : disk.

Lemma send_disk (self : RequestHandler.t) (url method : string)
    (hdrs data : option (gmap string string)) (w : World) :
  same_disk w (snd (RequestHandler.send self url method hdrs data w)).
Proof.
  unfold RequestHandler.send, session_request, raise.
  repeat match goal with |- context [if ?b then _ else _] => destruct b end;
    try match goal with |- context [net ?a ?b ?c] => destruct (net a b c) end;
    simpl; auto with disk.
Qed.

Lemma time_sleep_disk (d : Z) (w : World) : same_disk w (snd (time_sleep d w)).
Proof. unfold time_sleep. destruct (d <? 0); simpl; auto with disk. Qed.

Lemma handle_response_disk (self : RequestHandler.t) (response : Response) (t : Z) (w : World) :
  same_disk w (snd (RequestHandler.handle_response self response t w)).
Proof.
  rewrite handle_response_cases. cbv zeta.
  repeat match goal with |- context [if ?b then _ else _] => destruct b end;
    simpl; auto with disk.
Qed.

Lemma attempt_disk (self : RequestHandler.t) (url method : string)
    (hdrs data : option (gmap string string)) (t : Z) (w : World) :
  match attempt self url method hdrs data t w with
  | Done _ w' | Retry w' => same_disk w w'
  end.
Proof.
  unfold attempt.
  pose proof (send_disk self url method hdrs data w) as Hsend.
  destruct (RequestHandler.send _ _ _ _ _ w) as [[response | e] w1]; simpl in Hsend.
  - pose proof (handle_response_disk self response t w1) as Hh.
    destruct (RequestHandler.handle_response _ _ _ w1) as [[[[|] |] | e] w2];
      simpl in Hh; eauto using same_disk_trans.
  - pose proof (time_sleep_disk (RequestHandler.base_delay self * t) w1) as Hs.
    destruct e; auto.
    destruct (t <? _); auto.
    destruct (time_sleep _ w1) as [[[] | e] w2]; simpl in Hs; eauto using same_disk_trans.
Qed.

Lemma make_request_fuel_disk (self : RequestHandler.t) (url method : string)
    (hdrs data : option (gmap string string)) (fuel : nat) :
  forall (t : Z) (w : World),
    same_disk w (snd (RequestHandler.make_request_fuel fuel self url method hdrs data t w)).
Proof.
  induction fuel as [| fuel IH]; intros t w; [apply same_disk_refl |].
  rewrite request_S.
  pose proof (attempt_disk self url method hdrs data t w) as Hat.
  destruct (attempt _ _ _ _ _ t w) as [r w' | w']; [exact Hat |].
  eapply same_disk_trans; [exact Hat | apply IH].
Qed.

Section Scrapers.

Context `{Soup}.

Lemma get_disk (self : RequestHandler.t) (url : string)
    (hdrs : option (gmap string string)) (w : World) :
  same_disk w (snd (RequestHandler.get self url hdrs w)).
Proof. apply make_request_fuel_disk. Qed.

(** [get_total_jobs] by cases on what the request client returns: the
    world is the one left by the client. *)
Lemma get_total_jobs_run (self : JobListScraper.t) (job_title location : string)
    (w : World) :
  JobListScraper.get_total_jobs self job_title location w
  = match RequestHandler.get (JobListScraper.request_handler self)
            (JobListScraper._build_search_url job_title location 0)
            (Some (JobListScraper.headers self)) w with
    | (Ok None, w') => (Ok JobListScraper.all_None, w')
    | (Ok (Some r), w') =>
        match JobListScraper._parse_total_jobs (text r) with
        | Ok counts => (Ok (Some <$> counts), w')
        | Raise e => (Raise e, w')
        end
    | (Raise e, w') => (Raise e, w')
    end.
Proof.
  unfold JobListScraper.get_total_jobs, mbind, M_bind, returned.
  now destruct (RequestHandler.get _ _ _ w) as [[[r |] | e] w'].
Qed.

Lemma get_total_jobs_disk (self : JobListScraper.t) (job_title location : string)
    (w : World) :
  same_disk w (snd (JobListScraper.get_total_jobs self job_title location w)).
Proof.
  rewrite get_total_jobs_run.
  pose proof (get_disk (JobListScraper.request_handler self)
                (JobListScraper._build_search_url job_title location 0)
                (Some (JobListScraper.headers self)) w) as Hget.
  destruct (RequestHandler.get _ _ _ w) as [[[r |] | e] w']; try exact Hget.
  now destruct (JobListScraper._parse_total_jobs (text r)).
Qed.

Lemma count_fetch_fails_disk (scraper : JobListScraper.t) (job_title : string)
    (cities : list string) (w w' : World) :
  count_fetch_fails scraper job_title cities w w' -> same_disk w w'.
Proof.
  induction 1 as [city rest w w' Hget | city rest w result w1 w' Hget _ _ IH].
  - pose proof (get_total_jobs_disk scraper job_title city w) as Hd.
    now rewrite Hget in Hd.
  - pose proof (get_total_jobs_disk scraper job_title city w) as Hd.
    rewrite Hget in Hd. eauto using same_disk_trans.
Qed.

(** The loop over the cities gives up at the first sentinel, whatever it
    has collected so far. *)
Lemma count_loop_fails (self : ScrapingOrchestrator.t) (job_title : string)
    (cities : list string) (w w' : World) :
  count_fetch_fails (ScrapingOrchestrator.job_list_scraper self) job_title cities w w' ->
  forall total_jobs,
    ScrapingOrchestrator.count_loop self job_title cities total_jobs w = (Ok None, w').
Proof.
  induction 1 as [city rest w w' Hget | city rest w result w1 w' Hget Hne _ IH];
    intros total_jobs; cbn [ScrapingOrchestrator.count_loop];
    unfold mbind, M_bind; rewrite Hget.
  - reflexivity.
  - rewrite bool_decide_eq_false_2 by exact Hne. apply IH.
Qed.

(** C5.  When, after the directory of the title has been made, the
    count-fetch of some city in the list returns
    [[None, None, None, None]], [create_city_comparison] returns [None]
    (no table), in the world left by that fetch: the cities after it are
    not fetched, and every file, the time series among them, is as it
    was. *)
Theorem create_city_comparison_aborts (self : ScrapingOrchestrator.t) (job_title : string)
    (cities : option (list string)) (w w1 w' : World) :
  mkdir (path_join (ScrapingOrchestrator.data_dir self) (job_title ++ "/TotalJobs")) w
    = (Ok tt, w1) ->
  count_fetch_fails (ScrapingOrchestrator.job_list_scraper self) job_title
    (default DEFAULT_CITIES cities) w1 w' ->
  ScrapingOrchestrator.create_city_comparison self job_title cities w = (Ok None, w')
  /\ files w' = files w
  /\ files w' !! ScrapingOrchestrator.totals_file self job_title
     = files w !! ScrapingOrchestrator.totals_file self job_title.
Proof.
  intros Hmkdir Hfails.
  assert (Hfiles : files w' = files w).
  { apply count_fetch_fails_disk in Hfails as [Hf _]. rewrite Hf.
    unfold mkdir in Hmkdir. now injection Hmkdir as <-. }
  split; [| split; [exact Hfiles | now rewrite Hfiles]].
  unfold ScrapingOrchestrator.create_city_comparison, mbind, M_bind.
  rewrite Hmkdir.
  now rewrite (count_loop_fails self job_title _ w1 w' Hfails).
Qed.

End Scrapers.

Lemma create_city_comparison_aborts_witness :
  exists w' : World,
    @ScrapingOrchestrator.create_city_comparison plain_soup an_orchestrator
      "Software Engineer" (Some ["Ottawa"; "Toronto"; "Montreal"]) second_city_down
    = (Ok None, w')
    /\ files w' = files second_city_down
    /\ files w' !! ScrapingOrchestrator.totals_file an_orchestrator "Software Engineer"
       = files second_city_down
           !! ScrapingOrchestrator.totals_file an_orchestrator "Software Engineer".
Proof.
  eexists.
  eapply (@create_city_comparison_aborts plain_soup an_orchestrator "Software Engineer"
            (Some ["Ottawa"; "Toronto"; "Montreal"]) second_city_down).
  - reflexivity.
  - eapply fails_later.
    + reflexivity.
    + discriminate.
    + eapply fails_here. reflexivity.
Defined.

(** ** Pagination *)

Section Pagination.

Context `{Soup}.

Variable self : LinkedInScraper.t.
Variables job_title location : string.

Abbreviation count_fetch :=
  (JobListScraper.get_total_jobs (LinkedInScraper.job_list_scraper self) job_title location).
Abbreviation page_fetch :=
  (JobListScraper.get_job_list (LinkedInScraper.job_list_scraper self) job_title location).

Lemma _parse_jobs_nonempty (response_text : string) :
  JobListScraper._parse_jobs response_text <> [].
Proof.
  unfold JobListScraper._parse_jobs.
  destruct (search_card_infos response_text); discriminate.
Qed.

(** A page fetch never gives a frame without rows: the test
    [jobs_df.empty] after the first fetch cannot succeed. *)
Lemma get_job_list_nonempty (position : Z) (w : World) (jobs : list JobPosting.t) (w' : World) :
  page_fetch position w = (Ok jobs, w') -> jobs <> [].
Proof.
  unfold JobListScraper.get_job_list, mbind, M_bind.
  destruct (RequestHandler.get _ _ _ w) as [[[response |] | e] w1]; intros [= <- <-].
  - apply _parse_jobs_nonempty.
  - discriminate.
Qed.

Lemma paginate_gathers (positions : list Z) (jobs_df : list JobPosting.t) (w : World)
    (jobs_df' : list JobPosting.t) (w' : World) :
  gathers self job_title location positions jobs_df w jobs_df' w' ->
  forall rest,
    LinkedInScraper.paginate self job_title location (positions ++ rest) jobs_df w
    = LinkedInScraper.paginate self job_title location rest jobs_df' w'.
Proof.
  induction 1 as [| position ps jobs_df w new_jobs w1 jobs_df' w' Hget Hmore _ IH];
    intros rest; [reflexivity |].
  cbn [app LinkedInScraper.paginate]. unfold mbind, M_bind at 1.
  rewrite Hget, Hmore. apply IH.
Qed.

Lemma paginate_break (position : Z) (rest : list Z) (jobs_df : list JobPosting.t)
    (w : World) (new_jobs : list JobPosting.t) (w1 : World) :
  page_fetch position w = (Ok new_jobs, w1) ->
  LinkedInScraper.no_more_jobs new_jobs = true ->
  LinkedInScraper.paginate self job_title location (position :: rest) jobs_df w
  = (Ok jobs_df, w1).
Proof.
  intros Hget Hstop. cbn [LinkedInScraper.paginate]. unfold mbind, M_bind.
  now rewrite Hget, Hstop.
Qed.

(** [scrape_all_jobs] once the count and the first page are in. *)
Lemma scrape_all_jobs_unfold (limit : Z) (w : World) (total : Z) (others : list (option Z))
    (w1 : World) (first : list JobPosting.t) (w2 : World) :
  count_fetch w = (Ok (Some total :: others), w1) ->
  page_fetch 0 w1 = (Ok first, w2) ->
  LinkedInScraper.scrape_all_jobs self job_title location limit w
  = (jobs_df ← LinkedInScraper.paginate self job_title location
                 (range 60 (LinkedInScraper.actual_limit total limit) 10) first;
     LinkedInScraper.save_jobs self job_title location jobs_df) w2.
Proof.
  intros Hcount Hfirst.
  unfold LinkedInScraper.scrape_all_jobs. unfold mbind, M_bind at 1. rewrite Hcount.
  cbn [py_index lookup list_lookup]. unfold mret, M_ret, mbind, M_bind at 1.
  unfold mbind, M_bind at 1. rewrite Hfirst.
  rewrite bool_decide_eq_false_2 by (eapply get_job_list_nonempty; eauto).
  reflexivity.
Qed.

(** Saving issues no request: it returns the frame with its path and
    writes the frame to that path. *)
Lemma save_jobs_spec (jobs_df : list JobPosting.t) (w : World) :
  exists w',
    LinkedInScraper.save_jobs self job_title location jobs_df w
    = (Ok (Some jobs_df, Some (LinkedInScraper.jobs_file self job_title location)), w')
    /\ trace w' = trace w
    /\ files w' !! LinkedInScraper.jobs_file self job_title location = Some (JobsCsv jobs_df).
Proof.
  eexists. split; [reflexivity |]. split; [reflexivity |]. cbn. apply lookup_insert_eq.
Qed.

(** C3.  With a count-fetch that reports 75 jobs and a limit of 100 the
    effective limit is 75 and the continuation offsets are 60 and 70;
    when the page at 60 carries jobs, [scrape_all_jobs] is the three page
    fetches at 0, 60 and 70 followed by the save: it returns the three
    pages (the third unless it is the no-more-jobs signal), and its trace
    ends with the fetch at 70. *)
Theorem scrape_all_jobs_75_of_100 (w : World) (others : list (option Z)) (w1 : World)
    (p0 : list JobPosting.t) (w2 : World) (p60 : list JobPosting.t) (w3 : World)
    (p70 : list JobPosting.t) (w4 : World) :
  count_fetch w = (Ok (Some 75 :: others), w1) ->
  page_fetch 0 w1 = (Ok p0, w2) ->
  page_fetch 60 w2 = (Ok p60, w3) ->
  LinkedInScraper.no_more_jobs p60 = false ->
  page_fetch 70 w3 = (Ok p70, w4) ->
  LinkedInScraper.actual_limit 75 100 = 75
  /\ range 60 (LinkedInScraper.actual_limit 75 100) 10 = [60; 70]
  /\ exists w5,
       LinkedInScraper.scrape_all_jobs self job_title location 100 w
       = (Ok (Some (p0 ++ p60 ++ (if LinkedInScraper.no_more_jobs p70 then [] else p70))%list,
              Some (LinkedInScraper.jobs_file self job_title location)), w5)
       /\ trace w5 = trace w4.
Proof.
  intros Hcount H0 H60 Hmore H70.
  split; [reflexivity |]. split; [reflexivity |].
  rewrite (scrape_all_jobs_unfold 100 w 75 others w1 p0 w2 Hcount H0).
  change (range 60 (LinkedInScraper.actual_limit 75 100) 10) with [60; 70].
  unfold mbind, M_bind at 1.
  cbn [LinkedInScraper.paginate]. unfold mbind, M_bind at 1. rewrite H60, Hmore.
  unfold mbind, M_bind at 1. rewrite H70.
  destruct (LinkedInScraper.no_more_jobs p70); cbn [mret M_ret].
  - rewrite app_nil_r.
    destruct (save_jobs_spec (p0 ++ p60) w4) as (w5 & -> & Htrace & _). eauto.
  - rewrite <- app_assoc.
    destruct (save_jobs_spec (p0 ++ p60 ++ p70) w4) as (w5 & -> & Htrace & _). eauto.
Qed.

(** C4.  When the page at a continuation offset is empty or has no title
    at all, the pages before it having carried jobs, [scrape_all_jobs]
    saves and returns the records gathered before that offset, in the
    world left by that fetch: the offsets after it, though below the
    effective limit, are not fetched (the trace ends with that fetch). *)
Theorem scrape_all_jobs_stops_early (limit : Z) (w : World) (total : Z)
    (others : list (option Z)) (w1 : World) (first : list JobPosting.t) (w2 : World)
    (before : list Z) (position : Z) (after : list Z)
    (jobs_df : list JobPosting.t) (w3 : World) (new_jobs : list JobPosting.t) (w4 : World) :
  count_fetch w = (Ok (Some total :: others), w1) ->
  page_fetch 0 w1 = (Ok first, w2) ->
  range 60 (LinkedInScraper.actual_limit total limit) 10 = (before ++ position :: after)%list ->
  gathers self job_title location before first w2 jobs_df w3 ->
  page_fetch position w3 = (Ok new_jobs, w4) ->
  LinkedInScraper.no_more_jobs new_jobs = true ->
  exists w5,
    LinkedInScraper.scrape_all_jobs self job_title location limit w
    = (Ok (Some jobs_df, Some (LinkedInScraper.jobs_file self job_title location)), w5)
    /\ trace w5 = trace w4
    /\ files w5 !! LinkedInScraper.jobs_file self job_title location = Some (JobsCsv jobs_df).
Proof.
  intros Hcount Hfirst Hrange Hbefore Hget Hstop.
  rewrite (scrape_all_jobs_unfold limit w total others w1 first w2 Hcount Hfirst).
  rewrite Hrange. unfold mbind, M_bind at 1.
  rewrite (paginate_gathers before first w2 jobs_df w3 Hbefore).
  rewrite (paginate_break position after jobs_df w3 new_jobs w4 Hget Hstop).
  apply save_jobs_spec.
Qed.

End Pagination.

Lemma scrape_all_jobs_75_of_100_witness :
  exists (p0 p60 p70 : list JobPosting.t) (w4 : World),
    LinkedInScraper.actual_limit 75 100 = 75
    /\ range 60 (LinkedInScraper.actual_limit 75 100) 10 = [60; 70]
    /\ exists w5,
         @LinkedInScraper.scrape_all_jobs plain_soup a_scraper "Software Engineer" "Ottawa"
           100 three_pages
         = (Ok (Some (p0 ++ p60 ++ (if LinkedInScraper.no_more_jobs p70 then [] else p70))%list,
                Some (LinkedInScraper.jobs_file a_scraper "Software Engineer" "Ottawa")), w5)
         /\ trace w5 = trace w4.
Proof.
  do 4 eexists.
  eapply (@scrape_all_jobs_75_of_100 plain_soup a_scraper "Software Engineer" "Ottawa"
            three_pages).
  - reflexivity.
  - reflexivity.
  - reflexivity.
  - reflexivity.
  - reflexivity.
Defined.

(** The run over [three_pages] on the wire: the count-fetch, then the
    pages at offsets 0, 60 and 70, each answered at once. *)
Example three_pages_on_the_wire :
  urls (trace (snd (@LinkedInScraper.scrape_all_jobs plain_soup a_scraper
                      "Software Engineer" "Ottawa" 100 three_pages)))
  = [JobListScraper._build_search_url "Software Engineer" "Ottawa" 0;
     JobListScraper._build_search_url "Software Engineer" "Ottawa" 0;
     JobListScraper._build_search_url "Software Engineer" "Ottawa" 60;
     JobListScraper._build_search_url "Software Engineer" "Ottawa" 70].
Proof. vm_compute. reflexivity. Qed.

(** C3 as stated fails.  The count-fetch reports 75 and the limit is 100,
    so that the effective limit is 75 and the offsets after 0 are 60 and
    70; but the page at offset 60 carries no job.  The loop stops there:
    the run makes two page fetches, not three, offset 70 is never
    requested, and the jobs of the first page are what is returned and
    saved. *)
Lemma empty_page_at_60_ends_run :
  fst (@JobListScraper.get_total_jobs plain_soup a_list_scraper "Software Engineer" "Ottawa"
         empty_at_60)
  = Ok [Some 75; Some 0; Some 0; Some 0]
  /\ LinkedInScraper.actual_limit 75 100 = 75
  /\ range 60 (LinkedInScraper.actual_limit 75 100) 10 = [60; 70]
  /\ urls (trace (snd (@LinkedInScraper.scrape_all_jobs plain_soup a_scraper
                         "Software Engineer" "Ottawa" 100 empty_at_60)))
     = [JobListScraper._build_search_url "Software Engineer" "Ottawa" 0;
        JobListScraper._build_search_url "Software Engineer" "Ottawa" 0;
        JobListScraper._build_search_url "Software Engineer" "Ottawa" 60]
  /\ fst (@LinkedInScraper.scrape_all_jobs plain_soup a_scraper "Software Engineer" "Ottawa"
            100 empty_at_60)
     = Ok (Some (@JobListScraper._parse_jobs plain_soup "first"),
           Some (LinkedInScraper.jobs_file a_scraper "Software Engineer" "Ottawa")).
Proof. repeat split; vm_compute; reflexivity. Qed.

Lemma scrape_all_jobs_stops_early_witness :
  exists (jobs_df : list JobPosting.t) (w4 w5 : World),
    @LinkedInScraper.scrape_all_jobs plain_soup a_scraper "Software Engineer" "Ottawa" 100
      empty_at_70
    = (Ok (Some jobs_df, Some (LinkedInScraper.jobs_file a_scraper "Software Engineer" "Ottawa")),
       w5)
    /\ trace w5 = trace w4
    /\ files w5 !! LinkedInScraper.jobs_file a_scraper "Software Engineer" "Ottawa"
       = Some (JobsCsv jobs_df).
Proof.
  do 2 eexists.
  eapply (@scrape_all_jobs_stops_early plain_soup a_scraper "Software Engineer" "Ottawa"
            100 empty_at_70 200 _ _ _ _ [60] 70 [80; 90]).
  - reflexivity.
  - reflexivity.
  - reflexivity.
  - eapply gathers_cons; [reflexivity | reflexivity | apply gathers_nil].
  - reflexivity.
  - reflexivity.
Defined.

(** In that run the frame holds the jobs of offsets 0 and 60, and the
    wire shows no request for offsets 80 and 90. *)
Example empty_at_70_outcome :
  let '(r, w') := @LinkedInScraper.scrape_all_jobs plain_soup a_scraper
                    "Software Engineer" "Ottawa" 100 empty_at_70 in
  (match r with
   | Ok (Some jobs_df, _) => map JobPosting.title jobs_df
   | _ => []
   end,
   urls (trace w'))
  = ([Some "first"; Some "second"],
     [JobListScraper._build_search_url "Software Engineer" "Ottawa" 0;
      JobListScraper._build_search_url "Software Engineer" "Ottawa" 0;
      JobListScraper._build_search_url "Software Engineer" "Ottawa" 60;
      JobListScraper._build_search_url "Software Engineer" "Ottawa" 70]).
Proof. vm_compute. reflexivity. Qed.

(** ** Detail enrichment *)

Section Enrichment.

Context `{Soup}.

Variable self : LinkedInScraper.t.

Abbreviation details_fetch job_url :=
  (RequestHandler.get
     (JobDetailsScraper.request_handler (LinkedInScraper.job_details_scraper self)) job_url
     (Some (JobDetailsScraper.headers (LinkedInScraper.job_details_scraper self)))).

(** The loop over a concatenation is the loop over its parts. *)
Lemma details_loop_app (before rest : list JobPosting.t) :
  forall (jobs_with_details : list JobPosting.t) (w : World),
    LinkedInScraper.details_loop self (before ++ rest) jobs_with_details w
    = match LinkedInScraper.details_loop self before jobs_with_details w with
      | (Ok kept, w1) => LinkedInScraper.details_loop self rest kept w1
      | (Raise e, w1) => (Raise e, w1)
      end.
Proof.
  induction before as [| row before IH]; intros acc w; [reflexivity |].
  cbn [app LinkedInScraper.details_loop].
  destruct (JobPosting.job_link row) as [job_url |]; [| apply IH].
  unfold mbind, M_bind.
  destruct (JobDetailsScraper.get_job_details _ job_url w) as [[[| first others] | e] w1];
    [apply IH | apply IH | reflexivity].
Qed.

(** Each input row adds at most one row to the output. *)
Lemma details_loop_length (rows : list JobPosting.t) :
  forall (jobs_with_details : list JobPosting.t) (w : World)
         (out : list JobPosting.t) (w' : World),
    LinkedInScraper.details_loop self rows jobs_with_details w = (Ok out, w') ->
    exists new, out = (jobs_with_details ++ new)%list /\ (length new <= length rows)%nat.
Proof.
  induction rows as [| row rows IH]; intros acc w out w'.
  - intros [= <- <-]. exists []. split; [now rewrite app_nil_r | reflexivity].
  - cbn [LinkedInScraper.details_loop].
    destruct (JobPosting.job_link row) as [job_url |].
    + unfold mbind, M_bind.
      destruct (JobDetailsScraper.get_job_details _ job_url w) as [[[| first others] | e] w1];
        [| | discriminate]; intros Hloop; apply IH in Hloop as (new & -> & Hlen).
      * exists new. split; [reflexivity | simpl; lia].
      * eexists (_ :: new). split; [now rewrite <- app_assoc | simpl; lia].
    + intros Hloop. apply IH in Hloop as (new & -> & Hlen).
      exists new. split; [reflexivity | simpl; lia].
Qed.

(** A failed request gives the frame without rows. *)
Lemma get_job_details_failed (job_url : string) (w w' : World) :
  details_fetch job_url w = (Ok None, w') ->
  JobDetailsScraper.get_job_details (LinkedInScraper.job_details_scraper self) job_url w
  = (Ok [], w').
Proof.
  intros Hget. unfold JobDetailsScraper.get_job_details, mbind, M_bind. now rewrite Hget.
Qed.

(** An answered request gives a frame with one row, whatever the page
    holds. *)
Lemma get_job_details_answered (job_url : string) (w : World) (response : Response)
    (w' : World) :
  details_fetch job_url w = (Ok (Some response), w') ->
  exists first,
    JobDetailsScraper.get_job_details (LinkedInScraper.job_details_scraper self) job_url w
    = (Ok [first], w').
Proof.
  intros Hget. unfold JobDetailsScraper.get_job_details, mbind, M_bind. rewrite Hget.
  eexists. reflexivity.
Qed.

(** C6, amended.  A record whose enrichment fetch fails (the request
    client returns [None]) is dropped: the output of
    [scrape_all_job_details] is what the records before it had given,
    followed by what the records after it give, this is the table
    written to the file, and it has fewer rows than the input. *)
Theorem failed_fetch_drops_record (file_path : string)
    (before : list JobPosting.t) (record : JobPosting.t) (after : list JobPosting.t)
    (job_url : string) (w : World) (kept : list JobPosting.t) (w1 w2 : World)
    (out : list JobPosting.t) (w3 : World) :
  files w !! file_path = Some (JobsCsv (before ++ record :: after)) ->
  LinkedInScraper.details_loop self before [] w = (Ok kept, w1) ->
  JobPosting.job_link record = Some job_url ->
  details_fetch job_url w1 = (Ok None, w2) ->
  LinkedInScraper.details_loop self after kept w2 = (Ok out, w3) ->
  exists (w4 : World) (new : list JobPosting.t),
    LinkedInScraper.scrape_all_job_details self file_path w = (Ok (out, file_path), w4)
    /\ files w4 !! file_path = Some (JobsCsv out)
    /\ out = (kept ++ new)%list
    /\ (length kept <= length before)%nat
    /\ (length new <= length after)%nat
    /\ (length out < length (before ++ record :: after))%nat.
Proof.
  intros Hfile Hbefore Hlink Hfetch Hafter.
  destruct (details_loop_length _ _ _ _ _ Hbefore) as (kept' & Hkept & Hlen_kept).
  destruct (details_loop_length _ _ _ _ _ Hafter) as (new & Hout & Hlen_new).
  simpl in Hkept. subst kept'.
  eexists. exists new.
  split; [| split; [| split; [exact Hout | split; [exact Hlen_kept | split; [exact Hlen_new |]]]]].
  - unfold LinkedInScraper.scrape_all_job_details. unfold mbind, M_bind at 1.
    unfold read_jobs_csv. rewrite Hfile.
    unfold mbind, M_bind at 1.
    rewrite details_loop_app, Hbefore.
    cbn [LinkedInScraper.details_loop]. rewrite Hlink.
    unfold mbind, M_bind at 1. rewrite (get_job_details_failed job_url w1 w2 Hfetch).
    rewrite Hafter. reflexivity.
  - cbn. apply lookup_insert_eq.
  - rewrite Hout, !length_app. simpl. lia.
Qed.

End Enrichment.

Lemma failed_fetch_drops_record_witness :
  exists (w4 : World) (new : list JobPosting.t),
    @LinkedInScraper.scrape_all_job_details plain_soup a_scraper
      "data/raw/Software Engineer/Software Engineer in Ottawa.csv" job_page_unreachable
    = (Ok ([], "data/raw/Software Engineer/Software Engineer in Ottawa.csv"), w4)
    /\ files w4 !! "data/raw/Software Engineer/Software Engineer in Ottawa.csv"
       = Some (JobsCsv [])
    /\ [] = ([] ++ new)%list
    /\ (length (@nil JobPosting.t) <= length (@nil JobPosting.t))%nat
    /\ (length new <= length (@nil JobPosting.t))%nat
    /\ (length (@nil JobPosting.t) < length ([] ++ a_listing :: []))%nat.
Proof.
  eapply (@failed_fetch_drops_record plain_soup a_scraper
            "data/raw/Software Engineer/Software Engineer in Ottawa.csv"
            [] a_listing [] "https://jobs.example/1" job_page_unreachable).
  - reflexivity.
  - reflexivity.
  - reflexivity.
  - vm_compute. reflexivity.
  - reflexivity.
Defined.

(** C6 as stated fails.  The job page is answered with status 200 and a
    body from which nothing can be read: every column of the parsed row
    is [None].  The record is not dropped: it is the row of the output
    and of the table written to the file, with its detail fields absent,
    and the output has as many rows as the input. *)
Lemma unparseable_page_keeps_record :
  @JobDetailsScraper._parse_response plain_soup ""
  = [{| JobDetailsScraper.location := None; JobDetailsScraper.seniority_level := None;
        JobDetailsScraper.employment_type := None; JobDetailsScraper.job_function := None;
        JobDetailsScraper.industries := None; JobDetailsScraper.applicants := None;
        JobDetailsScraper.description := None; JobDetailsScraper.time_posted := None;
        JobDetailsScraper.company_url := None |}]
  /\ fst (@LinkedInScraper.scrape_all_job_details plain_soup a_scraper
            "data/raw/Software Engineer/Software Engineer in Ottawa.csv" blank_job_page)
     = Ok ([a_listing], "data/raw/Software Engineer/Software Engineer in Ottawa.csv")
  /\ files (snd (@LinkedInScraper.scrape_all_job_details plain_soup a_scraper
                   "data/raw/Software Engineer/Software Engineer in Ottawa.csv"
                   blank_job_page))
       !! "data/raw/Software Engineer/Software Engineer in Ottawa.csv"
     = Some (JobsCsv [a_listing])
  /\ ~ (length [a_listing] < length [a_listing])%nat.
Proof.
  split; [reflexivity |]. split; [vm_compute; reflexivity |].
  split; [vm_compute; reflexivity |]. simpl. lia.
Qed.

(** ** The latest view *)

Lemma leb_refl (a : string) : String.leb a a = true.
Proof. destruct (String.leb_total a a); assumption. Qed.

Lemma leb_trans (a b c : string) :
  String.leb a b = true -> String.leb b c = true -> String.leb a c = true.
Proof.
  unfold String.leb. change String.compare with OrderedTypeEx.String_as_OT.cmp.
  destruct (OrderedTypeEx.String_as_OT.cmp a b) eqn:Hab; [| | discriminate]; intros _;
    destruct (OrderedTypeEx.String_as_OT.cmp b c) eqn:Hbc; try discriminate; intros _.
  - apply OrderedTypeEx.String_as_OT.cmp_eq in Hab, Hbc. subst.
    now rewrite (proj2 (OrderedTypeEx.String_as_OT.cmp_eq c c) eq_refl).
  - apply OrderedTypeEx.String_as_OT.cmp_eq in Hab. subst. now rewrite Hbc.
  - apply OrderedTypeEx.String_as_OT.cmp_eq in Hbc. subst. now rewrite Hab.
  - apply OrderedTypeEx.String_as_OT.cmp_lt in Hab, Hbc.
    pose proof (OrderedTypeEx.String_as_OT.lt_trans _ _ _ Hab Hbc) as Hac.
    apply OrderedTypeEx.String_as_OT.cmp_lt in Hac. now rewrite Hac.
Qed.

Lemma str_max_cases (a b : string) :
  (Dashboard.str_max a b = a \/ Dashboard.str_max a b = b)
  /\ String.leb a (Dashboard.str_max a b) = true
  /\ String.leb b (Dashboard.str_max a b) = true.
Proof.
  unfold Dashboard.str_max, String.ltb.
  destruct (String.compare a b) eqn:Hab.
  - apply String.compare_eq_iff in Hab. subst b.
    repeat split; auto using leb_refl.
  - repeat split; auto using leb_refl.
    unfold String.leb. now rewrite Hab.
  - repeat split; auto using leb_refl.
    unfold String.leb. now rewrite String.compare_antisym, Hab.
Qed.

Lemma lexicographic_max_unique (m m' : string) (dates dates' : list string) :
  Permutation dates dates' ->
  lexicographic_max m dates -> lexicographic_max m' dates' -> m = m'.
Proof.
  intros Hperm [Hin Hmax] [Hin' Hmax'].
  apply String.leb_antisym.
  - apply Hmax'. eapply Permutation_in; eauto.
  - apply Hmax. eapply Permutation_in; [symmetry |]; eauto.
Qed.

Lemma fold_str_max (df : list Dashboard.view) : forall (m0 : string),
  let m := fold_left (fun m r' => Dashboard.str_max m (Dashboard.view_Date r')) df m0 in
  (m = m0 \/ In m (map Dashboard.view_Date df))
  /\ String.leb m0 m = true
  /\ (forall d, In d (map Dashboard.view_Date df) -> String.leb d m = true).
Proof.
  induction df as [| r df IH]; intros m0; cbn [fold_left map].
  - split; [auto |]. split; [apply leb_refl | intros d []].
  - destruct (IH (Dashboard.str_max m0 (Dashboard.view_Date r))) as (Hin & Hle & Hall).
    destruct (str_max_cases m0 (Dashboard.view_Date r)) as (Hcase & Hl & Hr).
    cbv zeta. split; [| split].
    + destruct Hin as [-> | Hin]; [| right; right; exact Hin].
      destruct Hcase as [-> | ->]; [left | right; left]; reflexivity.
    + eauto using leb_trans.
    + intros d [<- | Hd]; [eauto using leb_trans | auto].
Qed.

(** [Date_max] is the lexicographic maximum of the column. *)
Lemma Date_max_spec (df : list Dashboard.view) (m : string) :
  Dashboard.Date_max df = Some m ->
  lexicographic_max m (map Dashboard.view_Date df).
Proof.
  destruct df as [| r df]; [discriminate |]. intros [= <-].
  destruct (fold_str_max df (Dashboard.view_Date r)) as (Hin & Hle & Hall).
  split.
  - destruct Hin as [-> | Hin]; [left; reflexivity | right; exact Hin].
  - intros d [<- | Hd]; auto.
Qed.

Lemma insert_by_perm {A} (le : A -> A -> bool) (x : A) (l : list A) :
  Permutation (insert_by le x l) (x :: l).
Proof.
  induction l as [| y l IH]; [reflexivity |].
  cbn [insert_by]. destruct (le x y); [reflexivity |].
  rewrite IH. apply perm_swap.
Qed.

Lemma sort_values_perm {A} (le : A -> A -> bool) (df : list A) :
  Permutation (sort_values le df) df.
Proof.
  induction df as [| x df IH]; [reflexivity |].
  cbn. rewrite insert_by_perm. now rewrite IH.
Qed.

Lemma filter_perm {A} (f : A -> bool) (l l' : list A) :
  Permutation l l' -> Permutation (List.filter f l) (List.filter f l').
Proof.
  induction 1 as [| x l l' _ IH | x y l | l l' l'' _ IH1 _ IH2]; cbn.
  - reflexivity.
  - destruct (f x); [now rewrite IH | exact IH].
  - destruct (f x), (f y); try reflexivity. apply perm_swap.
  - now rewrite IH1.
Qed.

(** The group keys are the cities of the frame, each once. *)
Lemma group_keys_spec (df : list Dashboard.row) :
  NoDup (Dashboard.group_keys df)
  /\ forall r, r ∈ df -> Dashboard.City r ∈ Dashboard.group_keys df.
Proof.
  induction df as [| r df [IHnd IHin]].
  - split; [constructor | intros r Hr; inversion Hr].
  - cbn [Dashboard.group_keys fold_right].
    fold (Dashboard.group_keys df).
    destruct (bool_decide_reflect (Dashboard.City r ∈ Dashboard.group_keys df))
      as [Hin | Hnin].
    + split; [exact IHnd |].
      intros r' Hr'. apply elem_of_cons in Hr' as [-> | Hr']; auto.
    + split.
      * rewrite insert_by_perm. now constructor.
      * intros r' Hr'. rewrite insert_by_perm.
        apply elem_of_cons in Hr' as [-> | Hr']; [left | right; auto].
Qed.

Lemma group_split (key : string) (keys : list string) (df : list Dashboard.row) :
  key ∉ keys ->
  Permutation
    (Dashboard.group df key
       ++ List.filter (fun r => bool_decide (Dashboard.City r ∈ keys)) df)
    (List.filter (fun r => bool_decide (Dashboard.City r ∈ key :: keys)) df).
Proof.
  intros Hnin. unfold Dashboard.group.
  induction df as [| r df IH]; [reflexivity |]. cbn [List.filter].
  destruct (String.eqb_spec (Dashboard.City r) key) as [-> | Hne].
  - rewrite (bool_decide_eq_false_2 (key ∈ keys)) by exact Hnin.
    rewrite (bool_decide_eq_true_2 (key ∈ key :: keys)) by left.
    cbn. now rewrite IH.
  - destruct (bool_decide_reflect (Dashboard.City r ∈ keys)) as [Hin | Hnin'].
    + rewrite (bool_decide_eq_true_2 (Dashboard.City r ∈ key :: keys))
        by (right; exact Hin).
      rewrite <- Permutation_middle. now rewrite IH.
    + rewrite (bool_decide_eq_false_2 (Dashboard.City r ∈ key :: keys))
        by (intros Hin; apply elem_of_cons in Hin as [Heq | Hin]; [congruence | contradiction]).
      exact IH.
Qed.

Lemma groups_perm (df : list Dashboard.row) (keys : list string) :
  NoDup keys ->
  Permutation
    (flat_map (fun key => sort_values Dashboard.Date_asc (Dashboard.group df key)) keys)
    (List.filter (fun r => bool_decide (Dashboard.City r ∈ keys)) df).
Proof.
  induction 1 as [| key keys Hnin _ IH]; cbn [flat_map].
  - induction df as [| r df IHdf]; [reflexivity |]. cbn.
    rewrite bool_decide_eq_false_2 by (intros Hin; inversion Hin). exact IHdf.
  - rewrite sort_values_perm, IH. now apply group_split.
Qed.

(** Grouping and sorting only reorder the rows. *)
Lemma groupby_City_sorted_perm (df : list Dashboard.row) :
  Permutation (Dashboard.groupby_City_sorted df) df.
Proof.
  unfold Dashboard.groupby_City_sorted.
  destruct (group_keys_spec df) as [Hnd Hin].
  rewrite (groups_perm df _ Hnd).
  assert (Hall : forall l : list Dashboard.row,
             (forall r, r ∈ l -> Dashboard.City r ∈ Dashboard.group_keys df) ->
             List.filter
               (fun r => bool_decide (Dashboard.City r ∈ Dashboard.group_keys df)) l = l).
  { induction l as [| r l IHl]; intros Hl; [reflexivity |]. cbn.
    rewrite bool_decide_eq_true_2 by (apply Hl; left).
    f_equal. apply IHl. intros r' Hr'. apply Hl. now right. }
  now rewrite Hall.
Qed.

Lemma diff_by_City_length (df : list Dashboard.row) :
  forall seen, length (Dashboard.diff_by_City seen df) = length df.
Proof.
  induction df as [| r df IH]; intros seen; [reflexivity |].
  cbn. now rewrite IH.
Qed.

Lemma zip_fill_keys (df : list Dashboard.row) : forall (delta : list (option Z)),
  length delta = length df ->
  map view_key (zip_with Dashboard.fill df delta) = map row_key df.
Proof.
  induction df as [| r df IH]; intros [| d delta] Hlen; try discriminate; [reflexivity |].
  cbn. f_equal. apply IH. now injection Hlen.
Qed.

(** The frame with its deltas has the rows of the loaded frame, in the
    order of the groups. *)
Lemma with_deltas_keys (df : list Dashboard.row) :
  Permutation (map view_key (Dashboard.with_deltas df)) (map row_key df).
Proof.
  unfold Dashboard.with_deltas.
  rewrite zip_fill_keys by apply diff_by_City_length.
  apply Permutation_map.
  rewrite groupby_City_sorted_perm. apply sort_values_perm.
Qed.

Lemma lexicographic_max_perm (m : string) (dates dates' : list string) :
  Permutation dates dates' -> lexicographic_max m dates -> lexicographic_max m dates'.
Proof.
  intros Hperm [Hin Hmax]. split.
  - eapply Permutation_in; eauto.
  - intros d Hd. apply Hmax. eapply Permutation_in; [symmetry |]; eauto.
Qed.

(** [latest] keeps the rows dated with the lexicographic maximum. *)
Lemma latest_filter (df : list Dashboard.view) (m : string) :
  lexicographic_max m (map Dashboard.view_Date df) ->
  Dashboard.latest df
  = List.filter (fun r => String.eqb (Dashboard.view_Date r) m) df.
Proof.
  intros Hmax. unfold Dashboard.latest.
  destruct (Dashboard.Date_max df) as [m' |] eqn:Hm'.
  - apply Date_max_spec in Hm'.
    now rewrite (lexicographic_max_unique m m' _ _ (Permutation_refl _) Hmax Hm').
  - destruct df; [| discriminate]. destruct Hmax as [[] _].
Qed.

Lemma filter_view_key (m : string) (df : list Dashboard.view) :
  map view_key (List.filter (fun r => String.eqb (Dashboard.view_Date r) m) df)
  = List.filter (fun k => String.eqb (fst (fst k)) m) (map view_key df).
Proof.
  induction df as [| v df IH]; [reflexivity |]. cbn.
  destruct (String.eqb (Dashboard.view_Date v) m); cbn; now rewrite IH.
Qed.

Lemma filter_row_key (m : string) (df : list Dashboard.row) :
  map row_key (List.filter (fun r => String.eqb (Dashboard.Date r) m) df)
  = List.filter (fun k => String.eqb (fst (fst k)) m) (map row_key df).
Proof.
  induction df as [| r df IH]; [reflexivity |]. cbn.
  destruct (String.eqb (Dashboard.Date r) m); cbn; now rewrite IH.
Qed.

Lemma options_columns (job_date column_name : string) :
  Dashboard.JOB_DATE_OPTIONS !! job_date = Some column_name ->
  In column_name ["24h_Jobs"; "Week_Jobs"; "Month_Jobs"; "Total_Jobs"].
Proof.
  intros Hlookup. unfold Dashboard.JOB_DATE_OPTIONS in Hlookup.
  apply elem_of_list_to_map_2 in Hlookup.
  repeat (apply elem_of_cons in Hlookup as [[= _ ->] | Hlookup]; [simpl; tauto |]).
  inversion Hlookup.
Qed.

(** Choosing one of the four count columns never fails and keeps the
    dates and the cities. *)
Lemma select_known (column_name : string) (rows : list TotalJobs.row) (w : World) :
  In column_name ["24h_Jobs"; "Week_Jobs"; "Month_Jobs"; "Total_Jobs"] ->
  exists df,
    Dashboard.select column_name rows w = (Ok df, w)
    /\ map Dashboard.Date df = map TotalJobs.Date rows
    /\ map Dashboard.City df = map TotalJobs.City rows.
Proof.
  intros Hknown.
  assert (Hcol : forall r, exists v, Dashboard.column column_name r w = (Ok v, w)).
  { intros r. simpl in Hknown.
    destruct Hknown as [<- | [<- | [<- | [<- | []]]]]; eexists; reflexivity. }
  induction rows as [| r rows (df & Hdf & Hdates & Hcities)].
  - exists []. repeat split.
  - destruct (Hcol r) as [v Hv]. eexists.
    cbn [Dashboard.select]. unfold mbind, M_bind. rewrite Hv, Hdf.
    split; [reflexivity |]. cbn. now rewrite Hdates, Hcities.
Qed.

(** C8.  For a time series loaded from the file, the latest view is the
    frame with its deltas, filtered: its rows all carry the date that is
    the greatest of the loaded dates in the lexicographic order of
    strings, and they are, with their city and count, exactly the loaded
    rows that carry this date.  For the two snapshots of Ottawa dated
    "2024-01-05" and "2024-01-20" the view is the row of "2024-01-20". *)
Theorem latest_view_is_max_date (job_search job_date : string) (data_dir : option string)
    (column_name : string) (rows : list TotalJobs.row) (w : World) :
  files w !! path_join (default "data/raw/JobData" data_dir)
                       (job_search ++ "/TotalJobs/TotalJobs.csv")
    = Some (TotalsCsv rows) ->
  Dashboard.JOB_DATE_OPTIONS !! job_date = Some column_name ->
  exists (df : list Dashboard.row) (result : list Dashboard.view),
    Dashboard.select column_name rows w = (Ok df, w)
    /\ map Dashboard.Date df = map TotalJobs.Date rows
    /\ map Dashboard.City df = map TotalJobs.City rows
    /\ Dashboard.find_latest_jobs_cities job_search job_date data_dir w = (Ok result, w)
    /\ (forall m, lexicographic_max m (map TotalJobs.Date rows) ->
          Forall (fun v => Dashboard.view_Date v = m) result
          /\ Permutation
               (map view_key result)
               (map row_key (List.filter (fun r => String.eqb (Dashboard.Date r) m) df)))
    /\ (rows = [] -> result = [])
    /\ Dashboard.find_latest_jobs_cities "Software Engineer" "Total" None snapshots_on_disk
       = (Ok [{| Dashboard.view_Date := "2024-01-20"; Dashboard.view_City := "Ottawa";
                 Dashboard.view_Total_Jobs := 130; Dashboard.view_delta := 30 |}],
          snapshots_on_disk).
Proof.
  intros Hfile Hoption.
  destruct (select_known column_name rows w (options_columns _ _ Hoption))
    as (df & Hselect & Hdates & Hcities).
  exists df, (Dashboard.latest (Dashboard.with_deltas df)).
  split; [exact Hselect |]. split; [exact Hdates |]. split; [exact Hcities |].
  split; [| split; [| split]].
  - unfold Dashboard.find_latest_jobs_cities, exists_file, read_totals_csv, mbind, M_bind.
    rewrite Hfile. rewrite bool_decide_eq_true_2 by eauto.
    cbn [negb]. rewrite Hfile, Hoption, Hselect. reflexivity.
  - intros m Hmax.
    assert (Hviews : lexicographic_max m
                       (map Dashboard.view_Date (Dashboard.with_deltas df))).
    { eapply lexicographic_max_perm; [| exact Hmax].
      rewrite <- Hdates.
      change (map Dashboard.Date df) with (map (fun r => fst (fst (row_key r))) df).
      change (map Dashboard.view_Date (Dashboard.with_deltas df))
        with (map (fun v => fst (fst (view_key v))) (Dashboard.with_deltas df)).
      rewrite <- (map_map row_key (fun k => fst (fst k))).
      rewrite <- (map_map view_key (fun k => fst (fst k))).
      apply Permutation_map. symmetry. apply with_deltas_keys. }
    rewrite (latest_filter _ m Hviews). split.
    + apply List.Forall_forall. intros v Hv. apply filter_In in Hv as [_ Hv].
      now apply String.eqb_eq.
    + rewrite filter_view_key, filter_row_key.
      apply filter_perm, with_deltas_keys.
  - intros ->. destruct df; [reflexivity | discriminate].
  - vm_compute. reflexivity.
Qed.

Lemma latest_view_is_max_date_witness :
  exists (df : list Dashboard.row) (result : list Dashboard.view),
    Dashboard.select "Total_Jobs" two_snapshots snapshots_on_disk = (Ok df, snapshots_on_disk)
    /\ map Dashboard.Date df = map TotalJobs.Date two_snapshots
    /\ map Dashboard.City df = map TotalJobs.City two_snapshots
    /\ Dashboard.find_latest_jobs_cities "Software Engineer" "Total" None snapshots_on_disk
       = (Ok result, snapshots_on_disk)
    /\ (forall m, lexicographic_max m (map TotalJobs.Date two_snapshots) ->
          Forall (fun v => Dashboard.view_Date v = m) result
          /\ Permutation
               (map view_key result)
               (map row_key (List.filter (fun r => String.eqb (Dashboard.Date r) m) df)))
    /\ (two_snapshots = [] -> result = [])
    /\ Dashboard.find_latest_jobs_cities "Software Engineer" "Total" None snapshots_on_disk
       = (Ok [{| Dashboard.view_Date := "2024-01-20"; Dashboard.view_City := "Ottawa";
                 Dashboard.view_Total_Jobs := 130; Dashboard.view_delta := 30 |}],
          snapshots_on_disk).
Proof.
  apply (latest_view_is_max_date "Software Engineer" "Total" None "Total_Jobs"
           two_snapshots snapshots_on_disk).
  - reflexivity.
  - reflexivity.
Defined.

(** Among the two dates of the example, "2024-01-20" is the
    lexicographic maximum. *)
Example max_of_two_dates :
  lexicographic_max "2024-01-20" (map TotalJobs.Date two_snapshots).
Proof.
  split; [right; left; reflexivity |].
  intros d [<- | [<- | []]]; reflexivity.
Qed.

(** * Further properties *)

(** ** The request client, case by case *)

(** X1.  An attempt that is answered with status 200 ends the request:
    at any trial number [make_request] returns that response, in the
    world left by the call; no sleep follows. *)
Theorem make_request_success (self : RequestHandler.t) (url method : string)
    (hdrs data : option (gmap string string)) (t : Z) (w : World)
    (response : Response) (w1 : World) :
  RequestHandler.send self url method hdrs data w = (Ok response, w1) ->
  status_code response = 200 ->
  RequestHandler.make_request self url method hdrs data t w = (Ok (Some response), w1).
Proof.
  intros Hsend Hstatus.
  unfold RequestHandler.make_request, RequestHandler.enough_fuel.
  rewrite request_S. unfold attempt. rewrite Hsend, handle_response_cases. cbv zeta.
  now rewrite Hstatus.
Qed.

Lemma make_request_success_witness :
  RequestHandler.make_request RequestHandler.defaults "u" "GET" None None 0
    (fresh [page 200 "ok"])
  = (Ok (Some {| status_code := 200; text := "ok" |}),
     log_event (EvHttp {| call_verb := GET; call_url := "u";
                          call_headers := ∅; call_data := None |})
       (fresh [page 200 "ok"])).
Proof.
  apply (make_request_success RequestHandler.defaults "u" "GET" None None 0
           (fresh [page 200 "ok"])).
  - reflexivity.
  - reflexivity.
Defined.

(** X2.  A method of ASCII letters other than GET and POST (in any
    case) makes [make_request] raise [ValueError] with the method in the
    message: the [except] clause for request errors does not catch it,
    nothing is sent and nothing is retried.  For ASCII text [upper] is
    [str.upper]; other letters are left out, since [str.upper] turns
    some of them into ASCII capitals. *)
Theorem make_request_unsupported_method (self : RequestHandler.t) (url method : string)
    (hdrs data : option (gmap string string)) (t : Z) (w : World) :
  isascii method = true ->
  upper method <> "GET" ->
  upper method <> "POST" ->
  RequestHandler.make_request self url method hdrs data t w
  = (Raise (ValueError ("Unsupported HTTP method: " ++ method)), w).
Proof.
  intros Hascii Hget Hpost.
  unfold RequestHandler.make_request, RequestHandler.enough_fuel.
  rewrite request_S. unfold attempt, RequestHandler.send.
  destruct (String.eqb_spec (upper method) "GET"); [contradiction |].
  destruct (String.eqb_spec (upper method) "POST"); [contradiction |].
  reflexivity.
Qed.

Lemma make_request_unsupported_method_witness :
  RequestHandler.make_request RequestHandler.defaults "u" "PUT" None None 0 (fresh [])
  = (Raise (ValueError "Unsupported HTTP method: PUT"), fresh []).
Proof.
  apply (make_request_unsupported_method RequestHandler.defaults "u" "PUT" None None 0
           (fresh [])).
  - reflexivity.
  - vm_compute. discriminate.
  - vm_compute. discriminate.
Defined.

(** X3.  A network error at trial [t] is followed by a sleep of
    [base_delay * t] seconds and by trial [t + 1] as long as
    [t < max_retries]; from trial [max_retries] on [make_request]
    returns [None], without a sleep and without raising.  The trial and
    the base delay are not negative. *)
Theorem network_error_backoff (self : RequestHandler.t) (url method : string)
    (hdrs data : option (gmap string string)) (t : Z) (w : World) (msg : string) (w1 : World) :
  RequestHandler.send self url method hdrs data w = (Raise (RequestException msg), w1) ->
  0 <= t ->
  0 <= RequestHandler.base_delay self ->
  RequestHandler.make_request self url method hdrs data t w
  = if t <? RequestHandler.max_retries self
    then RequestHandler.make_request self url method hdrs data (t + 1)
           (log_event (EvSleep (RequestHandler.base_delay self * t)) w1)
    else (Ok None, w1).
Proof.
  intros Hsend Ht Hbase.
  unfold RequestHandler.make_request, RequestHandler.enough_fuel.
  rewrite request_S. unfold attempt. rewrite Hsend.
  destruct (Z.ltb_spec t (RequestHandler.max_retries self)); [| reflexivity].
  destruct (time_sleep_cases (RequestHandler.base_delay self * t) w1)
    as [[_ ->] | [Hneg _]];
    [| pose proof (Z.mul_nonneg_nonneg _ _ Hbase Ht); lia].
  f_equal. lia.
Qed.

Lemma network_error_backoff_witness :
  let w1 := log_event (EvHttp {| call_verb := GET; call_url := "u";
                                 call_headers := ∅; call_data := None |}) (fresh []) in
  RequestHandler.make_request RequestHandler.defaults "u" "GET" None None 2 (fresh [])
  = RequestHandler.make_request RequestHandler.defaults "u" "GET" None None 3
      (log_event (EvSleep 10) w1).
Proof.
  intros w1.
  apply (network_error_backoff RequestHandler.defaults "u" "GET" None None 2 (fresh [])
           "connection refused" w1).
  - reflexivity.
  - discriminate.
  - discriminate.
Defined.

(** X4.  The first retry is not delayed: after a first attempt (trial 0)
    whose status is not 200, be it 429 or not, the sleep lasts 0 seconds,
    since both delays are multiplied by the trial number. *)
Theorem first_retry_is_immediate (self : RequestHandler.t) (url method : string)
    (hdrs data : option (gmap string string)) (w : World) (response : Response) (w1 : World) :
  RequestHandler.send self url method hdrs data w = (Ok response, w1) ->
  status_code response <> 200 ->
  0 < RequestHandler.max_retries self ->
  RequestHandler.make_request self url method hdrs data 0 w
  = RequestHandler.make_request self url method hdrs data 1 (log_event (EvSleep 0) w1).
Proof.
  intros Hsend Hstatus Hmax.
  unfold RequestHandler.make_request, RequestHandler.enough_fuel.
  rewrite request_S. unfold attempt. rewrite Hsend, handle_response_cases. cbv zeta.
  destruct (Z.eqb_spec (status_code response) 200); [contradiction |].
  destruct (Z.ltb_spec 0 (RequestHandler.max_retries self)); [| lia].
  rewrite !Z.mul_0_r.
  replace (Z.to_nat (RequestHandler.max_retries self - 0))
    with (S (Z.to_nat (RequestHandler.max_retries self - 1))) by lia.
  now destruct (status_code response =? 429).
Qed.

Lemma first_retry_is_immediate_witness :
  let w1 := log_event (EvHttp {| call_verb := GET; call_url := "u";
                                 call_headers := ∅; call_data := None |})
              (fresh [page 429 "slow down"]) in
  RequestHandler.make_request RequestHandler.defaults "u" "GET" None None 0
    (fresh [page 429 "slow down"])
  = RequestHandler.make_request RequestHandler.defaults "u" "GET" None None 1
      (log_event (EvSleep 0) w1).
Proof.
  intros w1.
  apply (first_retry_is_immediate RequestHandler.defaults "u" "GET" None None
           (fresh [page 429 "slow down"]) {| status_code := 429; text := "slow down" |} w1).
  - reflexivity.
  - discriminate.
  - reflexivity.
Defined.

(** ** Runs of the request client *)

Lemma sleeps_app (tr1 tr2 : list event) : sleeps (tr1 ++ tr2) = (sleeps tr1 ++ sleeps tr2)%list.
Proof. unfold sleeps. apply flat_map_app. Qed.

Lemma extend_nil (w : World) : extend [] w = w.
Proof. destruct w. unfold extend. cbn. now rewrite app_nil_r. Qed.

Lemma extend_log (e : event) (evs : list event) (w : World) :
  extend evs (log_event e w) = extend (e :: evs) w.
Proof. unfold extend, log_event. cbn. now rewrite <- app_assoc. Qed.

Section Runs.

Variable self : RequestHandler.t.
Variables url method : string.
Variables hdrs data : option (gmap string string).

Abbreviation max := (RequestHandler.max_retries self).
Abbreviation base := (RequestHandler.base_delay self).
Abbreviation run := (RequestHandler.make_request self url method hdrs data).

(** [make_request] by cases on its first attempt. *)
Lemma make_request_step (t : Z) (w : World) :
  run t w =
    match attempt self url method hdrs data t w with
    | Done r w' => (r, w')
    | Retry w' => run (t + 1) w'
    end.
Proof.
  unfold RequestHandler.make_request, RequestHandler.enough_fuel. rewrite request_S.
  destruct (attempt self url method hdrs data t w) as [r w' | w'] eqn:Hat; [reflexivity |].
  apply attempt_Retry in Hat as [Hlt _]. f_equal. lia.
Qed.

(** Induction over the attempts of a run. *)
Lemma make_request_ind (P : Z -> World -> Res (option Response) * World -> Prop) :
  (forall t w r w', attempt self url method hdrs data t w = Done r w' -> P t w (r, w')) ->
  (forall t w w1, attempt self url method hdrs data t w = Retry w1 ->
                  P (t + 1) w1 (run (t + 1) w1) -> P t w (run (t + 1) w1)) ->
  forall t w, P t w (run t w).
Proof.
  intros Hdone Hretry t w.
  remember (Z.to_nat (max - t)) as n eqn:Hn.
  revert t w Hn. induction n as [| n IH]; intros t w Hn; rewrite make_request_step;
    destruct (attempt self url method hdrs data t w) as [r w' | w'] eqn:Hat; auto.
  - apply attempt_Retry in Hat as [Hlt _]. lia.
  - apply Hretry; [exact Hat |]. apply IH. apply attempt_Retry in Hat as [Hlt _]. lia.
Qed.

(** The attempt for a method that [make_request] supports. *)
Lemma attempt_cases (call : HttpCall) (t : Z) (w : World) :
  request_of self url method hdrs data = Some call ->
  let w1 := log_event (EvHttp call) w in
  attempt self url method hdrs data t w =
    match net w (http_count (trace w)) call with
    | Answer r =>
        let delay := if status_code r =? 429 then RequestHandler.rate_limit_delay self * t
                     else base * t in
        if status_code r =? 200 then Done (Ok (Some r)) w1
        else if t <? max then
          if delay <? 0 then Done (Raise (ValueError "sleep length must be non-negative")) w1
          else Retry (log_event (EvSleep delay) w1)
        else Done (Ok None) w1
    | Fault _ =>
        if t <? max then
          if base * t <? 0
          then Done (Raise (ValueError "sleep length must be non-negative")) w1
          else Retry (log_event (EvSleep (base * t)) w1)
        else Done (Ok None) w1
    end.
Proof.
  intros Hcall w1.
  assert (Hsend : RequestHandler.send self url method hdrs data w = session_request call w).
  { unfold RequestHandler.send, request_of, merged_headers in *.
    destruct (String.eqb (upper method) "GET"); [now injection Hcall as <- |].
    destruct (String.eqb (upper method) "POST"); [now injection Hcall as <- | discriminate]. }
  unfold attempt. rewrite Hsend. unfold session_request. fold w1.
  destruct (net w (http_count (trace w)) call) as [r | m].
  - rewrite handle_response_cases. cbv zeta.
    destruct (status_code r =? 200); [reflexivity |].
    destruct (t <? max); [| reflexivity].
    match goal with |- context [?d <? 0] => destruct (d <? 0) end; reflexivity.
  - destruct (t <? max); [| reflexivity].
    unfold time_sleep. destruct (base * t <? 0); reflexivity.
Qed.

Lemma attempt_unsupported (t : Z) (w : World) :
  request_of self url method hdrs data = None ->
  attempt self url method hdrs data t w
  = Done (Raise (ValueError ("Unsupported HTTP method: " ++ method))) w.
Proof.
  intros Hcall. unfold attempt, RequestHandler.send, request_of in *.
  destruct (String.eqb (upper method) "GET"); [discriminate |].
  destruct (String.eqb (upper method) "POST"); [discriminate | reflexivity].
Qed.

(** A retry, for a supported method: one call, then one sleep whose
    length is decided by what the call met. *)
Lemma attempt_Retry_form (call : HttpCall) (t : Z) (w w1 : World) :
  request_of self url method hdrs data = Some call ->
  attempt self url method hdrs data t w = Retry w1 ->
  t < max /\
  exists d, 0 <= d /\ w1 = log_event (EvSleep d) (log_event (EvHttp call) w) /\
    match net w (http_count (trace w)) call with
    | Answer r =>
        status_code r <> 200 /\
        d = if status_code r =? 429 then RequestHandler.rate_limit_delay self * t
            else base * t
    | Fault _ => d = base * t
    end.
Proof.
  intros Hcall Hat. rewrite (attempt_cases call t w Hcall) in Hat. cbv zeta in Hat.
  destruct (net w (http_count (trace w)) call) as [r | m].
  - destruct (Z.eqb_spec (status_code r) 200); [discriminate |].
    destruct (Z.ltb_spec t max); [| discriminate].
    match type of Hat with context [?d <? 0] => destruct (Z.ltb_spec d 0) end;
      [discriminate |].
    injection Hat as <-. split; [assumption |]. eexists. repeat split; eauto.
  - destruct (Z.ltb_spec t max); [| discriminate].
    destruct (Z.ltb_spec (base * t) 0); [discriminate |].
    injection Hat as <-. split; [assumption |]. eexists. repeat split; eauto.
Qed.

(** The end of a run, for a supported method: after the call, either the
    200 response, or [None] with the budget used up, or the [ValueError]
    of a negative sleep. *)
Lemma attempt_Done_form (call : HttpCall) (t : Z) (w : World)
    (r : Res (option Response)) (w' : World) :
  request_of self url method hdrs data = Some call ->
  attempt self url method hdrs data t w = Done r w' ->
  w' = log_event (EvHttp call) w /\
  ((exists response, r = Ok (Some response) /\ status_code response = 200
                     /\ net w (http_count (trace w)) call = Answer response)
   \/ (r = Ok None /\ max <= t
       /\ match net w (http_count (trace w)) call with
          | Answer response => status_code response <> 200
          | Fault _ => True
          end)
   \/ (exists m d, r = Raise (ValueError m) /\ d < 0 /\ t < max
         /\ d = match net w (http_count (trace w)) call with
                | Answer response =>
                    if status_code response =? 429
                    then RequestHandler.rate_limit_delay self * t else base * t
                | Fault _ => base * t
                end)).
Proof.
  intros Hcall Hat. rewrite (attempt_cases call t w Hcall) in Hat. cbv zeta in Hat.
  destruct (net w (http_count (trace w)) call) as [response | m].
  - destruct (Z.eqb_spec (status_code response) 200).
    { injection Hat as <- <-. split; [reflexivity |]. left. eauto. }
    destruct (Z.ltb_spec t max).
    + match type of Hat with context [?d <? 0] => destruct (Z.ltb_spec d 0) end;
        [| discriminate].
      injection Hat as <- <-. split; [reflexivity |]. right; right.
      do 2 eexists. split; [reflexivity |]. split; [eassumption |]. split; [assumption |].
      reflexivity.
    + injection Hat as <- <-. split; [reflexivity |]. right; left. auto.
  - destruct (Z.ltb_spec t max).
    + destruct (Z.ltb_spec (base * t) 0); [| discriminate].
      injection Hat as <- <-. split; [reflexivity |]. right; right.
      do 2 eexists. split; [reflexivity |]. eauto.
    + injection Hat as <- <-. split; [reflexivity |]. right; left. auto.
Qed.

End Runs.

Lemma failing_run_sleeps (c : HttpCall) (b : Z) (n : nat) : forall t,
  sleeps (failing_run c b t n) = map (fun k => b * (t + Z.of_nat k)) (seq 0 n)
  /\ http_count (failing_run c b t n) = S n.
Proof.
  induction n as [| n IH]; intros t; [split; reflexivity |].
  destruct (IH (t + 1)) as [Hs Hc].
  cbn [failing_run]. split.
  - change (sleeps (EvHttp c :: EvSleep (b * t) :: failing_run c b (t + 1) n))
      with (b * t :: sleeps (failing_run c b (t + 1) n)).
    rewrite Hs. cbn [seq map]. f_equal; [f_equal; lia |].
    rewrite <- seq_shift, map_map. apply map_ext. intros k. f_equal. lia.
  - change (http_count (EvHttp c :: EvSleep (b * t) :: failing_run c b (t + 1) n))
      with (S (http_count (failing_run c b (t + 1) n))).
    now rewrite Hc.
Qed.

(** X5.  On a network that never answers with status 200, a request
    for a supported method, with non-negative delays and settings within
    the limits of the interpreter, started at trial [t] between 0 and
    [max_retries], returns [None] after exactly [max_retries - t + 1]
    calls and [max_retries - t] sleeps. *)
Theorem make_request_uses_whole_budget (self : RequestHandler.t) (url method : string)
    (hdrs data : option (gmap string string)) (call : HttpCall) (t : Z) (w : World) :
  within_limits self ->
  request_of self url method hdrs data = Some call ->
  never_200 w ->
  0 <= t <= RequestHandler.max_retries self ->
  0 <= RequestHandler.base_delay self ->
  0 <= RequestHandler.rate_limit_delay self ->
  exists w',
    RequestHandler.make_request self url method hdrs data t w = (Ok None, w')
    /\ http_count (trace w')
       = (http_count (trace w) + S (Z.to_nat (RequestHandler.max_retries self - t)))%nat
    /\ length (sleeps (trace w'))
       = (length (sleeps (trace w)) + Z.to_nat (RequestHandler.max_retries self - t))%nat.
Proof.
  intros Hlimits Hcall Hnever Ht Hbase Hrate. revert Hnever Ht.
  pattern t, w, (RequestHandler.make_request self url method hdrs data t w).
  apply make_request_ind; clear t w.
  - intros t w r w' Hat Hnever Ht.
    apply (attempt_Done_form _ _ _ _ _ call) in Hat as [-> Hr]; [| exact Hcall].
    specialize (Hnever (http_count (trace w)) call).
    destruct Hr as [(response & -> & H200 & Hnet) | [(-> & Hmax & _) | (m & d & -> & Hd & Hlt & Hor)]].
    + rewrite Hnet in Hnever. contradiction.
    + eexists. split; [reflexivity |]. rewrite http_count_log_http.
      replace (Z.to_nat (RequestHandler.max_retries self - t)) with 0%nat by lia.
      cbn [trace log_event]. rewrite sleeps_app, length_app. cbn. lia.
    + subst d. destruct (net w (http_count (trace w)) call) as [response |];
        [destruct (status_code response =? 429) |]; nia.
  - intros t w w1 Hat IH Hnever Ht.
    apply (attempt_Retry_form _ _ _ _ _ call) in Hat as (Hlt & d & Hd & -> & _); [| exact Hcall].
    destruct IH as (w' & -> & Hcount & Hsleeps); [exact Hnever | lia |].
    exists w'. split; [reflexivity |].
    rewrite Hcount, Hsleeps, http_count_log_sleep, http_count_log_http.
    cbn [trace log_event]. rewrite !sleeps_app, !length_app. cbn. lia.
Qed.

Lemma make_request_uses_whole_budget_witness :
  exists w',
    RequestHandler.make_request RequestHandler.defaults "u" "GET" None None 0
      (fresh [page 404 "Not Found"; page 429 "slow down"])
    = (Ok None, w')
    /\ http_count (trace w') = 6%nat
    /\ length (sleeps (trace w')) = 5%nat.
Proof.
  apply (make_request_uses_whole_budget RequestHandler.defaults "u" "GET" None None
           {| call_verb := GET; call_url := "u"; call_headers := ∅; call_data := None |}
           0 (fresh [page 404 "Not Found"; page 429 "slow down"])).
  - repeat split; vm_compute; discriminate.
  - reflexivity.
  - intros [| [| n]] c; cbn; try discriminate. destruct n; exact I.
  - split; discriminate.
  - discriminate.
  - discriminate.
Defined.

Lemma dead_network_run (self : RequestHandler.t) (url method : string)
    (hdrs data : option (gmap string string)) (call : HttpCall) (t : Z) (w : World) :
  request_of self url method hdrs data = Some call ->
  down w ->
  0 <= t <= RequestHandler.max_retries self ->
  0 <= RequestHandler.base_delay self ->
  RequestHandler.make_request self url method hdrs data t w
  = (Ok None,
     extend (failing_run call (RequestHandler.base_delay self) t
               (Z.to_nat (RequestHandler.max_retries self - t))) w).
Proof.
  intros Hcall Hdown Ht Hbase. revert Hdown Ht.
  pattern t, w, (RequestHandler.make_request self url method hdrs data t w).
  apply make_request_ind; clear t w.
  - intros t w r w' Hat Hdown Ht.
    apply (attempt_Done_form _ _ _ _ _ call) in Hat as [-> Hr]; [| exact Hcall].
    destruct (Hdown (http_count (trace w)) call) as [m Hnet].
    destruct Hr as [(response & -> & H200 & Hnet') | [(-> & Hmax & _) | (m' & d & -> & Hd & Hlt & Hor)]].
    + congruence.
    + replace (Z.to_nat (RequestHandler.max_retries self - t)) with 0%nat by lia.
      reflexivity.
    + rewrite Hnet in Hor. nia.
  - intros t w w1 Hat IH Hdown Ht.
    apply (attempt_Retry_form _ _ _ _ _ call) in Hat as (Hlt & d & Hd & -> & Hnet);
      [| exact Hcall].
    destruct (Hdown (http_count (trace w)) call) as [m Hm]. rewrite Hm in Hnet. subst d.
    rewrite IH; [| exact Hdown | lia].
    replace (Z.to_nat (RequestHandler.max_retries self - t))
      with (S (Z.to_nat (RequestHandler.max_retries self - (t + 1)))) by lia.
    cbn [failing_run]. now rewrite !extend_log.
Qed.

(** X6.  On a network where every call fails, and with non-negative
    settings within the limits of the interpreter, [get] returns [None]
    after [max_retries + 1] calls of the same GET request, separated by
    sleeps of [0, base_delay, 2 * base_delay, ...] seconds; nothing else
    happens. *)
Theorem get_on_dead_network (self : RequestHandler.t) (url : string)
    (hdrs : option (gmap string string)) (w : World) :
  within_limits self ->
  down w ->
  0 <= RequestHandler.max_retries self ->
  0 <= RequestHandler.base_delay self ->
  let call := {| call_verb := GET; call_url := url;
                 call_headers := merged_headers self hdrs; call_data := None |} in
  let n := Z.to_nat (RequestHandler.max_retries self) in
  let events := failing_run call (RequestHandler.base_delay self) 0 n in
  RequestHandler.get self url hdrs w = (Ok None, extend events w)
  /\ http_count events = S n
  /\ sleeps events = map (fun k => RequestHandler.base_delay self * Z.of_nat k) (seq 0 n).
Proof.
  intros Hlimits Hdown Hmax Hbase call n events.
  split; [| split].
  - unfold RequestHandler.get.
    rewrite (dead_network_run self url "GET" hdrs None call 0 w eq_refl Hdown) by lia.
    unfold events, n. now rewrite Z.sub_0_r.
  - apply failing_run_sleeps.
  - unfold events. now rewrite (proj1 (failing_run_sleeps call _ n 0)).
Qed.

Lemma get_on_dead_network_witness :
  let call := {| call_verb := GET; call_url := "u"; call_headers := ∅; call_data := None |} in
  RequestHandler.get RequestHandler.defaults "u" None (fresh [])
  = (Ok None, extend (failing_run call 5 0 5) (fresh []))
  /\ http_count (failing_run call 5 0 5) = 6%nat
  /\ sleeps (failing_run call 5 0 5) = [0; 5; 10; 15; 20].
Proof.
  apply (get_on_dead_network RequestHandler.defaults "u" None (fresh [])).
  - repeat split; vm_compute; discriminate.
  - intros n c. exists "connection refused". destruct n; reflexivity.
  - discriminate.
  - discriminate.
Defined.

(** X7.  Whatever the network does, a request whose settings are within
    the limits of the interpreter, at a trial that is not negative,
    either returns or raises [ValueError] (an unsupported method, or a
    negative delay handed to [time.sleep]); a request error never leaves
    [make_request]. *)
Theorem make_request_raises_only_ValueError (self : RequestHandler.t) (url method : string)
    (hdrs data : option (gmap string string)) (t : Z) (w : World) :
  within_limits self ->
  0 <= t ->
  only_ValueError (fst (RequestHandler.make_request self url method hdrs data t w)).
Proof.
  intros Hlimits Ht. clear Ht.
  pattern t, w, (RequestHandler.make_request self url method hdrs data t w).
  apply make_request_ind; clear t w; [| auto].
  intros t w r w' Hat. cbn [fst].
  destruct (request_of self url method hdrs data) as [call |] eqn:Hcall.
  - destruct (attempt_Done_form self url method hdrs data call t w r w' Hcall Hat)
      as [_ [(response & -> & _) | [(-> & _) | (m & d & -> & _)]]]; exact I.
  - rewrite (attempt_unsupported self url method hdrs data t w Hcall) in Hat.
    now injection Hat as <- <-.
Qed.

Lemma make_request_raises_only_ValueError_witness :
  only_ValueError
    (fst (RequestHandler.make_request
            {| RequestHandler.max_retries := 5; RequestHandler.base_delay := -1;
               RequestHandler.rate_limit_delay := 15; RequestHandler.headers := ∅ |}
            "u" "GET" None None 0 (fresh []))).
Proof.
  apply (make_request_raises_only_ValueError
           {| RequestHandler.max_retries := 5; RequestHandler.base_delay := -1;
              RequestHandler.rate_limit_delay := 15; RequestHandler.headers := ∅ |}
           "u" "GET" None None 0 (fresh [])).
  - repeat split; vm_compute; discriminate.
  - discriminate.
Defined.

(** With a negative base delay the second failure of the network ends
    the request: [time.sleep] refuses the delay. *)
Example negative_delay_raises :
  fst (RequestHandler.make_request
         {| RequestHandler.max_retries := 5; RequestHandler.base_delay := -1;
            RequestHandler.rate_limit_delay := 15; RequestHandler.headers := ∅ |}
         "u" "GET" None None 0 (fresh []))
  = Raise (ValueError "sleep length must be non-negative").
Proof. vm_compute. reflexivity. Qed.

(** X8.  With non-negative delays within the limits of the interpreter
    and a supported method, [make_request] does not raise; it only
    appends events to the trace, each of them the same call or a sleep of
    non-negative length; the disk is untouched, and a response that is
    returned has status 200. *)
Theorem make_request_returns (self : RequestHandler.t) (url method : string)
    (hdrs data : option (gmap string string)) (call : HttpCall) (t : Z) (w : World) :
  within_limits self ->
  request_of self url method hdrs data = Some call ->
  0 <= RequestHandler.base_delay self ->
  0 <= RequestHandler.rate_limit_delay self ->
  0 <= t ->
  exists (response : option Response) (evs : list event),
    RequestHandler.make_request self url method hdrs data t w = (Ok response, extend evs w)
    /\ Forall (fun e => e = EvHttp call \/ exists d, e = EvSleep d /\ 0 <= d) evs
    /\ match response with
       | Some r => status_code r = 200
       | None => True
       end.
Proof.
  intros Hlimits Hcall Hbase Hrate.
  pattern t, w, (RequestHandler.make_request self url method hdrs data t w).
  apply make_request_ind; clear t w.
  - intros t w r w' Hat Ht.
    apply (attempt_Done_form _ _ _ _ _ call) in Hat as [-> Hr]; [| exact Hcall].
    destruct Hr as [(response & -> & H200 & _) | [(-> & _) | (m & d & -> & Hd & Hlt & Hor)]].
    + exists (Some response), [EvHttp call]. repeat split; auto.
    + exists None, [EvHttp call]. repeat split; auto.
    + subst d. destruct (net w (http_count (trace w)) call) as [response |];
        [destruct (status_code response =? 429) |]; nia.
  - intros t w w1 Hat IH Ht.
    apply (attempt_Retry_form _ _ _ _ _ call) in Hat as (Hlt & d & Hd & -> & _);
      [| exact Hcall].
    destruct IH as (response & evs & -> & Hevs & Hresp); [lia |].
    exists response, (EvHttp call :: EvSleep d :: evs).
    rewrite !extend_log. repeat split; [| exact Hresp].
    constructor; [now left |]. constructor; [right; eauto | exact Hevs].
Qed.

Lemma make_request_returns_witness :
  exists (response : option Response) (evs : list event),
    RequestHandler.make_request RequestHandler.defaults "u" "post" None None 0
      (fresh [page 500 "try later"; page 200 "ok"])
    = (Ok response, extend evs (fresh [page 500 "try later"; page 200 "ok"]))
    /\ Forall (fun e => e = EvHttp {| call_verb := POST; call_url := "u";
                                      call_headers := ∅; call_data := None |}
                        \/ exists d, e = EvSleep d /\ 0 <= d) evs
    /\ match response with
       | Some r => status_code r = 200
       | None => True
       end.
Proof.
  apply (make_request_returns RequestHandler.defaults "u" "post" None None
           {| call_verb := POST; call_url := "u"; call_headers := ∅; call_data := None |}
           0 (fresh [page 500 "try later"; page 200 "ok"])).
  - repeat split; vm_compute; discriminate.
  - reflexivity.
  - discriminate.
  - discriminate.
  - discriminate.
Defined.

(** ** Reading the search page *)

Lemma flush_nonempty (c : N) (s : list N) : flush (c :: s) = [c :: s].
Proof. reflexivity. Qed.

Lemma findall_digits_run (digits : list N) : forall cur rest,
  all_digits digits ->
  findall_digits cur (digits ++ rest) = findall_digits (cur ++ digits) rest.
Proof.
  induction digits as [| c digits IH]; intros cur rest Hd.
  - now rewrite app_nil_l, app_nil_r.
  - cbn [app findall_digits]. rewrite (Hd c) by (simpl; auto).
    rewrite IH by (intros c' Hc'; apply Hd; simpl; auto).
    now rewrite <- app_assoc.
Qed.

Lemma findall_digits_flush (s : list N) : forall cur,
  no_digit s -> findall_digits cur s = flush cur.
Proof.
  induction s as [| c s IH]; intros cur Hs; [reflexivity |].
  cbn [findall_digits]. rewrite (Hs c) by (simpl; auto).
  rewrite IH by (intros c' Hc'; apply Hs; simpl; auto).
  cbn. apply app_nil_r.
Qed.

Lemma findall_digits_split (a : list N) : forall cur c rest,
  is_digit c = false ->
  findall_digits cur (a ++ c :: rest)
  = (findall_digits cur (a ++ [c]) ++ findall_digits [] rest)%list.
Proof.
  induction a as [| x a IH]; intros cur c rest Hc.
  - cbn [app findall_digits]. rewrite Hc. cbn. now rewrite app_nil_r.
  - cbn [app findall_digits]. destruct (is_digit x).
    + now apply IH.
    + rewrite (IH [] c rest Hc). now rewrite app_assoc.
Qed.

(** A decimal digit has a value between 0 and 9. *)
Lemma is_digit_value (c : N) :
  is_digit c = true -> 0 <= default 0 (decimal c) <= 9.
Proof.
  unfold is_digit, decimal.
  destruct (List.find _ decimal_zeros) as [zero |] eqn:Hfind; [| discriminate].
  intros _. apply List.find_some in Hfind as [_ Hzero].
  apply andb_prop in Hzero as [H1 H2]. apply N.leb_le in H1. apply N.ltb_lt in H2.
  cbn. lia.
Qed.

Lemma int_of_digits_nonneg (s : list N) : forall acc,
  all_digits s -> 0 <= acc -> 0 <= int_of_digits acc s.
Proof.
  induction s as [| c s IH]; intros acc Hs Hacc; [exact Hacc |].
  cbn [int_of_digits]. apply IH.
  - intros c' Hc'. apply Hs. simpl. auto.
  - pose proof (is_digit_value c (Hs c (or_introl eq_refl))). lia.
Qed.

Lemma all_digits_snoc (cur : list N) (c : N) :
  all_digits cur -> is_digit c = true -> all_digits (cur ++ [c]).
Proof.
  intros Hcur Hc c' Hc'.
  apply in_app_or in Hc' as [Hc' | [<- | []]]; [now apply Hcur | exact Hc].
Qed.

Lemma findall_digits_all_digits (s : list N) : forall cur,
  all_digits cur -> Forall all_digits (findall_digits cur s).
Proof.
  assert (Hflush : forall cur, all_digits cur -> Forall all_digits (flush cur)).
  { intros cur Hcur. unfold flush. destruct cur; auto. }
  induction s as [| c s IH]; intros cur Hcur; [now apply Hflush |].
  cbn [findall_digits]. destruct (is_digit c) eqn:Hc.
  - apply IH. now apply all_digits_snoc.
  - apply Forall_app. split; [now apply Hflush |]. apply IH. intros c' [].
Qed.

(** The counts read from the labels are never negative. *)
Lemma extract_count_nonneg (elem : option string) (count : Z) :
  JobListScraper.extract_count elem = Ok count -> 0 <= count.
Proof.
  destruct elem as [text |]; [| now intros [= <-]]. unfold JobListScraper.extract_count.
  cbv zeta.
  destruct (last (findall_digits [] (code_points text))) as [n |] eqn:Hlast;
    [| now intros [= <-]].
  unfold int_of_str. cbv zeta.
  destruct (int_max_str_digits <? Z.of_nat (length n)); [discriminate |].
  intros [= <-]. apply int_of_digits_nonneg; [| reflexivity].
  pose proof (findall_digits_all_digits (code_points text) []
                (fun c (H : In c []) => match H with end)) as Hall.
  rewrite List.Forall_forall in Hall. apply Hall.
  apply last_Some in Hlast as [l' ->]. apply in_or_app. right. left. reflexivity.
Qed.

(** X9.  [extract_count] reads the last run of decimal digits of the
    label text.  For a text whose characters are [before], then the
    digits [digits], then characters [after] without a digit, it is
    [int] of [digits]: the digits before a thousands separator are
    lost; a run of at most 4300 digits gives its decimal value, which is
    not negative, and a longer one makes [int] raise [ValueError]. *)
Theorem extract_count_last_number (text : string) (before digits after : list N) :
  code_points text = (before ++ digits ++ after)%list ->
  (before = [] \/ exists a c, before = (a ++ [c])%list /\ is_digit c = false) ->
  digits <> [] ->
  all_digits digits ->
  no_digit after ->
  JobListScraper.extract_count (Some text) = int_of_str digits
  /\ (Z.of_nat (length digits) <= int_max_str_digits ->
        JobListScraper.extract_count (Some text) = Ok (int_of_digits 0 digits))
  /\ (int_max_str_digits < Z.of_nat (length digits) ->
        exists msg, JobListScraper.extract_count (Some text) = Raise (ValueError msg))
  /\ 0 <= int_of_digits 0 digits.
Proof.
  intros Htext Hbefore Hne Hdigits Hafter.
  assert (Htail : findall_digits [] (digits ++ after) = [digits]).
  { rewrite findall_digits_run by exact Hdigits. rewrite app_nil_l.
    rewrite findall_digits_flush by exact Hafter.
    destruct digits; [contradiction | reflexivity]. }
  assert (Hcount : JobListScraper.extract_count (Some text) = int_of_str digits).
  { unfold JobListScraper.extract_count. cbv zeta. rewrite Htext.
    destruct Hbefore as [-> | (a & c & -> & Hc)].
    - rewrite app_nil_l. now rewrite Htail.
    - rewrite <- app_assoc. cbn [app].
      rewrite findall_digits_split by exact Hc. rewrite Htail.
      now rewrite last_snoc. }
  rewrite Hcount. unfold int_of_str. cbv zeta.
  split; [reflexivity |]. split; [| split].
  - intros Hshort.
    now destruct (Z.ltb_spec int_max_str_digits (Z.of_nat (length digits))); [lia |].
  - intros Hlong.
    destruct (Z.ltb_spec int_max_str_digits (Z.of_nat (length digits))); [eauto | lia].
  - now apply int_of_digits_nonneg.
Qed.

Lemma extract_count_last_number_witness :
  JobListScraper.extract_count (Some "Past 24 hours (1,234)") = int_of_str [50; 51; 52]%N
  /\ (Z.of_nat (length [50; 51; 52]%N) <= int_max_str_digits ->
        JobListScraper.extract_count (Some "Past 24 hours (1,234)")
        = Ok (int_of_digits 0 [50; 51; 52]%N))
  /\ (int_max_str_digits < Z.of_nat (length [50; 51; 52]%N) ->
        exists msg,
          JobListScraper.extract_count (Some "Past 24 hours (1,234)")
          = Raise (ValueError msg))
  /\ 0 <= int_of_digits 0 [50; 51; 52]%N.
Proof.
  apply (extract_count_last_number "Past 24 hours (1,234)"
           (code_points "Past 24 hours (1,") [50; 51; 52]%N (code_points ")")).
  - reflexivity.
  - right. exists (code_points "Past 24 hours (1"), 44%N. split; reflexivity.
  - discriminate.
  - intros c [<- | [<- | [<- | []]]]; reflexivity.
  - intros c [<- | []]. reflexivity.
Defined.

(** The value read from that label. *)
Example extract_count_thousands :
  JobListScraper.extract_count (Some "Past 24 hours (1,234)") = Ok 234.
Proof. reflexivity. Qed.

(** X10.  [get_total_jobs] returns either the sentinel of four [None] or
    four counts that are all present and non-negative; no other shape
    occurs. *)
Theorem get_total_jobs_counts `{Soup} (self : JobListScraper.t) (job_title location : string)
    (w : World) (counts : list (option Z)) (w' : World) :
  JobListScraper.get_total_jobs self job_title location w = (Ok counts, w') ->
  counts = JobListScraper.all_None
  \/ exists a b c d, counts = [Some a; Some b; Some c; Some d]
                     /\ 0 <= a /\ 0 <= b /\ 0 <= c /\ 0 <= d.
Proof.
  rewrite get_total_jobs_run.
  destruct (RequestHandler.get _ _ _ w) as [[[response |] | e] w1]; [| | discriminate].
  - unfold JobListScraper._parse_total_jobs. cbv zeta.
    unfold mbind, Res_bind, mret, Res_ret.
    destruct (JobListScraper.extract_count (label_text (text response) "f_TPR-0"))
      as [a |] eqn:Ha; [| discriminate].
    destruct (JobListScraper.extract_count (label_text (text response) "f_TPR-1"))
      as [b |] eqn:Hb; [| discriminate].
    destruct (JobListScraper.extract_count (label_text (text response) "f_TPR-2"))
      as [c |] eqn:Hc; [| discriminate].
    destruct (JobListScraper.extract_count (label_text (text response) "f_TPR-3"))
      as [d |] eqn:Hd; [| discriminate].
    intros [= <- <-]. right. exists a, b, c, d. split; [reflexivity |].
    repeat split; eapply extract_count_nonneg; eassumption.
  - intros [= <- <-]. left. reflexivity.
Qed.

Lemma get_total_jobs_counts_witness :
  [Some 75; Some 0; Some 0; Some 0] = JobListScraper.all_None
  \/ exists a b c d, [Some 75; Some 0; Some 0; Some 0] = [Some a; Some b; Some c; Some d]
                     /\ 0 <= a /\ 0 <= b /\ 0 <= c /\ 0 <= d.
Proof.
  eapply (@get_total_jobs_counts plain_soup a_list_scraper "Software Engineer" "Ottawa"
            (fresh [page 200 "Any time (75)"])).
  vm_compute. reflexivity.
Defined.

Lemma titles_imap (cards : list CardInfo) : forall (f : nat -> CardInfo -> JobPosting.t),
  (forall i card, JobPosting.title (f i card) = card_title card) ->
  map JobPosting.title (imap f cards) = map card_title cards.
Proof.
  induction cards as [| card cards IH]; intros f Hf; [reflexivity |].
  rewrite imap_cons. cbn. rewrite Hf. f_equal. apply IH. intros i c. apply Hf.
Qed.

Lemma forallb_through_map {A B} (g : A -> B) (f : B -> bool) (l : list A) :
  forallb (fun x => f (g x)) l = forallb f (map g l).
Proof. induction l as [| x l IH]; [reflexivity |]. cbn. now rewrite IH. Qed.

(** X11.  [_parse_jobs] never returns an empty frame: it has one row per
    job card, with the titles of the cards in page order, and one row of
    [None] when the page has no card; the frame counts as 'no more jobs'
    exactly when every card lacks its title. *)
Theorem _parse_jobs_rows `{Soup} (response_text : string) :
  let cards := search_card_infos response_text in
  let rows := JobListScraper._parse_jobs response_text in
  length rows = Nat.max 1 (length cards)
  /\ map JobPosting.title rows
     = match cards with [] => [None] | _ => map card_title cards end
  /\ LinkedInScraper.no_more_jobs rows
     = forallb (fun card => JobPosting.is_None (card_title card)) cards.
Proof.
  cbv zeta. unfold JobListScraper._parse_jobs.
  destruct (search_card_infos response_text) as [| card cards] eqn:Hcards.
  - repeat split.
  - set (rows := imap _ (card :: cards)).
    assert (Htitles : map JobPosting.title rows = map card_title (card :: cards))
      by (apply titles_imap; reflexivity).
    split; [| split].
    + unfold rows. rewrite length_imap. cbn. lia.
    + exact Htitles.
    + unfold LinkedInScraper.no_more_jobs.
      rewrite bool_decide_eq_false_2 by (unfold rows; rewrite imap_cons; discriminate).
      cbn [orb].
      rewrite (forallb_through_map JobPosting.title JobPosting.is_None rows).
      rewrite Htitles. now rewrite <- forallb_through_map.
Qed.

(** ** The listing pass *)

Section Listing.

Context `{Soup}.

Variable self : LinkedInScraper.t.
Variables job_title location : string.

Abbreviation scraper := (LinkedInScraper.job_list_scraper self).
Abbreviation client := (JobListScraper.request_handler scraper).
Abbreviation count_fetch := (JobListScraper.get_total_jobs scraper job_title location).
Abbreviation page_fetch := (JobListScraper.get_job_list scraper job_title location).
Abbreviation page_request position :=
  (RequestHandler.get client (JobListScraper._build_search_url job_title location position)
     (Some (JobListScraper.headers scraper))).

Lemma range_empty (stop : Z) : stop <= 60 -> range 60 stop 10 = [].
Proof.
  intros Hstop. unfold range.
  replace (Z.to_nat ((stop - 60 + 10 - 1) / 10)) with 0%nat; [reflexivity |].
  assert ((stop - 60 + 10 - 1) / 10 < 1); [| lia].
  apply Z.div_lt_upper_bound; lia.
Qed.

(** Pagination only appends. *)
Lemma paginate_prefix (positions : list Z) : forall (jobs_df : list JobPosting.t) (w : World)
    (out : list JobPosting.t) (w' : World),
  LinkedInScraper.paginate self job_title location positions jobs_df w = (Ok out, w') ->
  exists new, out = (jobs_df ++ new)%list.
Proof.
  induction positions as [| position rest IH]; intros jobs_df w out w'.
  - intros [= <- <-]. exists []. now rewrite app_nil_r.
  - cbn [LinkedInScraper.paginate]. unfold mbind, M_bind.
    destruct (page_fetch position w) as [[new_jobs | e] w1]; [| discriminate].
    destruct (LinkedInScraper.no_more_jobs new_jobs).
    + intros [= <- <-]. exists []. now rewrite app_nil_r.
    + intros Hrest. apply IH in Hrest as [new ->].
      exists (new_jobs ++ new)%list. now rewrite app_assoc.
Qed.

(** X12.  A page whose request gives up is reported by [get_job_list] as
    one record of [None] fields, which [is_empty] accepts; in the
    pagination loop of [scrape_all_jobs] it ends the loop, the pages after
    it are not requested and the jobs gathered so far are kept. *)
Theorem failed_page_ends_pagination (position : Z) (rest : list Z)
    (jobs_df : list JobPosting.t) (w w' : World) :
  page_request position w = (Ok None, w') ->
  page_fetch position w = (Ok [JobPosting.sentinel], w')
  /\ JobPosting.is_empty JobPosting.sentinel = true
  /\ LinkedInScraper.paginate self job_title location (position :: rest) jobs_df w
     = (Ok jobs_df, w').
Proof.
  intros Hget.
  assert (Hpage : page_fetch position w = (Ok [JobPosting.sentinel], w')).
  { unfold JobListScraper.get_job_list, mbind, M_bind. now rewrite Hget. }
  split; [exact Hpage |]. split; [reflexivity |].
  cbn [LinkedInScraper.paginate]. unfold mbind, M_bind. now rewrite Hpage.
Qed.

(** X13.  When the request for the counts gives up, [scrape_all_jobs]
    returns [(None, None)] at once: no page is requested and no file or
    directory is created. *)
Theorem scrape_all_jobs_without_count (limit : Z) (w w' : World) :
  page_request 0 w = (Ok None, w') ->
  LinkedInScraper.scrape_all_jobs self job_title location limit w = (Ok (None, None), w')
  /\ files w' = files w
  /\ dirs w' = dirs w.
Proof.
  intros Hget. split.
  - unfold LinkedInScraper.scrape_all_jobs, JobListScraper.get_total_jobs, mbind, M_bind.
    now rewrite Hget.
  - pose proof (get_disk client (JobListScraper._build_search_url job_title location 0)
                  (Some (JobListScraper.headers scraper)) w) as Hdisk.
    rewrite Hget in Hdisk. exact Hdisk.
Qed.

(** X14.  When the number of jobs to fetch is at most 60,
    [scrape_all_jobs] requests the first page only and saves exactly its
    rows under the file of the search. *)
Theorem scrape_all_jobs_single_page (limit : Z) (w : World) (total : Z)
    (others : list (option Z)) (w1 : World) (first : list JobPosting.t) (w2 : World) :
  count_fetch w = (Ok (Some total :: others), w1) ->
  page_fetch 0 w1 = (Ok first, w2) ->
  LinkedInScraper.actual_limit total limit <= 60 ->
  exists w3,
    LinkedInScraper.scrape_all_jobs self job_title location limit w
    = (Ok (Some first, Some (LinkedInScraper.jobs_file self job_title location)), w3)
    /\ trace w3 = trace w2
    /\ files w3 !! LinkedInScraper.jobs_file self job_title location = Some (JobsCsv first).
Proof.
  intros Hcount Hfirst Hlimit.
  rewrite (scrape_all_jobs_unfold self job_title location limit w total others w1 first w2
             Hcount Hfirst).
  rewrite range_empty by exact Hlimit.
  unfold mbind, M_bind at 1. cbn [LinkedInScraper.paginate mret M_ret].
  apply save_jobs_spec.
Qed.

Lemma scrape_all_jobs_frame (limit : Z) (w : World) (total : Z)
    (others : list (option Z)) (w1 : World)
    (result : option (list JobPosting.t) * option string) (w' : World) :
  count_fetch w = (Ok (Some total :: others), w1) ->
  LinkedInScraper.scrape_all_jobs self job_title location limit w = (Ok result, w') ->
  exists (first new : list JobPosting.t) (w2 : World),
    page_fetch 0 w1 = (Ok first, w2)
    /\ first <> []
    /\ result = (Some (first ++ new)%list,
                 Some (LinkedInScraper.jobs_file self job_title location))
    /\ files w' !! LinkedInScraper.jobs_file self job_title location
       = Some (JobsCsv (first ++ new)).
Proof.
  intros Hcount Hrun.
  destruct (page_fetch 0 w1) as [[first | e] w2] eqn:Hfirst.
  - rewrite (scrape_all_jobs_unfold self job_title location limit w total others w1 first w2
               Hcount Hfirst) in Hrun.
    unfold mbind, M_bind at 1 in Hrun.
    destruct (LinkedInScraper.paginate _ _ _ _ first w2) as [[jobs_df | e] w3] eqn:Hpages;
      [| discriminate].
    apply paginate_prefix in Hpages as [new ->].
    destruct (save_jobs_spec self job_title location (first ++ new) w3)
      as (w4 & Hsave & _ & Hfile).
    rewrite Hsave in Hrun. injection Hrun as <- <-.
    exists first, new, w2. repeat split; [| exact Hfile].
    eapply get_job_list_nonempty; eauto.
  - exfalso. unfold LinkedInScraper.scrape_all_jobs in Hrun.
    unfold mbind, M_bind at 1 in Hrun. rewrite Hcount in Hrun.
    cbn [py_index lookup list_lookup] in Hrun.
    unfold mret, M_ret, mbind, M_bind at 1 in Hrun.
    unfold mbind, M_bind at 1 in Hrun. rewrite Hfirst in Hrun. discriminate.
Qed.

(** X15.  Once the total is known, a run of [scrape_all_jobs] that
    returns always returns a frame and a path, never [None]: the frame
    starts with the non-empty frame of the first page, and it is the
    content of the file.  When the request for the first page gives up,
    that first frame is the one record of [None] fields, which is saved
    like a job. *)
Theorem scrape_all_jobs_with_count (limit : Z) (w : World) (total : Z)
    (others : list (option Z)) (w1 : World)
    (result : option (list JobPosting.t) * option string) (w' : World) :
  count_fetch w = (Ok (Some total :: others), w1) ->
  LinkedInScraper.scrape_all_jobs self job_title location limit w = (Ok result, w') ->
  exists (first new : list JobPosting.t) (w2 : World),
    page_fetch 0 w1 = (Ok first, w2)
    /\ first <> []
    /\ (fst (page_request 0 w1) = Ok None -> first = [JobPosting.sentinel])
    /\ result = (Some (first ++ new)%list,
                 Some (LinkedInScraper.jobs_file self job_title location))
    /\ files w' !! LinkedInScraper.jobs_file self job_title location
       = Some (JobsCsv (first ++ new)).
Proof.
  intros Hcount Hrun.
  destruct (scrape_all_jobs_frame limit w total others w1 result w' Hcount Hrun)
    as (first & new & w2 & Hfirst & Hne & -> & Hfile).
  exists first, new, w2. repeat split; try assumption.
  intros Hget. unfold JobListScraper.get_job_list, mbind, M_bind in Hfirst.
  destruct (page_request 0 w1) as [r w2']. cbn [fst] in Hget. subst r.
  now injection Hfirst as <- _.
Qed.

End Listing.

Lemma failed_page_ends_pagination_witness :
  exists w' : World,
    @JobListScraper.get_job_list plain_soup a_list_scraper "Software Engineer" "Ottawa" 60
      (fresh [])
    = (Ok [JobPosting.sentinel], w')
    /\ JobPosting.is_empty JobPosting.sentinel = true
    /\ @LinkedInScraper.paginate plain_soup a_scraper "Software Engineer" "Ottawa" [60; 70]
         [a_listing] (fresh [])
       = (Ok [a_listing], w').
Proof.
  eexists.
  eapply (@failed_page_ends_pagination plain_soup a_scraper "Software Engineer" "Ottawa"
            60 [70] [a_listing] (fresh [])).
  vm_compute. reflexivity.
Defined.

Lemma scrape_all_jobs_without_count_witness :
  exists w' : World,
    @LinkedInScraper.scrape_all_jobs plain_soup a_scraper "Software Engineer" "Ottawa" 100
      (fresh [])
    = (Ok (None, None), w')
    /\ files w' = files (fresh [])
    /\ dirs w' = dirs (fresh []).
Proof.
  eexists.
  eapply (@scrape_all_jobs_without_count plain_soup a_scraper "Software Engineer" "Ottawa"
            100 (fresh [])).
  vm_compute. reflexivity.
Defined.

Lemma scrape_all_jobs_single_page_witness :
  exists (first : list JobPosting.t) (w2 w3 : World),
    @LinkedInScraper.scrape_all_jobs plain_soup a_scraper "Software Engineer" "Ottawa" 100
      forty_results
    = (Ok (Some first, Some (LinkedInScraper.jobs_file a_scraper "Software Engineer" "Ottawa")),
       w3)
    /\ trace w3 = trace w2
    /\ files w3 !! LinkedInScraper.jobs_file a_scraper "Software Engineer" "Ottawa"
       = Some (JobsCsv first).
Proof.
  do 2 eexists.
  eapply (@scrape_all_jobs_single_page plain_soup a_scraper "Software Engineer" "Ottawa"
            100 forty_results 40).
  - vm_compute. reflexivity.
  - vm_compute. reflexivity.
  - vm_compute. discriminate.
Defined.

Lemma scrape_all_jobs_with_count_witness :
  exists (result : option (list JobPosting.t) * option string) (w1 w' : World)
         (first new : list JobPosting.t) (w2 : World),
    @JobListScraper.get_job_list plain_soup a_list_scraper "Software Engineer" "Ottawa" 0 w1
    = (Ok first, w2)
    /\ first <> []
    /\ (fst (RequestHandler.get RequestHandler.defaults
               (JobListScraper._build_search_url "Software Engineer" "Ottawa" 0) (Some ∅) w1)
        = Ok None -> first = [JobPosting.sentinel])
    /\ result = (Some (first ++ new)%list,
                 Some (LinkedInScraper.jobs_file a_scraper "Software Engineer" "Ottawa"))
    /\ files w' !! LinkedInScraper.jobs_file a_scraper "Software Engineer" "Ottawa"
       = Some (JobsCsv (first ++ new)).
Proof.
  do 3 eexists.
  eapply (@scrape_all_jobs_with_count plain_soup a_scraper "Software Engineer" "Ottawa"
            100 count_then_down 75 [Some 0; Some 0; Some 0]).
  - vm_compute. reflexivity.
  - vm_compute. reflexivity.
Defined.

(** ** The details pass *)

Section Details.

Context `{Soup}.

Variable self : LinkedInScraper.t.

Lemma get_job_details_disk (job_url : string) (w : World) :
  same_disk w (snd (JobDetailsScraper.get_job_details
                      (LinkedInScraper.job_details_scraper self) job_url w)).
Proof.
  unfold JobDetailsScraper.get_job_details, mbind, M_bind.
  pose proof (get_disk (JobDetailsScraper.request_handler
                          (LinkedInScraper.job_details_scraper self)) job_url
                (Some (JobDetailsScraper.headers (LinkedInScraper.job_details_scraper self)))
                w) as Hget.
  destruct (RequestHandler.get _ _ _ w) as [[[r |] | e] w']; exact Hget.
Qed.

(** What the loop adds: for some of the rows, in their order, a record
    with the row's five listing fields, a link, and no company fact. *)
Lemma details_loop_selects (rows : list JobPosting.t) :
  forall (jobs_with_details : list JobPosting.t) (w : World)
         (out : list JobPosting.t) (w' : World),
    LinkedInScraper.details_loop self rows jobs_with_details w = (Ok out, w') ->
    same_disk w w' /\
    exists new,
      out = (jobs_with_details ++ new)%list
      /\ map discovery new `sublist_of` map discovery rows
      /\ Forall (fun r => JobPosting.job_link r <> None /\ no_company_facts r) new.
Proof.
  induction rows as [| row rows IH]; intros acc w out w'.
  - intros [= <- <-]. split; [apply same_disk_refl |].
    exists []. rewrite app_nil_r. repeat split; constructor.
  - cbn [LinkedInScraper.details_loop].
    destruct (JobPosting.job_link row) as [job_url |] eqn:Hlink.
    + unfold mbind, M_bind.
      pose proof (get_job_details_disk job_url w) as Hdisk.
      destruct (JobDetailsScraper.get_job_details _ job_url w)
        as [[[| first others] | e] w1]; [| | discriminate]; cbn [snd] in Hdisk;
        intros Hloop; apply IH in Hloop as (Hdisk' & new & -> & Hsub & Hall);
        (split; [eapply same_disk_trans; eauto |]).
      * exists new. repeat split; [| exact Hall]. cbn [map]. now apply sublist_cons.
      * eexists (_ :: new). rewrite <- app_assoc. split; [reflexivity |]. split.
        -- cbn [map]. unfold discovery at 1 3. cbn. rewrite Hlink. now apply sublist_skip.
        -- constructor; [| exact Hall]. cbn. repeat split; discriminate.
    + intros Hloop. apply IH in Hloop as (Hdisk' & new & -> & Hsub & Hall).
      split; [exact Hdisk' |]. exists new. repeat split; [| exact Hall].
      cbn [map]. now apply sublist_cons.
Qed.

(** X16.  [scrape_all_job_details] only rewrites the file it read: the
    records it returns are those of some of the rows, in their order, with
    title, company, location, date and link unchanged; each has a link, and
    none has company facts. *)
Theorem scrape_all_job_details_result (file_path : string) (w : World)
    (out : list JobPosting.t) (path : string) (w' : World) :
  LinkedInScraper.scrape_all_job_details self file_path w = (Ok (out, path), w') ->
  exists rows,
    files w !! file_path = Some (JobsCsv rows)
    /\ path = file_path
    /\ files w' = <[file_path := JobsCsv out]> (files w)
    /\ map discovery out `sublist_of` map discovery rows
    /\ Forall (fun r => JobPosting.job_link r <> None /\ no_company_facts r) out.
Proof.
  unfold LinkedInScraper.scrape_all_job_details. unfold mbind, M_bind at 1.
  unfold read_jobs_csv.
  destruct (files w !! file_path) as [[rows | rows |] |] eqn:Hfile; try discriminate.
  unfold mbind, M_bind at 1.
  destruct (LinkedInScraper.details_loop self rows [] w) as [[jobs | e] w1] eqn:Hloop;
    [| discriminate].
  apply details_loop_selects in Hloop as ([Hfiles _] & new & -> & Hsub & Hall).
  cbn. intros [= <- <- <-]. exists rows. cbn. rewrite Hfiles. auto.
Qed.

Lemma details_loop_no_link (rows : list JobPosting.t) :
  Forall (fun r => JobPosting.job_link r = None) rows ->
  forall acc w, LinkedInScraper.details_loop self rows acc w = (Ok acc, w).
Proof.
  induction 1 as [| row rows Hrow _ IH]; intros acc w; [reflexivity |].
  cbn [LinkedInScraper.details_loop]. rewrite Hrow. apply IH.
Qed.

(** X17.  A listing file whose rows all lack the job link is rewritten
    as an empty table, without any request. *)
Theorem rows_without_link_are_dropped (file_path : string) (rows : list JobPosting.t)
    (w : World) :
  files w !! file_path = Some (JobsCsv rows) ->
  Forall (fun r => JobPosting.job_link r = None) rows ->
  exists w',
    LinkedInScraper.scrape_all_job_details self file_path w = (Ok ([], file_path), w')
    /\ trace w' = trace w
    /\ files w' = <[file_path := JobsCsv []]> (files w).
Proof.
  intros Hfile Hrows.
  eexists. unfold LinkedInScraper.scrape_all_job_details. unfold mbind, M_bind at 1.
  unfold read_jobs_csv. rewrite Hfile. unfold mbind, M_bind at 1.
  rewrite (details_loop_no_link rows Hrows). repeat split.
Qed.

End Details.

Lemma scrape_all_job_details_result_witness :
  exists (out : list JobPosting.t) (w' : World) (rows : list JobPosting.t),
    files (listing_on_disk [page 200 "Builds things"])
      !! "data/raw/Software Engineer/Software Engineer in Ottawa.csv"
    = Some (JobsCsv rows)
    /\ "data/raw/Software Engineer/Software Engineer in Ottawa.csv"
       = "data/raw/Software Engineer/Software Engineer in Ottawa.csv"
    /\ files w' = <["data/raw/Software Engineer/Software Engineer in Ottawa.csv" := JobsCsv out]>
                    (files (listing_on_disk [page 200 "Builds things"]))
    /\ map discovery out `sublist_of` map discovery rows
    /\ Forall (fun r => JobPosting.job_link r <> None /\ no_company_facts r) out.
Proof.
  do 2 eexists.
  eapply (@scrape_all_job_details_result plain_soup a_scraper
            "data/raw/Software Engineer/Software Engineer in Ottawa.csv"
            (listing_on_disk [page 200 "Builds things"])).
  vm_compute. reflexivity.
Defined.

Lemma rows_without_link_are_dropped_witness :
  exists w' : World,
    @LinkedInScraper.scrape_all_job_details plain_soup a_scraper
      "data/raw/Software Engineer/Software Engineer in Ottawa.csv" unlinked_on_disk
    = (Ok ([], "data/raw/Software Engineer/Software Engineer in Ottawa.csv"), w')
    /\ trace w' = trace unlinked_on_disk
    /\ files w' = <["data/raw/Software Engineer/Software Engineer in Ottawa.csv" := JobsCsv []]>
                    (files unlinked_on_disk).
Proof.
  apply (@rows_without_link_are_dropped plain_soup a_scraper
           "data/raw/Software Engineer/Software Engineer in Ottawa.csv"
           [JobPosting.sentinel] unlinked_on_disk).
  - reflexivity.
  - repeat constructor.
Defined.

(** ** The company pass *)

Lemma normalized_key_normalized (key : string) :
  normalized (CompanyDetailsScraper.normalized_key key).
Proof.
  unfold CompanyDetailsScraper.normalized_key.
  induction key as [| x key IH]; intros c Hc; [destruct Hc |].
  cbn [replace_spaces lower list_ascii_of_string] in Hc.
  destruct Hc as [<- | Hc]; [| now apply IH].
  cbv zeta.
  destruct (Nat.eqb_spec (nat_of_ascii x) 32) as [H32 | H32].
  - replace (nat_of_ascii (lower_ascii "_"%char)) with 95%nat by reflexivity. lia.
  - unfold lower_ascii. cbv zeta.
    destruct ((65 <=? nat_of_ascii x)%nat && (nat_of_ascii x <=? 90)%nat) eqn:Hup.
    + apply andb_prop in Hup as [H1 H2]. apply Nat.leb_le in H1, H2.
      rewrite nat_ascii_embedding by lia. lia.
    + split; [exact H32 |]. intros [H1 H2].
      apply Nat.leb_le in H1, H2. rewrite H1, H2 in Hup. discriminate.
Qed.

Section Company.

Context `{CompanySoup}.

Lemma record_facts_lookup (elements : list (option string * option string)) :
  forall (data : gmap string string) (k v : string),
    fold_left CompanyDetailsScraper.record_fact elements data !! k = Some v ->
    data !! k = Some v
    \/ exists key, In (Some key, Some v) elements
                   /\ k = CompanyDetailsScraper.normalized_key key.
Proof.
  induction elements as [| [[key |] [value |]] elements IH]; intros data k v Hk;
    cbn [fold_left CompanyDetailsScraper.record_fact] in Hk; auto;
    try (apply IH in Hk as [Hk | (key' & Hin & ->)];
         [left; exact Hk | right; exists key'; split; [right; exact Hin | reflexivity]]).
  apply IH in Hk as [Hk | (key' & Hin & ->)].
  - destruct (decide (CompanyDetailsScraper.normalized_key key = k)) as [<- | Hne].
    + rewrite lookup_insert_eq in Hk. injection Hk as ->.
      right. exists key. split; [left; reflexivity | reflexivity].
    + rewrite lookup_insert_ne in Hk by exact Hne. left. exact Hk.
  - right. exists key'. split; [right; exact Hin | reflexivity].
Qed.

Lemma record_facts_empty (elements : list (option string * option string)) :
  forall data : gmap string string,
    bool_decide (fold_left CompanyDetailsScraper.record_fact elements data = ∅)
    = bool_decide (data = ∅) && forallb incomplete elements.
Proof.
  induction elements as [| [[key |] [value |]] elements IH]; intros data;
    cbn [fold_left CompanyDetailsScraper.record_fact forallb incomplete].
  - now rewrite andb_true_r.
  - rewrite IH. rewrite (bool_decide_eq_false_2 (<[_:=value]> data = ∅))
      by apply insert_non_empty.
    now rewrite andb_false_r.
  - apply IH.
  - apply IH.
  - apply IH.
Qed.

(** X18.  A company page whose labels are ASCII text is parsed into one
    row; its keys are lower case without spaces, each is the normalized
    label of a fact of the page that has both its label and its value,
    and the row has no column exactly when no fact of the page is
    complete. *)
Theorem _parse_response_company (response_text : string) :
  ascii_labels (company_facts response_text) ->
  exists data : gmap string string,
    CompanyDetailsScraper._parse_response response_text = [data]
    /\ (forall k v, data !! k = Some v ->
          normalized k
          /\ exists key, In (Some key, Some v) (company_facts response_text)
                         /\ k = CompanyDetailsScraper.normalized_key key)
    /\ CompanyDetailsScraper.empty [data] = forallb incomplete (company_facts response_text).
Proof.
  intros Hascii.
  eexists. split; [reflexivity |]. split.
  - intros k v Hk. apply record_facts_lookup in Hk as [Hk | (key & Hin & ->)].
    + now rewrite lookup_empty in Hk.
    + split; [apply normalized_key_normalized | eauto].
  - unfold CompanyDetailsScraper.empty. cbn [forallb]. rewrite andb_true_r.
    rewrite record_facts_empty. now rewrite bool_decide_eq_true_2.
Qed.

Variable scraper : CompanyDetailsScraper.t.

Abbreviation company_fetch company_url :=
  (RequestHandler.get (CompanyDetailsScraper.request_handler scraper) company_url
     (Some (CompanyDetailsScraper.headers scraper))).

(** X19.  In the company pass a row is dropped, and the loop goes on
    with the next row, when the request for its company page gives up or
    when the page holds no complete fact. *)
Theorem company_pass_drops (row : JobPosting.t) (rest acc : list JobPosting.t)
    (company_url : string) (w : World) (response : option Response) (w1 : World) :
  JobPosting.company_url row = Some company_url ->
  company_fetch company_url w = (Ok response, w1) ->
  match response with
  | None => True
  | Some r => forallb incomplete (company_facts (text r)) = true
  end ->
  CompanyPass.company_loop scraper (row :: rest) acc w
  = CompanyPass.company_loop scraper rest acc w1.
Proof.
  intros Hurl Hget Hnothing.
  cbn [CompanyPass.company_loop]. rewrite Hurl.
  unfold mbind, M_bind at 1. unfold CompanyDetailsScraper.get_company_details.
  unfold mbind, M_bind at 1. rewrite Hget.
  destruct response as [r |]; [| reflexivity].
  cbn [mret M_ret].
  unfold CompanyDetailsScraper._parse_response, CompanyDetailsScraper.empty.
  cbn [forallb]. rewrite record_facts_empty, Hnothing.
  now rewrite bool_decide_eq_true_2.
Qed.

Lemma get_company_details_disk (company_url : string) (w : World) :
  same_disk w (snd (CompanyDetailsScraper.get_company_details scraper company_url w)).
Proof.
  unfold CompanyDetailsScraper.get_company_details, mbind, M_bind.
  pose proof (get_disk (CompanyDetailsScraper.request_handler scraper) company_url
                (Some (CompanyDetailsScraper.headers scraper)) w) as Hget.
  destruct (RequestHandler.get _ _ _ w) as [[[r |] | e] w']; exact Hget.
Qed.

(** What the loop adds: for some of the rows, in their order, the row
    with its five company fields replaced. *)
Lemma company_loop_selects (rows : list JobPosting.t) :
  forall (acc : list JobPosting.t) (w : World) (out : list JobPosting.t) (w' : World),
    CompanyPass.company_loop scraper rows acc w = (Ok out, w') ->
    same_disk w w' /\
    exists new,
      out = (acc ++ new)%list
      /\ map through_details new `sublist_of` map through_details rows
      /\ Forall (fun r => JobPosting.company_url r <> None) new.
Proof.
  induction rows as [| row rows IH]; intros acc w out w'.
  - intros [= <- <-]. split; [apply same_disk_refl |].
    exists []. rewrite app_nil_r. repeat split; constructor.
  - cbn [CompanyPass.company_loop].
    destruct (JobPosting.company_url row) as [company_url |] eqn:Hurl.
    + unfold mbind, M_bind.
      pose proof (get_company_details_disk company_url w) as Hdisk.
      destruct (CompanyDetailsScraper.get_company_details scraper company_url w)
        as [[details | e] w1]; [| discriminate]. cbn [snd] in Hdisk.
      destruct (CompanyDetailsScraper.empty details);
        intros Hloop; apply IH in Hloop as (Hdisk' & new & -> & Hsub & Hall);
        (split; [eapply same_disk_trans; eauto |]).
      * exists new. repeat split; [| exact Hall]. cbn [map]. now apply sublist_cons.
      * eexists (_ :: new). rewrite <- app_assoc. split; [reflexivity |]. split.
        -- cbn [map]. unfold through_details at 1 3. cbn. rewrite Hurl.
           now apply sublist_skip.
        -- constructor; [discriminate | exact Hall].
    + intros Hloop. apply IH in Hloop as (Hdisk' & new & -> & Hsub & Hall).
      split; [exact Hdisk' |]. exists new. repeat split; [| exact Hall].
      cbn [map]. now apply sublist_cons.
Qed.

(** X20.  [scrape_all_company_details] only rewrites the file it read:
    the records it returns are those of some of the rows, in their order,
    unchanged but for the five company fields, and each names its company
    page. *)
Theorem scrape_all_company_details_result (file_path : string) (w : World)
    (out : list JobPosting.t) (path : string) (w' : World) :
  CompanyPass.scrape_all_company_details scraper file_path w = (Ok (out, path), w') ->
  exists rows,
    files w !! file_path = Some (JobsCsv rows)
    /\ path = file_path
    /\ files w' = <[file_path := JobsCsv out]> (files w)
    /\ map through_details out `sublist_of` map through_details rows
    /\ Forall (fun r => JobPosting.company_url r <> None) out.
Proof.
  unfold CompanyPass.scrape_all_company_details. unfold mbind, M_bind at 1.
  unfold read_jobs_csv.
  destruct (files w !! file_path) as [[rows | rows |] |] eqn:Hfile; try discriminate.
  unfold mbind, M_bind at 1.
  destruct (CompanyPass.company_loop scraper rows [] w) as [[jobs | e] w1] eqn:Hloop;
    [| discriminate].
  apply company_loop_selects in Hloop as ([Hfiles _] & new & -> & Hsub & Hall).
  cbn. intros [= <- <- <-]. exists rows. cbn. rewrite Hfiles. auto.
Qed.

End Company.

Lemma _parse_response_company_witness :
  exists data : gmap string string,
    @CompanyDetailsScraper._parse_response plain_company_soup "51-200 employees" = [data]
    /\ (forall k v, data !! k = Some v ->
          normalized k
          /\ exists key, In (Some key, Some v)
                           (@company_facts plain_company_soup "51-200 employees")
                         /\ k = CompanyDetailsScraper.normalized_key key)
    /\ CompanyDetailsScraper.empty [data]
       = forallb incomplete (@company_facts plain_company_soup "51-200 employees").
Proof.
  apply (@_parse_response_company plain_company_soup "51-200 employees").
  repeat constructor.
Defined.

(** The row of that page. *)
Example company_size_row :
  @CompanyDetailsScraper._parse_response plain_company_soup "51-200 employees"
  = [{[ "company_size" := "51-200 employees" ]}].
Proof. reflexivity. Qed.

Lemma company_pass_drops_witness :
  exists w1 : World,
    @CompanyPass.company_loop plain_company_soup a_company_scraper [a_detailed_listing] []
      (fresh [])
    = @CompanyPass.company_loop plain_company_soup a_company_scraper [] [] w1.
Proof.
  eexists.
  eapply (@company_pass_drops plain_company_soup a_company_scraper a_detailed_listing [] []
            "https://company.example/acme" (fresh []) None).
  - reflexivity.
  - vm_compute. reflexivity.
  - exact I.
Defined.

Lemma scrape_all_company_details_result_witness :
  exists (out : list JobPosting.t) (w' : World) (rows : list JobPosting.t),
    files (details_on_disk [page 200 "51-200 employees"])
      !! "data/raw/Software Engineer/Software Engineer in Ottawa.csv"
    = Some (JobsCsv rows)
    /\ "data/raw/Software Engineer/Software Engineer in Ottawa.csv"
       = "data/raw/Software Engineer/Software Engineer in Ottawa.csv"
    /\ files w' = <["data/raw/Software Engineer/Software Engineer in Ottawa.csv" := JobsCsv out]>
                    (files (details_on_disk [page 200 "51-200 employees"]))
    /\ map through_details out `sublist_of` map through_details rows
    /\ Forall (fun r => JobPosting.company_url r <> None) out.
Proof.
  do 2 eexists.
  eapply (@scrape_all_company_details_result plain_company_soup a_company_scraper
            "data/raw/Software Engineer/Software Engineer in Ottawa.csv"
            (details_on_disk [page 200 "51-200 employees"])).
  vm_compute. reflexivity.
Defined.

(** ** The workflow *)

Lemma safe_ret {A} (a : A) : safe (mret a).
Proof. intros w. discriminate. Qed.

Lemma safe_bind {A B} (m : M A) (k : A -> M B) :
  safe m -> (forall a, safe (k a)) -> safe (m ≫= k).
Proof.
  intros Hm Hk w. unfold mbind, M_bind. specialize (Hm w).
  destruct (m w) as [[a | e] w1]; [apply Hk |].
  cbn in *. intros [= ->]. now apply Hm.
Qed.

Lemma safe_raise {A} (e : exn) : e <> OutOfFuel -> safe (@raise A e).
Proof. intros He w. cbn. congruence. Qed.

Lemma safe_try {A} (body : M A) (caught : exn -> bool) (handler : exn -> M A) :
  safe body -> (forall e, safe (handler e)) -> safe (try_except body caught handler).
Proof.
  intros Hbody Hhandler w. unfold try_except. specialize (Hbody w).
  destruct (body w) as [[a | e] w1]; [discriminate |].
  destruct (caught e); [apply Hhandler | exact Hbody].
Qed.

Lemma safe_make_request (self : RequestHandler.t) (url method : string)
    (hdrs data : option (gmap string string)) (t : Z) :
  safe (RequestHandler.make_request self url method hdrs data t).
Proof.
  intros w.
  destruct (make_request_fuel_stable self url method hdrs data t w _ (Nat.le_refl _))
    as [_ Hharmless].
  destruct (RequestHandler.make_request self url method hdrs data t w) as [[r | e] w'];
    [discriminate |]. cbn in *. destruct e; try discriminate. contradiction.
Qed.

Lemma safe_disk_operations :
  (forall path, safe (mkdir path)) /\ (forall path content, safe (to_csv path content))
  /\ (forall path, safe (exists_file path)) /\ (forall path, safe (read_jobs_csv path))
  /\ (forall path, safe (read_totals_csv path)) /\ safe strftime_now
  /\ (forall A (l : list A) i, safe (py_index l i)).
Proof.
  repeat split; intros; intros w; cbn; try discriminate.
  - unfold read_jobs_csv. destruct (files w !! path) as [[] |]; discriminate.
  - unfold read_totals_csv. destruct (files w !! path) as [[] |]; discriminate.
  - unfold py_index. destruct (l !! i); discriminate.
Qed.

Create HintDb safe.
#[local] Hint Resolve safe_ret safe_make_request : safe.

Ltac safe_step :=
  first
    [ apply safe_ret
    | apply safe_make_request
    | apply safe_disk_operations
    | apply safe_bind; [| intros ?]
    | apply safe_try; [| intros ?]
    | apply safe_raise; discriminate
    | match goal with |- safe (match ?x with _ => _ end) => destruct x end
    | match goal with |- safe (let _ := _ in _) => cbv zeta end
    | solve [auto with safe] ].

Ltac safe_tac := repeat safe_step.

Section Workflow.

Context `{Soup} `{CompanySoup}.

Lemma safe_parse_total_jobs (response_text : string) :
  safe (returned (JobListScraper._parse_total_jobs response_text)).
Proof.
  intros w. unfold returned. cbn [fst]. unfold JobListScraper._parse_total_jobs. cbv zeta.
  unfold mbind, Res_bind, mret, Res_ret.
  repeat match goal with
         | |- context [JobListScraper.extract_count ?e] =>
             destruct (extract_count_cases e) as [[_ [? ->]] | [_ [? ->]]]
         end; discriminate.
Qed.

Lemma safe_get_total_jobs (self : JobListScraper.t) (job_title location : string) :
  safe (JobListScraper.get_total_jobs self job_title location).
Proof.
  unfold JobListScraper.get_total_jobs, RequestHandler.get.
  apply safe_bind; [apply safe_make_request |]. intros [response |]; [| apply safe_ret].
  apply safe_bind; [apply safe_parse_total_jobs |]. intros counts. apply safe_ret.
Qed.

Lemma safe_get_job_list (self : JobListScraper.t) (job_title location : string) (position : Z) :
  safe (JobListScraper.get_job_list self job_title location position).
Proof. unfold JobListScraper.get_job_list, RequestHandler.get. safe_tac. Qed.

Lemma safe_paginate (self : LinkedInScraper.t) (job_title location : string)
    (positions : list Z) :
  forall jobs_df, safe (LinkedInScraper.paginate self job_title location positions jobs_df).
Proof.
  induction positions as [| position rest IH]; intros jobs_df;
    cbn [LinkedInScraper.paginate]; [apply safe_ret |].
  apply safe_bind; [apply safe_get_job_list |]. intros new_jobs.
  destruct (LinkedInScraper.no_more_jobs new_jobs); [apply safe_ret | apply IH].
Qed.

Lemma safe_scrape_all_jobs (self : LinkedInScraper.t) (job_title location : string)
    (limit : Z) :
  safe (LinkedInScraper.scrape_all_jobs self job_title location limit).
Proof.
  unfold LinkedInScraper.scrape_all_jobs, LinkedInScraper.save_jobs.
  apply safe_bind; [apply safe_get_total_jobs |]. intros total_jobs.
  apply safe_bind; [apply safe_disk_operations |]. intros [total |]; [| apply safe_ret].
  apply safe_bind; [apply safe_get_job_list |]. intros jobs_df.
  destruct (bool_decide (jobs_df = [])); [apply safe_ret |].
  apply safe_bind; [apply safe_paginate |]. intros jobs. safe_tac.
Qed.

Lemma safe_details_loop (self : LinkedInScraper.t) (rows : list JobPosting.t) :
  forall acc, safe (LinkedInScraper.details_loop self rows acc).
Proof.
  induction rows as [| row rows IH]; intros acc; cbn [LinkedInScraper.details_loop];
    [apply safe_ret |].
  destruct (JobPosting.job_link row) as [job_url |]; [| apply IH].
  apply safe_bind.
  - unfold JobDetailsScraper.get_job_details, RequestHandler.get. safe_tac.
  - intros [| first others]; apply IH.
Qed.

Lemma safe_scrape_all_job_details (self : LinkedInScraper.t) (file_path : string) :
  safe (LinkedInScraper.scrape_all_job_details self file_path).
Proof.
  unfold LinkedInScraper.scrape_all_job_details.
  apply safe_bind; [apply safe_disk_operations |]. intros df.
  apply safe_bind; [apply safe_details_loop |]. intros jobs. safe_tac.
Qed.

Lemma safe_company_loop (scraper : CompanyDetailsScraper.t) (rows : list JobPosting.t) :
  forall acc, safe (CompanyPass.company_loop scraper rows acc).
Proof.
  induction rows as [| row rows IH]; intros acc; cbn [CompanyPass.company_loop];
    [apply safe_ret |].
  destruct (JobPosting.company_url row) as [company_url |]; [| apply IH].
  apply safe_bind.
  - unfold CompanyDetailsScraper.get_company_details, RequestHandler.get. safe_tac.
  - intros details. destruct (CompanyDetailsScraper.empty details); apply IH.
Qed.

Lemma safe_scrape_all_company_details (scraper : CompanyDetailsScraper.t)
    (file_path : string) :
  safe (CompanyPass.scrape_all_company_details scraper file_path).
Proof.
  unfold CompanyPass.scrape_all_company_details.
  apply safe_bind; [apply safe_disk_operations |]. intros df.
  apply safe_bind; [apply safe_company_loop |]. intros jobs. safe_tac.
Qed.

Lemma safe_scrape_city (self : ScrapingOrchestrator.t) (company : CompanyDetailsScraper.t)
    (job_title city : string) :
  safe (Workflow.scrape_city self company job_title city).
Proof.
  unfold Workflow.scrape_city.
  apply safe_bind; [apply safe_scrape_all_jobs |]. intros [[jobs_df |] jobs_path];
    [| apply safe_ret].
  apply safe_bind; [destruct jobs_path; safe_tac |]. intros path.
  apply safe_bind; [apply safe_scrape_all_job_details |]. intros detailed.
  apply safe_bind; [apply safe_scrape_all_company_details |]. intros ?. apply safe_ret.
Qed.

Lemma safe_count_loop (self : ScrapingOrchestrator.t) (job_title : string)
    (cities : list string) :
  forall total_jobs, safe (ScrapingOrchestrator.count_loop self job_title cities total_jobs).
Proof.
  induction cities as [| city rest IH]; intros total_jobs;
    cbn [ScrapingOrchestrator.count_loop]; [apply safe_ret |].
  apply safe_bind; [apply safe_get_total_jobs |]. intros result.
  destruct (bool_decide _); [apply safe_ret | apply IH].
Qed.

Lemma safe_populate (cities : list string) :
  forall total_jobs date, safe (ScrapingOrchestrator.populate cities total_jobs date).
Proof.
  induction cities as [| city rest IH]; intros [| x total_jobs] date;
    cbn [ScrapingOrchestrator.populate]; try apply safe_ret.
  repeat (apply safe_bind; [apply safe_disk_operations |]; intros ?).
  apply safe_bind; [apply IH |]. intros ?. apply safe_ret.
Qed.

Lemma safe_create_city_comparison (self : ScrapingOrchestrator.t) (job_title : string)
    (cities : option (list string)) :
  safe (ScrapingOrchestrator.create_city_comparison self job_title cities).
Proof.
  unfold ScrapingOrchestrator.create_city_comparison. cbv zeta.
  apply safe_bind; [apply safe_disk_operations |]. intros _.
  apply safe_bind; [apply safe_count_loop |]. intros [total_jobs |]; [| apply safe_ret].
  apply safe_bind; [apply safe_disk_operations |]. intros date.
  apply safe_bind; [apply safe_populate |]. intros df.
  apply safe_bind.
  - apply safe_try; [| intros ?; apply safe_ret].
    apply safe_bind; [apply safe_disk_operations |]. intros [|]; [| apply safe_ret].
    apply safe_bind; [apply safe_disk_operations |]. intros ?. apply safe_ret.
  - intros df'. safe_tac.
Qed.

(** A [try] whose [except Exception] does nothing lets no exception
    out. *)
Lemma swallowed (body : M unit) (w : World) :
  safe body ->
  exists w', try_except body is_Exception (fun _ => mret tt) w = (Ok tt, w').
Proof.
  intros Hbody. unfold try_except. specialize (Hbody w).
  destruct (body w) as [[[] | e] w1]; [eauto |].
  destruct e; cbn; eauto. now destruct Hbody.
Qed.

Lemma city_loop_returns (self : ScrapingOrchestrator.t) (company : CompanyDetailsScraper.t)
    (job_title : string) (cities : list string) :
  forall w, exists w', Workflow.city_loop self company job_title cities w = (Ok tt, w').
Proof.
  induction cities as [| city rest IH]; intros w; cbn [Workflow.city_loop]; [eauto |].
  unfold mbind, M_bind.
  destruct (swallowed (Workflow.scrape_city self company job_title city) w
              (safe_scrape_city self company job_title city)) as [w1 ->].
  apply IH.
Qed.

(** X21.  Called with a list of cities, as [main] calls it,
    [scrape_city_data] returns for every list and every behaviour of the
    network and the disk: whatever is raised while a city is scraped is
    caught, and the loop goes on with the next city. *)
Theorem scrape_city_data_never_raises (self : ScrapingOrchestrator.t)
    (company : CompanyDetailsScraper.t) (job_title : string) (cities : list string)
    (w : World) :
  exists w', Workflow.scrape_city_data self company job_title (Some cities) w = (Ok tt, w').
Proof.
  unfold Workflow.scrape_city_data. cbv zeta.
  change (default DEFAULT_CITIES (Some cities)) with cities. apply city_loop_returns.
Qed.

Lemma safe_process_title (self : ScrapingOrchestrator.t) (company : CompanyDetailsScraper.t)
    (cities : option (list string)) (job_title : string) :
  safe (Workflow.process_title self company cities job_title).
Proof.
  unfold Workflow.process_title.
  apply safe_bind; [apply safe_create_city_comparison |]. intros [df |]; [| apply safe_ret].
  intros w.
  destruct (city_loop_returns self company job_title (default DEFAULT_CITIES cities) w)
    as [w' Hrun].
  unfold Workflow.scrape_city_data. now rewrite Hrun.
Qed.

(** X22.  Called with a list of titles and a list of cities, as [main]
    calls it, [run_complete_workflow] returns for every such lists and
    every behaviour of the network and the disk: whatever is raised
    while a title is processed is caught, and the loop goes on with the
    next title. *)
Theorem run_complete_workflow_never_raises (self : ScrapingOrchestrator.t)
    (company : CompanyDetailsScraper.t) (job_titles cities : list string)
    (w : World) :
  exists w',
    Workflow.run_complete_workflow self company (Some job_titles) (Some cities) w
    = (Ok tt, w').
Proof.
  unfold Workflow.run_complete_workflow. cbv zeta.
  change (default DEFAULT_JOB_POSITIONS (Some job_titles)) with job_titles. revert w.
  induction job_titles as [| job_title rest IH]; intros w; cbn [Workflow.title_loop];
    [eauto |].
  unfold mbind, M_bind.
  destruct (swallowed (Workflow.process_title self company (Some cities) job_title) w
              (safe_process_title self company (Some cities) job_title)) as [w1 ->].
  apply IH.
Qed.

(** X23.  A title whose city comparison is abandoned, because one
    count-fetch failed, is skipped by [run_complete_workflow]: none of its
    cities is scraped, the disk is as before, and the loop goes on with the
    next title. *)
Theorem aborted_title_is_skipped (self : ScrapingOrchestrator.t)
    (company : CompanyDetailsScraper.t) (cities : option (list string))
    (job_title : string) (rest : list string) (w w1 w' : World) :
  mkdir (path_join (ScrapingOrchestrator.data_dir self) (job_title ++ "/TotalJobs")) w
    = (Ok tt, w1) ->
  count_fetch_fails (ScrapingOrchestrator.job_list_scraper self) job_title
    (default DEFAULT_CITIES cities) w1 w' ->
  Workflow.title_loop self company cities (job_title :: rest) w
  = Workflow.title_loop self company cities rest w'
  /\ files w' = files w.
Proof.
  intros Hmkdir Hfails. split.
  - cbn [Workflow.title_loop]. unfold mbind, M_bind at 1.
    unfold try_except, Workflow.process_title. unfold mbind, M_bind at 1.
    unfold ScrapingOrchestrator.create_city_comparison. unfold mbind, M_bind at 1.
    rewrite Hmkdir. unfold mbind, M_bind at 1.
    now rewrite (count_loop_fails self job_title _ w1 w' Hfails).
  - apply count_fetch_fails_disk in Hfails as [Hf _]. rewrite Hf.
    unfold mkdir in Hmkdir. now injection Hmkdir as <-.
Qed.

End Workflow.

Lemma aborted_title_is_skipped_witness :
  exists w' : World,
    @Workflow.title_loop plain_soup plain_company_soup an_orchestrator a_company_scraper
      (Some ["Ottawa"; "Toronto"; "Montreal"]) ["Software Engineer"; "Internship"]
      second_city_down
    = @Workflow.title_loop plain_soup plain_company_soup an_orchestrator a_company_scraper
        (Some ["Ottawa"; "Toronto"; "Montreal"]) ["Internship"] w'
    /\ files w' = files second_city_down.
Proof.
  eexists.
  eapply (@aborted_title_is_skipped plain_soup plain_company_soup an_orchestrator
            a_company_scraper (Some ["Ottawa"; "Toronto"; "Montreal"]) "Software Engineer"
            ["Internship"] second_city_down).
  - reflexivity.
  - eapply fails_later.
    + reflexivity.
    + discriminate.
    + eapply fails_here. reflexivity.
Defined.

(** ** The time series *)

(** Whatever a run of the client does, it only adds events to the
    trace. *)
Lemma make_request_extends (self : RequestHandler.t) (url method : string)
    (hdrs data : option (gmap string string)) (t : Z) (w : World) :
  exists evs, snd (RequestHandler.make_request self url method hdrs data t w) = extend evs w.
Proof.
  pattern t, w, (RequestHandler.make_request self url method hdrs data t w).
  apply make_request_ind; clear t w.
  - intros t w r w' Hat. cbn [snd].
    destruct (request_of self url method hdrs data) as [call |] eqn:Hcall.
    + destruct (attempt_Done_form self url method hdrs data call t w r w' Hcall Hat)
        as [-> _].
      exists [EvHttp call]. reflexivity.
    + rewrite (attempt_unsupported self url method hdrs data t w Hcall) in Hat.
      injection Hat as <- <-. exists []. now rewrite extend_nil.
  - intros t w w1 Hat [evs ->].
    destruct (request_of self url method hdrs data) as [call |] eqn:Hcall.
    + destruct (attempt_Retry_form self url method hdrs data call t w w1 Hcall Hat)
        as (_ & d & _ & -> & _).
      exists (EvHttp call :: EvSleep d :: evs). now rewrite !extend_log.
    + rewrite (attempt_unsupported self url method hdrs data t w Hcall) in Hat. discriminate.
Qed.

Lemma bind_ok {A B} (m : M A) (k : A -> M B) (w : World) (a : A) (w' : World) :
  m w = (Ok a, w') -> (m ≫= k) w = k a w'.
Proof. intros Hm. unfold mbind, M_bind. now rewrite Hm. Qed.

Lemma insert_by_sorted {A} (le : A -> A -> bool) (x : A) (l : list A) :
  (forall a b, le a b = true \/ le b a = true) ->
  (forall a b c, le a b = true -> le b c = true -> le a c = true) ->
  Sorted.StronglySorted (fun a b => le a b = true) l ->
  Sorted.StronglySorted (fun a b => le a b = true) (insert_by le x l).
Proof.
  intros Htotal Htrans. induction 1 as [| y l Hl IH Hy]; cbn [insert_by].
  - repeat constructor.
  - destruct (le x y) eqn:Hxy.
    + constructor; [now constructor |].
      constructor; [exact Hxy |].
      eapply List.Forall_impl; [| exact Hy]. intros z Hz. eauto.
    + constructor; [exact IH |].
      assert (Hyx : le y x = true) by (destruct (Htotal x y); congruence).
      eapply Permutation_Forall; [symmetry; apply insert_by_perm |].
      constructor; assumption.
Qed.

Lemma sort_values_sorted {A} (le : A -> A -> bool) (df : list A) :
  (forall a b, le a b = true \/ le b a = true) ->
  (forall a b c, le a b = true -> le b c = true -> le a c = true) ->
  Sorted.StronglySorted (fun a b => le a b = true) (sort_values le df).
Proof.
  intros Htotal Htrans. induction df as [| x df IH]; [constructor |].
  cbn. now apply insert_by_sorted.
Qed.

Section TimeSeries.

Context `{Soup}.

Variable self : ScrapingOrchestrator.t.
Variable job_title : string.

Abbreviation scraper := (ScrapingOrchestrator.job_list_scraper self).

Lemma get_total_jobs_extends (city : string) (w : World) :
  exists evs, snd (JobListScraper.get_total_jobs scraper job_title city w) = extend evs w.
Proof.
  rewrite get_total_jobs_run. unfold RequestHandler.get.
  destruct (make_request_extends (JobListScraper.request_handler scraper)
              (JobListScraper._build_search_url job_title city 0) "GET"
              (Some (JobListScraper.headers scraper)) None 0 w) as [evs Hevs].
  destruct (RequestHandler.make_request _ _ _ _ _ _ w) as [[[r |] | e] w'];
    exists evs; try exact Hevs.
  now destruct (JobListScraper._parse_total_jobs (text r)).
Qed.

Lemma counted_extends (cities : list string) (w : World) (counts : list (Z * Z * Z * Z))
    (w' : World) :
  counted scraper job_title cities w counts w' ->
  length counts = length cities /\ exists evs, w' = extend evs w.
Proof.
  induction 1 as [w | city rest w total month week day w1 counts w' Hget _ [Hlen [evs ->]]].
  - split; [reflexivity |]. exists []. now rewrite extend_nil.
  - destruct (get_total_jobs_extends city w) as [evs1 Hevs1]. rewrite Hget in Hevs1.
    cbn [snd] in Hevs1. subst w1. split; [cbn; now rewrite Hlen |].
    exists (evs1 ++ evs)%list. unfold extend. cbn. now rewrite app_assoc.
Qed.

Lemma count_loop_counted (cities : list string) (w : World) (counts : list (Z * Z * Z * Z))
    (w' : World) :
  counted scraper job_title cities w counts w' ->
  forall total_jobs,
    ScrapingOrchestrator.count_loop self job_title cities total_jobs w
    = (Ok (Some (total_jobs
                 ++ map (fun '(total, month, week, day) =>
                           [Some total; Some month; Some week; Some day]) counts)%list), w').
Proof.
  induction 1 as [w | city rest w total month week day w1 counts w' Hget _ IH];
    intros total_jobs; cbn [ScrapingOrchestrator.count_loop map].
  - now rewrite app_nil_r.
  - unfold mbind, M_bind. rewrite Hget.
    rewrite bool_decide_eq_false_2 by discriminate.
    rewrite IH. now rewrite <- app_assoc.
Qed.

Lemma populate_counts (date : string) (cities : list string) :
  forall (counts : list (Z * Z * Z * Z)) (w : World),
    ScrapingOrchestrator.populate cities
      (map (fun '(total, month, week, day) =>
              [Some total; Some month; Some week; Some day]) counts) date w
    = (Ok (new_rows date cities counts), w).
Proof.
  induction cities as [| city cities IH]; intros [| [[[total month] week] day] counts] w;
    try reflexivity.
  cbn [map ScrapingOrchestrator.populate]. unfold mbind, M_bind. cbn [py_index lookup list_lookup].
  unfold mret, M_ret at 1 2 3 4. cbn. rewrite IH. reflexivity.
Qed.

(** The [try] block: the rows that can be read back, then the new ones;
    an unreadable file counts for nothing. *)
Lemma merge_history (df : list TotalJobs.row) (w : World) :
  let total_jobs_file := ScrapingOrchestrator.totals_file self job_title in
  (forall rows, files w !! total_jobs_file <> Some (JobsCsv rows)) ->
  try_except
    (present ← exists_file total_jobs_file;
     if present : bool then
       existing_df ← read_totals_csv total_jobs_file;
       mret (existing_df ++ df)%list
     else mret df : M (list TotalJobs.row))
    is_Exception
    (fun _ => mret df) w
  = (Ok (history (files w !! total_jobs_file) ++ df)%list, w).
Proof.
  intros total_jobs_file Hkind.
  unfold try_except, exists_file, read_totals_csv, mbind, M_bind.
  destruct (files w !! total_jobs_file) as [[rows | rows |] |] eqn:Hfile.
  - now destruct (Hkind rows).
  - rewrite bool_decide_eq_true_2 by eauto. now rewrite Hfile.
  - rewrite bool_decide_eq_true_2 by eauto. now rewrite Hfile.
  - rewrite bool_decide_eq_false_2 by (intros [x Hx]; discriminate). reflexivity.
Qed.

(** X24.  Called with a list of cities whose count-fetches all succeed,
    [create_city_comparison] adds one row per city, dated today, to the
    rows read back from the file (none if there is no file or it cannot
    be read), sorts them by date, writes the result to the file and
    returns it: the result holds exactly the old and the new rows, in
    ascending date order, and nothing is requested after the counts.
    The order among rows of the same date is left open, as the sort of
    the library leaves it. *)
Theorem create_city_comparison_appends (cities : list string) (w w1 : World)
    (counts : list (Z * Z * Z * Z)) (w2 : World) :
  mkdir (path_join (ScrapingOrchestrator.data_dir self) (job_title ++ "/TotalJobs")) w
    = (Ok tt, w1) ->
  counted scraper job_title cities w1 counts w2 ->
  (forall rows, files w !! ScrapingOrchestrator.totals_file self job_title
                <> Some (JobsCsv rows)) ->
  let added := new_rows (today w) cities counts in
  exists (df : list TotalJobs.row) (w3 : World),
    ScrapingOrchestrator.create_city_comparison self job_title (Some cities) w
    = (Ok (Some df), w3)
    /\ trace w3 = trace w2
    /\ files w3 = <[ScrapingOrchestrator.totals_file self job_title := TotalsCsv df]> (files w)
    /\ Permutation df
         (history (files w !! ScrapingOrchestrator.totals_file self job_title) ++ added)
    /\ Sorted.StronglySorted Date_le df
    /\ length added = length cities.
Proof.
  intros Hmkdir Hcounted Hkind added.
  exists (sort_values ScrapingOrchestrator.by_Date
            (history (files w !! ScrapingOrchestrator.totals_file self job_title)
             ++ added)).
  destruct (counted_extends _ _ _ _ Hcounted) as [Hlen [evs Hw2]].
  assert (Hw1 : files w1 = files w /\ today w1 = today w)
    by (unfold mkdir in Hmkdir; now injection Hmkdir as <-).
  destruct Hw1 as [Hfiles1 Htoday1].
  assert (Hfiles2 : files w2 = files w) by (now rewrite Hw2).
  assert (Htoday2 : today w2 = today w) by (now rewrite Hw2).
  eexists. split; [| split; [| split; [| split; [| split]]]].
  - unfold ScrapingOrchestrator.create_city_comparison. cbv zeta.
    erewrite bind_ok by exact Hmkdir.
    erewrite bind_ok by (apply count_loop_counted; exact Hcounted).
    cbn [app].
    erewrite bind_ok by reflexivity.
    erewrite bind_ok by apply populate_counts.
    erewrite bind_ok
      by (apply merge_history; rewrite Hfiles2; exact Hkind).
    rewrite Hfiles2, Htoday2. reflexivity.
  - reflexivity.
  - cbn. now rewrite Hfiles2.
  - apply sort_values_perm.
  - apply (sort_values_sorted ScrapingOrchestrator.by_Date).
    + intros a b. apply String.leb_total.
    + intros a b c. apply leb_trans.
  - unfold added, new_rows. rewrite length_zip_with. lia.
Qed.

End TimeSeries.

Lemma create_city_comparison_appends_witness :
  let added := new_rows "2024-01-20" ["Ottawa"; "Toronto"] [(120, 0, 0, 0); (80, 0, 0, 0)] in
  exists (w2 : World) (df : list TotalJobs.row) (w3 : World),
    @ScrapingOrchestrator.create_city_comparison plain_soup an_orchestrator "Software Engineer"
      (Some ["Ottawa"; "Toronto"]) two_cities_up
    = (Ok (Some df), w3)
    /\ trace w3 = trace w2
    /\ files w3 = <[ScrapingOrchestrator.totals_file an_orchestrator "Software Engineer"
                    := TotalsCsv df]> (files two_cities_up)
    /\ Permutation df (earlier_rows ++ added)
    /\ Sorted.StronglySorted Date_le df
    /\ length added = 2%nat.
Proof.
  intros added. eexists.
  eapply (@create_city_comparison_appends plain_soup an_orchestrator "Software Engineer"
            ["Ottawa"; "Toronto"] two_cities_up _
            [(120, 0, 0, 0); (80, 0, 0, 0)]).
  - reflexivity.
  - eapply counted_cons; [vm_compute; reflexivity |].
    eapply counted_cons; [vm_compute; reflexivity |].
    apply counted_nil.
  - intros rows. vm_compute. discriminate.
Defined.

(** ** Deltas *)

Lemma previous_count_cons (city : string) (r0 : Dashboard.row) (l : list Dashboard.row) :
  previous_count city (r0 :: l)
  = match previous_count city l with
    | Some p => Some p
    | None => if String.eqb (Dashboard.City r0) city
              then Some (Dashboard.Total_Jobs r0) else None
    end.
Proof.
  unfold previous_count. cbn [List.filter].
  destruct (String.eqb (Dashboard.City r0) city); [| now destruct (last _)].
  destruct (List.filter _ l) as [| x fl]; [reflexivity |].
  change (last (r0 :: x :: fl)) with (last (x :: fl)).
  destruct (last (x :: fl)) eqn:Hlast; [reflexivity |].
  apply last_None in Hlast. discriminate.
Qed.

(** Each row is compared with the last earlier row of its city, or with
    what [seen] holds for the city when there is none. *)
Lemma diff_by_City_lookup (df : list Dashboard.row) :
  forall (seen : gmap string (option Z)) (i : nat) (r : Dashboard.row),
    df !! i = Some r ->
    Dashboard.diff_by_City seen df !! i
    = Some (match previous_count (Dashboard.City r) (take i df) with
            | Some p => Dashboard.sub_nan (Dashboard.Total_Jobs r) p
            | None =>
                match seen !! Dashboard.City r with
                | Some p => Dashboard.sub_nan (Dashboard.Total_Jobs r) p
                | None => None
                end
            end).
Proof.
  induction df as [| r0 df IH]; intros seen i r Hi; [discriminate |].
  destruct i as [| i].
  - injection Hi as <-. reflexivity.
  - cbn [Dashboard.diff_by_City]. cbn [lookup list_lookup] in *.
    rewrite (IH _ i r Hi). cbn [take]. rewrite previous_count_cons.
    destruct (previous_count (Dashboard.City r) (take i df)); [reflexivity |].
    destruct (String.eqb_spec (Dashboard.City r0) (Dashboard.City r)) as [-> | Hne].
    + now rewrite lookup_insert_eq.
    + now rewrite lookup_insert_ne.
Qed.

(** X25.  In the frame that [find_latest_jobs_cities] builds before
    keeping the latest date, the delta of a row is its count minus the
    count of the nearest earlier row of the same city, and 0 for the first
    row of a city or when one of the two counts is missing. *)
Theorem with_deltas_delta (df : list Dashboard.row) (i : nat) (r : Dashboard.row) :
  grouped df !! i = Some r ->
  Dashboard.with_deltas df !! i
  = Some {| Dashboard.view_Date := Dashboard.Date r;
            Dashboard.view_City := Dashboard.City r;
            Dashboard.view_Total_Jobs := default 0 (Dashboard.Total_Jobs r);
            Dashboard.view_delta :=
              match previous_count (Dashboard.City r) (take i (grouped df)) with
              | Some previous =>
                  default 0 (Dashboard.sub_nan (Dashboard.Total_Jobs r) previous)
              | None => 0
              end |}.
Proof.
  intros Hi. unfold Dashboard.with_deltas. fold (grouped df).
  rewrite lookup_zip_with, Hi. cbn [mbind option_bind].
  rewrite (diff_by_City_lookup (grouped df) ∅ i r Hi), lookup_empty.
  cbn [mbind option_bind]. unfold Dashboard.fill.
  now destruct (previous_count (Dashboard.City r) (take i (grouped df))).
Qed.

Lemma with_deltas_delta_witness :
  Dashboard.with_deltas four_rows !! 1%nat
  = Some {| Dashboard.view_Date := "2024-01-20"; Dashboard.view_City := "Ottawa";
            Dashboard.view_Total_Jobs := 130; Dashboard.view_delta := 30 |}.
Proof.
  apply (with_deltas_delta four_rows 1
           {| Dashboard.Date := "2024-01-20"; Dashboard.City := "Ottawa";
              Dashboard.Total_Jobs := Some 130 |}).
  vm_compute. reflexivity.
Defined.

Lemma filter_flat_map {A B} (p : B -> bool) (f : A -> list B) (l : list A) :
  List.filter p (flat_map f l) = flat_map (fun x => List.filter p (f x)) l.
Proof.
  induction l as [| x l IH]; [reflexivity |]. cbn. now rewrite List.filter_app, IH.
Qed.

Lemma filter_all {A} (p : A -> bool) (l : list A) :
  (forall x, In x l -> p x = true) -> List.filter p l = l.
Proof.
  induction l as [| x l IH]; intros Hl; [reflexivity |]. cbn.
  rewrite (Hl x) by (left; reflexivity). f_equal. apply IH. intros y Hy. apply Hl. now right.
Qed.

Lemma filter_none {A} (p : A -> bool) (l : list A) :
  (forall x, In x l -> p x = false) -> List.filter p l = [].
Proof.
  induction l as [| x l IH]; intros Hl; [reflexivity |]. cbn.
  rewrite (Hl x) by (left; reflexivity). apply IH. intros y Hy. apply Hl. now right.
Qed.

(** The rows of one group all belong to the group's city. *)
Lemma sorted_group_City (df : list Dashboard.row) (key : string) (r : Dashboard.row) :
  In r (sort_values Dashboard.Date_asc (Dashboard.group df key)) -> Dashboard.City r = key.
Proof.
  intros Hr. eapply Permutation_in in Hr; [| apply sort_values_perm].
  apply filter_In in Hr as [_ Hr]. now apply String.eqb_eq.
Qed.

Lemma groups_of_city (df : list Dashboard.row) (city : string) (keys : list string) :
  NoDup keys ->
  List.filter (fun r => String.eqb (Dashboard.City r) city)
    (flat_map (fun key => sort_values Dashboard.Date_asc (Dashboard.group df key)) keys)
  = if bool_decide (city ∈ keys)
    then sort_values Dashboard.Date_asc (Dashboard.group df city) else [].
Proof.
  rewrite filter_flat_map.
  induction 1 as [| key keys Hnin Hnd IH]; [reflexivity |]. cbn [flat_map]. rewrite IH.
  destruct (decide (key = city)) as [-> | Hne].
  - rewrite filter_all
      by (intros r Hr; apply String.eqb_eq; eapply sorted_group_City; eauto).
    rewrite (bool_decide_eq_false_2 (city ∈ keys)) by exact Hnin.
    rewrite (bool_decide_eq_true_2 (city ∈ city :: keys)) by left.
    apply app_nil_r.
  - rewrite filter_none.
    + cbn [app]. destruct (bool_decide_reflect (city ∈ keys)) as [Hin | Hnin'].
      * now rewrite (bool_decide_eq_true_2 (city ∈ key :: keys)) by (right; exact Hin).
      * rewrite (bool_decide_eq_false_2 (city ∈ key :: keys)); [reflexivity |].
        intros Hin. apply elem_of_cons in Hin as [-> | Hin]; contradiction.
    + intros r Hr. apply String.eqb_neq. apply sorted_group_City in Hr. congruence.
Qed.

(** X26.  Grouping the totals by city loses and invents no row, and puts
    the rows of each city in ascending date order. *)
Theorem grouped_by_city_in_date_order (df : list Dashboard.row) (city : string) :
  Permutation (grouped df) df
  /\ Sorted.StronglySorted row_Date_le
       (List.filter (fun r => String.eqb (Dashboard.City r) city) (grouped df))
  /\ Permutation
       (List.filter (fun r => String.eqb (Dashboard.City r) city) (grouped df))
       (List.filter (fun r => String.eqb (Dashboard.City r) city) df).
Proof.
  assert (Hperm : Permutation (grouped df) df).
  { unfold grouped. rewrite groupby_City_sorted_perm. apply sort_values_perm. }
  split; [exact Hperm |]. split; [| now apply filter_perm].
  unfold grouped, Dashboard.groupby_City_sorted.
  rewrite groups_of_city by apply group_keys_spec.
  destruct (bool_decide _); [| constructor].
  apply (sort_values_sorted Dashboard.Date_asc).
  - intros a b. apply String.leb_total.
  - intros a b c. apply leb_trans.
Qed.

(** ** The dashboard readers *)






(** ** The conversions of the record *)

Lemma forallb_false {A} (f : A -> bool) (l : list A) :
  forallb f l = false -> exists x, In x l /\ f x = false.
Proof.
  induction l as [| x l IH]; [discriminate |]. cbn.
  destruct (f x) eqn:Hx; [| eauto]. intros Hl. destruct (IH Hl) as (y & Hy & Hfy). eauto.
Qed.

Lemma from_dict_None (data : gmap string (option string)) :
  JobPostingConv.from_dict data = None <->
  (exists key, is_Some (data !! key) /\ key ∉ JobPostingConv.parameters)
  \/ data !! "title" = None \/ data !! "job_link" = None.
Proof.
  unfold JobPostingConv.from_dict.
  destruct (forallb _ (map fst (map_to_list data))) eqn:Hkeys.
  - assert (Hall : forall key, is_Some (data !! key) -> key ∈ JobPostingConv.parameters).
    { intros key [v Hv]. rewrite forallb_forall in Hkeys.
      apply (bool_decide_eq_true_1 (key ∈ JobPostingConv.parameters)). apply Hkeys.
      apply in_map_iff. exists (key, v). split; [reflexivity |].
      apply list_elem_of_In. now apply elem_of_map_to_list. }
    destruct (data !! "title") as [title |] eqn:Htitle;
      destruct (data !! "job_link") as [job_link |] eqn:Hlink; split; auto; try discriminate.
    intros [(key & Hsome & Hnot) | [Hn | Hn]]; try discriminate.
    now destruct (Hnot (Hall key Hsome)).
  - split; [intros _ | reflexivity]. left.
    apply forallb_false in Hkeys as (key & Hin & Hnot).
    apply in_map_iff in Hin as ([k v] & <- & Hin). cbn [fst] in *.
    exists k. split.
    + exists v. apply elem_of_map_to_list. now apply list_elem_of_In.
    + intros Hk. now rewrite bool_decide_eq_true_2 in Hnot.
Qed.

(** X28.  [from_dict] undoes [to_dict]: the dict of a record has the
    eighteen field names as keys and gives the record back.  [from_dict]
    fails exactly on a dict with a key that is no field name or without
    one of the two required fields, title and job link. *)
Theorem to_dict_from_dict (record : JobPosting.t) (data : gmap string (option string)) :
  JobPostingConv.from_dict (JobPostingConv.to_dict record) = Some record
  /\ dom (JobPostingConv.to_dict record) = list_to_set JobPostingConv.parameters
  /\ (JobPostingConv.from_dict data = None <->
      (exists key, is_Some (data !! key) /\ key ∉ JobPostingConv.parameters)
      \/ data !! "title" = None \/ data !! "job_link" = None).
Proof.
  split; [| split; [| apply from_dict_None]]; destruct record.
  - vm_compute. reflexivity.
  - apply (bool_decide_eq_true_1
             (dom (JobPostingConv.to_dict _) = list_to_set JobPostingConv.parameters)).
    vm_compute. reflexivity.
Qed.

(** X29.  [from_df] by index: an index at or beyond the number of rows,
    or an empty frame, is refused with [ValueError]; an index [i] within
    range gives row [i], a negative index counts from the end, an index
    below minus the number of rows raises [IndexError]; and the one-row
    frame of a record gives the record back. *)
Theorem from_df_index (df : list JobPosting.t) :
  (forall index,
     JobPostingConv.from_df df index = Raise (ValueError "Invalid DataFrame or index")
     <-> df = [] \/ Z.of_nat (length df) <= index)
  /\ (forall (i : nat) row,
        df !! i = Some row -> JobPostingConv.from_df df (Z.of_nat i) = Ok row)
  /\ (forall (i : nat) row,
        df !! i = Some row ->
        JobPostingConv.from_df df (Z.of_nat i - Z.of_nat (length df)) = Ok row)
  /\ (forall index,
        df <> [] -> index < - Z.of_nat (length df) ->
        JobPostingConv.from_df df index
        = Raise (IndexError "single positional indexer is out-of-bounds"))
  /\ (forall record, JobPostingConv.from_df (JobPosting.to_df record) 0 = Ok record).
Proof.
  unfold JobPostingConv.from_df. cbv zeta.
  split; [| split; [| split; [| split]]].
  - intros index.
    destruct (bool_decide_reflect (df = [])) as [Hnil | Hne]; cbn [orb].
    { split; auto. }
    destruct (Z.leb_spec (Z.of_nat (length df)) index) as [Hle | Hlt].
    { split; auto. }
    split; [| intros [? | ?]; [contradiction | lia]].
    repeat match goal with |- context [if ?b then _ else _] => destruct b end;
      try discriminate; destruct (df !! _); discriminate.
  - intros i row Hi. pose proof (lookup_lt_Some _ _ _ Hi) as Hlt.
    rewrite bool_decide_eq_false_2 by (intros ->; discriminate). cbn [orb].
    destruct (Z.leb_spec (Z.of_nat (length df)) (Z.of_nat i)); [lia |].
    rewrite !(proj2 (Z.ltb_ge (Z.of_nat i) 0)) by lia.
    now rewrite Nat2Z.id, Hi.
  - intros i row Hi. pose proof (lookup_lt_Some _ _ _ Hi) as Hlt.
    rewrite bool_decide_eq_false_2 by (intros ->; discriminate). cbn [orb].
    destruct (Z.leb_spec (Z.of_nat (length df)) (Z.of_nat i - Z.of_nat (length df)));
      [lia |].
    destruct (Z.ltb_spec (Z.of_nat i - Z.of_nat (length df)) 0); [| lia].
    replace (Z.of_nat (length df) + (Z.of_nat i - Z.of_nat (length df))) with (Z.of_nat i)
      by lia.
    rewrite !(proj2 (Z.ltb_ge (Z.of_nat i) 0)) by lia.
    now rewrite Nat2Z.id, Hi.
  - intros index Hne Hlow.
    rewrite bool_decide_eq_false_2 by exact Hne. cbn [orb].
    destruct (Z.leb_spec (Z.of_nat (length df)) index); [lia |].
    destruct (Z.ltb_spec index 0); [| lia].
    destruct (Z.ltb_spec (Z.of_nat (length df) + index) 0); [reflexivity | lia].
  - intros record. unfold JobPosting.to_df.
    rewrite bool_decide_eq_false_2 by discriminate. reflexivity.
Qed.
